(** * HTU21D temperature / humidity sensor driver

    A shallow embedding of [src/htu21d.c] (and of [delay_ms] from
    [src/esp32_i2c.c]) together with the properties of the driver's protocol
    and validation logic: the CRC-8 check, the read-modify-write of the user
    register, the resolution-dependent conversion times, the measurement and
    serial-number sequences and the derived values.

    Conventions.
    - C integers are [Z]; a store into a [uint8_t], [uint16_t] or [uint32_t]
      object is written out as a reduction modulo 2^8, 2^16 or 2^32.
    - The bus transport ([i2c_master_*_packet_wait*], [delay_ms]) is external.
      One run of the driver sees the transport as a sequence of replies, one
      per transaction; the state carries that sequence as a script and records
      every call in a trace.
    - [float] is IEEE binary32 and [double] is IEEE binary64, both taken from
      the Standard Library's [SpecFloat] (round to nearest even), evaluated
      with the precision of the C type of each sub-expression. *)

From Stdlib Require Import ZArith QArith Qabs Qpower List Bool Lia.
From Stdlib Require Import Floats.SpecFloat.
Import ListNotations.

Local Open Scope Z_scope.

(** ** Fixed-width integers *)

Definition uint8 (x : Z) : Z := x mod 2 ^ 8.
Definition uint16 (x : Z) : Z := x mod 2 ^ 16.
Definition uint32 (x : Z) : Z := x mod 2 ^ 32.
Definition uint64 (x : Z) : Z := x mod 2 ^ 64.

(** [~x] on a [uint32_t]. *)
Definition not32 (x : Z) : Z := uint32 (Z.lnot x).

(** ** Status codes *)

(** [enum status_code] of esp32_i2c.h. *)
Inductive status_code : Set :=
| STATUS_OK
| STATUS_ERR_OVERFLOW
| STATUS_ERR_TIMEOUT.

(** Modelled from the spec: htu21d.h, which declares [enum htu21_status], is
    not among the sources.  A status is ok or one of the error kinds
    "NoAcknowledge", "TransferError" and "CrcError"; the names are those
    htu21d.c returns. *)
Inductive htu21_status : Set :=
| htu21_status_ok
| htu21_status_no_i2c_acknowledge
| htu21_status_i2c_transfer_error
| htu21_status_crc_error.

Definition htu21_status_eqb (a b : htu21_status) : bool :=
  match a, b with
  | htu21_status_ok, htu21_status_ok
  | htu21_status_no_i2c_acknowledge, htu21_status_no_i2c_acknowledge
  | htu21_status_i2c_transfer_error, htu21_status_i2c_transfer_error
  | htu21_status_crc_error, htu21_status_crc_error => true
  | _, _ => false
  end.

(** ** CRC check *)

Module Crc.

(** The body of [while( msb != 0x80 )] in [htu21_crc_check]: the loop state is
    [(result, msb, mask, polynom)], all [uint32_t].  [None] is an exhausted
    fuel, [Some result] the value of [result] at the loop exit. *)
Fixpoint crc_while (fuel : nat) (result msb mask polynom : Z) : option Z :=
  match fuel with
  | O => None
  | S fuel' =>
      if msb =? 0x80 then Some result
      else
        let result' :=
          if Z.land result msb =? 0 then result
          else Z.lor (Z.land (Z.lxor result polynom) mask)
                     (Z.land result (not32 mask)) in
        crc_while fuel' result' (Z.shiftr msb 1) (Z.shiftr mask 1)
                  (Z.shiftr polynom 1)
  end.

(** The value of [result] when the loop of [htu21_crc_check] is left.  The
    marker [msb] starts at bit 23 and reaches 0x80 after 16 shifts, so 17
    units of fuel reach the exit test (lemma [crc_while_terminates]). *)
Definition crc_result (value : Z) : option Z :=
  let polynom := 0x988000 in
  let msb := 0x800000 in
  let mask := 0xFF8000 in
  let result := uint32 (Z.shiftl (uint16 value) 8) in
  crc_while 17 result msb mask polynom.

Definition htu21_crc_check (value crc : Z) : htu21_status :=
  match crc_result value with
  | Some result =>
      if result =? uint8 crc then htu21_status_ok else htu21_status_crc_error
  | None => htu21_status_crc_error
  end.

(** *** The checksum as the specification words it

    CRC-8 with generator x^8 + x^5 + x^4 + 1, most significant bit first, no
    reflection, initial remainder 0, over the 16-bit value followed by a zero
    byte: the remainder of the 24-bit message in the division by the
    generator, with the message bits shifted in from the top. *)

Definition crc8_generator : Z := 0x131.

Definition crc8_shift_in (remainder : Z) (bit : bool) : Z :=
  let r := Z.lor (Z.shiftl remainder 1) (Z.b2z bit) in
  if Z.testbit r 8 then Z.lxor r crc8_generator else r.

Definition msb_first_bits (width : nat) (x : Z) : list bool :=
  map (fun k => Z.testbit x (Z.of_nat k)) (rev (seq 0 width)).

Definition crc8_spec (v : Z) : Z :=
  fold_left crc8_shift_in (msb_first_bits 24 (Z.shiftl v 8)) 0.

(** Flipping bit [k] of a checksum byte. *)
Definition flip_bit (c : Z) (k : Z) : Z := Z.lxor c (Z.shiftl 1 k).

(** Decision of a property over the [n] integers from [x] upwards. *)
Fixpoint forall_from (n : nat) (x : Z) (p : Z -> bool) : bool :=
  match n with
  | O => true
  | S n' => p x && forall_from n' (x + 1) p
  end.

(** One step of the long division: the generator, moved up so that its top
    bit is at position [i], is subtracted when bit [i] of the register is
    set. *)
Definition division_step (i : Z) (R : Z) : Z :=
  if Z.testbit R i then Z.lxor R (Z.shiftl crc8_generator (i - 8)) else R.

(** The [n] division steps at positions [n + 7] down to 8. *)
Fixpoint divide (n : nat) (R : Z) : Z :=
  match n with
  | O => R
  | S j => divide j (division_step (Z.of_nat j + 8) R)
  end.

(** The message bits [n - 1] down to 0 shifted into the remainder. *)
Fixpoint shift_in_bits (n : nat) (M remainder : Z) : Z :=
  match n with
  | O => remainder
  | S j => shift_in_bits j M (crc8_shift_in remainder (Z.testbit M (Z.of_nat j)))
  end.

End Crc.

Import Crc.

(** ** The bus transport *)

Module Bus.

(** [struct i2c_master_packet] of esp32_i2c.h; for a write, [data] holds the
    bytes sent. *)
Record i2c_master_packet : Set := {
  address : Z;
  data_length : Z;
  data : list Z
}.

(** The calls the driver makes on its collaborators: the four functions of
    the transport and, through [delay_ms], FreeRTOS's [vTaskDelay].
    [TaskDelay ms] is a delay requested for [ms] milliseconds; the number of
    ticks it becomes ([ms / portTICK_PERIOD_MS]) is the platform's. *)
Inductive bus_call : Set :=
| I2cMasterInit
| I2cWrite (packet : i2c_master_packet)
| I2cWriteNoStop (packet : i2c_master_packet)
| I2cRead (addr len : Z)
| TaskDelay (ms : Z).

(** What the transport answers to one transaction: its status and, for a
    read, the bytes it stores into the packet's buffer. *)
Record bus_reply : Set := {
  reply_status : status_code;
  reply_data : list Z
}.

(** Modelled from the spec: [enum htu21_i2c_master_mode] is declared in
    htu21d.h, not among the sources; the mode flag is "hold" or "no_hold". *)
Inductive htu21_i2c_master_mode : Set :=
| htu21_i2c_hold
| htu21_i2c_no_hold.

(** The driver's three globals, the replies the transport will give to the
    transactions to come and the calls made so far, oldest first. *)
Record driver_state : Set := {
  htu21_temperature_conversion_time : Z;
  htu21_humidity_conversion_time : Z;
  i2c_master_mode : htu21_i2c_master_mode;
  bus_script : list bus_reply;
  bus_trace : list bus_call
}.

Definition M (A : Type) : Type := driver_state -> A * driver_state.

Definition ret {A : Type} (a : A) : M A := fun s => (a, s).

Definition bind {A B : Type} (c : M A) (k : A -> M B) : M B :=
  fun s => let (a, s') := c s in k a s'.

Definition record_call (c : bus_call) : M unit :=
  fun s =>
    (tt, {| htu21_temperature_conversion_time :=
              htu21_temperature_conversion_time s;
            htu21_humidity_conversion_time := htu21_humidity_conversion_time s;
            i2c_master_mode := i2c_master_mode s;
            bus_script := bus_script s;
            bus_trace := bus_trace s ++ [c] |}).

(** A transport that has run out of scripted replies times out. *)
Definition next_reply : M bus_reply :=
  fun s =>
    match bus_script s with
    | [] => ({| reply_status := STATUS_ERR_TIMEOUT; reply_data := [] |}, s)
    | r :: rest =>
        (r, {| htu21_temperature_conversion_time :=
                 htu21_temperature_conversion_time s;
               htu21_humidity_conversion_time :=
                 htu21_humidity_conversion_time s;
               i2c_master_mode := i2c_master_mode s;
               bus_script := rest;
               bus_trace := bus_trace s |})
    end.

Definition set_conversion_times (t h : Z) : M unit :=
  fun s =>
    (tt, {| htu21_temperature_conversion_time := uint32 t;
            htu21_humidity_conversion_time := uint32 h;
            i2c_master_mode := i2c_master_mode s;
            bus_script := bus_script s;
            bus_trace := bus_trace s |}).

Definition set_master_mode (m : htu21_i2c_master_mode) : M unit :=
  fun s =>
    (tt, {| htu21_temperature_conversion_time :=
              htu21_temperature_conversion_time s;
            htu21_humidity_conversion_time := htu21_humidity_conversion_time s;
            i2c_master_mode := m;
            bus_script := bus_script s;
            bus_trace := bus_trace s |}).

Definition get {A : Type} (field : driver_state -> A) : M A :=
  fun s => (field s, s).

(** The first [n] bytes of [buffer] overwritten, as [uint8_t], by the bytes
    the transport delivers; where it delivers fewer, the buffer keeps what it
    held. *)
Fixpoint store_bytes (n : nat) (delivered buffer : list Z) : list Z :=
  match n, buffer with
  | S n', b :: buffer' =>
      match delivered with
      | d :: delivered' => uint8 d :: store_bytes n' delivered' buffer'
      | [] => b :: store_bytes n' [] buffer'
      end
  | _, _ => buffer
  end.

Definition i2c_master_init : M unit := record_call I2cMasterInit.

Definition i2c_master_write_packet_wait (packet : i2c_master_packet)
  : M status_code :=
  bind (record_call (I2cWrite packet)) (fun _ =>
  bind next_reply (fun r => ret (reply_status r))).

Definition i2c_master_write_packet_wait_no_stop (packet : i2c_master_packet)
  : M status_code :=
  bind (record_call (I2cWriteNoStop packet)) (fun _ =>
  bind next_reply (fun r => ret (reply_status r))).

(** A read of [len] bytes into [buffer]; the result carries the buffer after
    the call. *)
Definition i2c_master_read_packet_wait (addr len : Z) (buffer : list Z)
  : M (status_code * list Z) :=
  bind (record_call (I2cRead addr len)) (fun _ =>
  bind next_reply (fun r =>
  ret (reply_status r, store_bytes (Z.to_nat len) (reply_data r) buffer))).

(** [delay_ms] of esp32_i2c.c: [vTaskDelay] is reached for [ms >= 0] only. *)
Definition delay_ms (ms : Z) : M unit :=
  if 0 <=? ms then record_call (TaskDelay ms) else ret tt.

End Bus.

Import Bus.

Declare Scope driver_scope.
Delimit Scope driver_scope with driver.
Notation "x <- c ;; k" := (bind c (fun x => k))
  (at level 61, c at next level, right associativity) : driver_scope.
Notation "' pat <- c ;; k" := (bind c (fun x => let 'pat := x in k))
  (at level 61, pat pattern, c at next level, right associativity)
  : driver_scope.
Notation "c ;;; k" := (bind c (fun _ => k))
  (at level 61, right associativity) : driver_scope.

Local Open Scope driver_scope.

(** ** IEEE arithmetic *)

Module IEEE.

(** C's [float] and [double]. *)
Definition float : Set := spec_float.
Definition double : Set := spec_float.

Definition fadd : float -> float -> float := SFadd 24 128.
Definition fsub : float -> float -> float := SFsub 24 128.
Definition fmul : float -> float -> float := SFmul 24 128.
Definition fdiv : float -> float -> float := SFdiv 24 128.
Definition dadd : double -> double -> double := SFadd 53 1024.
Definition dsub : double -> double -> double := SFsub 53 1024.
Definition dmul : double -> double -> double := SFmul 53 1024.
Definition ddiv : double -> double -> double := SFdiv 53 1024.

(** Conversions of an integer. *)
Definition float_of_int (n : Z) : float := binary_normalize 24 128 n 0 false.
Definition double_of_int (n : Z) : double := binary_normalize 53 1024 n 0 false.

(** [(double)f] is exact, [(float)d] rounds. *)
Definition double_of_float (f : float) : double :=
  match f with
  | S754_finite s m e => binary_round 53 1024 s m e
  | _ => f
  end.

Definition float_of_double (d : double) : float :=
  match d with
  | S754_finite s m e => binary_round 24 128 s m e
  | _ => d
  end.

(** A decimal constant [num / den] of type [double], with [num] and [den]
    integers below 2^53: the correctly rounded quotient. *)
Definition double_literal (num den : Z) : double :=
  ddiv (double_of_int num) (double_of_int den).

Definition is_nan (x : spec_float) : bool :=
  match x with S754_nan => true | _ => false end.

Definition is_zero (x : spec_float) : bool :=
  match x with S754_zero _ => true | _ => false end.

(** Zero or finite: neither an infinity nor a NaN. *)
Definition is_finite (x : spec_float) : bool :=
  match x with S754_zero _ | S754_finite _ _ _ => true | _ => false end.

(** The rational number a zero or a finite float stands for. *)
Definition float_value (x : spec_float) : option Q :=
  match x with
  | S754_zero _ => Some 0%Q
  | S754_finite s m e =>
      Some (inject_Z (if s then Z.neg m else Z.pos m) * Qpower 2 e)%Q
  | _ => None
  end.

(** The two functions of [<math.h>] the driver calls. *)
Record libm : Type := {
  pow : double -> double -> double;
  log10 : double -> double
}.

End IEEE.

Import IEEE.

(** ** The driver *)

Module Htu21.

(** *** Constants of htu21d.c *)

Definition HTU21_ADDR : Z := 0x40.

Definition HTU21_RESET_COMMAND : Z := 0xFE.
Definition HTU21_READ_TEMPERATURE_W_HOLD_COMMAND : Z := 0xE3.
Definition HTU21_READ_TEMPERATURE_WO_HOLD_COMMAND : Z := 0xF3.
Definition HTU21_READ_HUMIDITY_W_HOLD_COMMAND : Z := 0xE5.
Definition HTU21_READ_HUMIDITY_WO_HOLD_COMMAND : Z := 0xF5.
Definition HTU21_READ_SERIAL_FIRST_8BYTES_COMMAND : Z := 0xFA0F.
Definition HTU21_READ_SERIAL_LAST_6BYTES_COMMAND : Z := 0xFCC9.
Definition HTU21_WRITE_USER_REG_COMMAND : Z := 0xE6.
Definition HTU21_READ_USER_REG_COMMAND : Z := 0xE7.

Definition RESET_TIME : Z := 15.

Definition HTU21_TEMPERATURE_CONVERSION_TIME_T_14b_RH_12b : Z := 50000.
Definition HTU21_TEMPERATURE_CONVERSION_TIME_T_13b_RH_10b : Z := 25000.
Definition HTU21_TEMPERATURE_CONVERSION_TIME_T_12b_RH_8b : Z := 13000.
Definition HTU21_TEMPERATURE_CONVERSION_TIME_T_11b_RH_11b : Z := 7000.
Definition HTU21_HUMIDITY_CONVERSION_TIME_T_14b_RH_12b : Z := 16000.
Definition HTU21_HUMIDITY_CONVERSION_TIME_T_13b_RH_10b : Z := 5000.
Definition HTU21_HUMIDITY_CONVERSION_TIME_T_12b_RH_8b : Z := 3000.
Definition HTU21_HUMIDITY_CONVERSION_TIME_T_11b_RH_11b : Z := 8000.

Definition HTU21_USER_REG_RESOLUTION_MASK : Z := 0x81.
Definition HTU21_USER_REG_END_OF_BATTERY_MASK : Z := 0x40.
Definition HTU21_USER_REG_ENABLE_ONCHIP_HEATER_MASK : Z := 0x4.
Definition HTU21_USER_REG_DISABLE_OTP_RELOAD_MASK : Z := 0x2.

(** The complement is taken on [int]: the mask is the integer -200, whose low
    byte is 0x38. *)
Definition HTU21_USER_REG_RESERVED_MASK : Z :=
  Z.lnot (Z.lor (Z.lor (Z.lor HTU21_USER_REG_RESOLUTION_MASK
                              HTU21_USER_REG_END_OF_BATTERY_MASK)
                       HTU21_USER_REG_ENABLE_ONCHIP_HEATER_MASK)
                HTU21_USER_REG_DISABLE_OTP_RELOAD_MASK).

Definition HTU21_USER_REG_RESOLUTION_T_14b_RH_12b : Z := 0x00.
Definition HTU21_USER_REG_RESOLUTION_T_13b_RH_10b : Z := 0x80.
Definition HTU21_USER_REG_RESOLUTION_T_12b_RH_8b : Z := 0x01.
Definition HTU21_USER_REG_RESOLUTION_T_11b_RH_11b : Z := 0x81.

Definition HTU21_USER_REG_END_OF_BATTERY_VDD_ABOVE_2_25V : Z := 0x00.
Definition HTU21_USER_REG_END_OF_BATTERY_VDD_BELOW_2_25V : Z := 0x40.
Definition HTU21_USER_REG_ONCHIP_HEATER_ENABLE : Z := 0x04.
Definition HTU21_USER_REG_OTP_RELOAD_DISABLE : Z := 0x02.

(** [(float)(-0.15)] and the three Magnus constants, each a [double] constant
    converted to [float]. *)
Definition HTU21_TEMPERATURE_COEFFICIENT : float :=
  float_of_double (SFopp (double_literal 15 100)).
Definition HTU21_CONSTANT_A : float := float_of_double (double_literal 81332 10000).
Definition HTU21_CONSTANT_B : float := float_of_double (double_literal 176239 100).
Definition HTU21_CONSTANT_C : float := float_of_double (double_literal 23566 100).

Definition TEMPERATURE_COEFF_MUL : double := double_literal 17572 100.
Definition TEMPERATURE_COEFF_ADD : double := SFopp (double_literal 4685 100).
Definition HUMIDITY_COEFF_MUL : Z := 125.
Definition HUMIDITY_COEFF_ADD : Z := -6.

(** *** Enumerations of htu21d.h *)

(** Modelled from the spec: htu21d.h is not among the sources.  The
    resolution is "one of 4 fixed levels"; the integer values of the four
    enumerators of [enum htu21_resolution] are taken as a parameter, and a
    resolution argument is any [int]. *)
Record htu21_resolution_enum : Set := {
  htu21_resolution_t_14b_rh_12b : Z;
  htu21_resolution_t_13b_rh_10b : Z;
  htu21_resolution_t_12b_rh_8b : Z;
  htu21_resolution_t_11b_rh_11b : Z
}.

(** Modelled from the spec: [enum htu21_battery_status] is declared in
    htu21d.h, not among the sources; the battery status is "{ok, low}". *)
Inductive htu21_battery_status : Set :=
| htu21_battery_ok
| htu21_battery_low.

(** Modelled from the spec: [enum htu21_heater_status] is declared in
    htu21d.h, not among the sources; the heater status is "{on, off}". *)
Inductive htu21_heater_status : Set :=
| htu21_heater_off
| htu21_heater_on.

(** [status != htu21_status_ok] *)
Definition failed (status : htu21_status) : bool :=
  negb (htu21_status_eqb status htu21_status_ok).

(** *** Functions

    An output parameter [T *p] is an argument holding the content of [*p]
    before the call and a component of the result holding it after the
    call. *)

Definition htu21_init : M unit :=
  set_master_mode htu21_i2c_no_hold ;;;
  i2c_master_init.

Definition htu21_is_connected : M bool :=
  i2c_status <- i2c_master_write_packet_wait
    {| address := HTU21_ADDR; data_length := 0; data := [] |} ;;
  match i2c_status with
  | STATUS_OK => ret true
  | _ => ret false
  end.

Definition htu21_write_command (cmd : Z) : M htu21_status :=
  let data := [uint8 cmd] in
  i2c_status <- i2c_master_write_packet_wait
    {| address := HTU21_ADDR; data_length := 1; data := data |} ;;
  match i2c_status with
  | STATUS_ERR_OVERFLOW => ret htu21_status_no_i2c_acknowledge
  | STATUS_ERR_TIMEOUT => ret htu21_status_i2c_transfer_error
  | STATUS_OK => ret htu21_status_ok
  end.

Definition htu21_write_command_no_stop (cmd : Z) : M htu21_status :=
  let data := [uint8 cmd] in
  i2c_status <- i2c_master_write_packet_wait_no_stop
    {| address := HTU21_ADDR; data_length := 1; data := data |} ;;
  match i2c_status with
  | STATUS_ERR_OVERFLOW => ret htu21_status_no_i2c_acknowledge
  | STATUS_ERR_TIMEOUT => ret htu21_status_i2c_transfer_error
  | STATUS_OK => ret htu21_status_ok
  end.

Definition htu21_reset : M htu21_status :=
  status <- htu21_write_command HTU21_RESET_COMMAND ;;
  if failed status then ret status
  else
    set_conversion_times HTU21_TEMPERATURE_CONVERSION_TIME_T_14b_RH_12b
                         HTU21_HUMIDITY_CONVERSION_TIME_T_14b_RH_12b ;;;
    delay_ms RESET_TIME ;;;
    ret htu21_status_ok.

Definition htu21_set_i2c_master_mode (mode : htu21_i2c_master_mode) : M unit :=
  set_master_mode mode.

Definition htu21_read_user_register (value : Z) : M (htu21_status * Z) :=
  let buffer := [0] in
  status <- htu21_write_command HTU21_READ_USER_REG_COMMAND ;;
  if failed status then ret (status, value)
  else
    '(i2c_status, buffer) <- i2c_master_read_packet_wait HTU21_ADDR 1 buffer ;;
    match i2c_status with
    | STATUS_ERR_OVERFLOW => ret (htu21_status_no_i2c_acknowledge, value)
    | STATUS_ERR_TIMEOUT => ret (htu21_status_i2c_transfer_error, value)
    | STATUS_OK => ret (htu21_status_ok, nth 0 buffer 0)
    end.

(** The caller's [uint8_t reg] is not initialised and is read only after a
    successful register read; 0 stands for its content before the call. *)
Definition htu21_write_user_register (value : Z) : M htu21_status :=
  '(status, reg) <- htu21_read_user_register 0 ;;
  if failed status then ret status
  else
    let reg := uint8 (Z.land reg HTU21_USER_REG_RESERVED_MASK) in
    let reg :=
      uint8 (Z.lor reg (Z.land (uint8 value)
                               (Z.lnot HTU21_USER_REG_RESERVED_MASK))) in
    let data := [HTU21_WRITE_USER_REG_COMMAND; reg] in
    i2c_status <- i2c_master_write_packet_wait
      {| address := HTU21_ADDR; data_length := 2; data := data |} ;;
    match i2c_status with
    | STATUS_ERR_OVERFLOW => ret htu21_status_no_i2c_acknowledge
    | STATUS_ERR_TIMEOUT => ret htu21_status_i2c_transfer_error
    | STATUS_OK => ret htu21_status_ok
    end.

Definition htu21_temperature_conversion_and_read_adc (adc : Z)
  : M (htu21_status * Z) :=
  let buffer := [0; 0; 0] in
  mode <- get i2c_master_mode ;;
  status <-
    match mode with
    | htu21_i2c_hold =>
        htu21_write_command_no_stop HTU21_READ_TEMPERATURE_W_HOLD_COMMAND
    | htu21_i2c_no_hold =>
        status <- htu21_write_command HTU21_READ_TEMPERATURE_WO_HOLD_COMMAND ;;
        time <- get htu21_temperature_conversion_time ;;
        delay_ms (time / 1000) ;;;
        ret status
    end ;;
  if failed status then ret (status, adc)
  else
    '(i2c_status, buffer) <- i2c_master_read_packet_wait HTU21_ADDR 3 buffer ;;
    match i2c_status with
    | STATUS_ERR_OVERFLOW => ret (htu21_status_no_i2c_acknowledge, adc)
    | STATUS_ERR_TIMEOUT => ret (htu21_status_i2c_transfer_error, adc)
    | STATUS_OK =>
        let _adc :=
          uint16 (Z.lor (Z.shiftl (nth 0 buffer 0) 8) (nth 1 buffer 0)) in
        let crc := nth 2 buffer 0 in
        let status := htu21_crc_check _adc crc in
        if failed status then ret (status, adc) else ret (status, _adc)
    end.

Definition htu21_humidity_conversion_and_read_adc (adc : Z)
  : M (htu21_status * Z) :=
  let buffer := [0; 0; 0] in
  mode <- get i2c_master_mode ;;
  status <-
    match mode with
    | htu21_i2c_hold =>
        htu21_write_command_no_stop HTU21_READ_HUMIDITY_W_HOLD_COMMAND
    | htu21_i2c_no_hold =>
        status <- htu21_write_command HTU21_READ_HUMIDITY_WO_HOLD_COMMAND ;;
        time <- get htu21_humidity_conversion_time ;;
        delay_ms (time / 1000) ;;;
        ret status
    end ;;
  if failed status then ret (status, adc)
  else
    '(i2c_status, buffer) <- i2c_master_read_packet_wait HTU21_ADDR 3 buffer ;;
    match i2c_status with
    | STATUS_ERR_OVERFLOW => ret (htu21_status_no_i2c_acknowledge, adc)
    | STATUS_ERR_TIMEOUT => ret (htu21_status_i2c_transfer_error, adc)
    | STATUS_OK =>
        let _adc :=
          uint16 (Z.lor (Z.shiftl (nth 0 buffer 0) 8) (nth 1 buffer 0)) in
        let crc := nth 2 buffer 0 in
        let status := htu21_crc_check _adc crc in
        if failed status then ret (status, adc) else ret (status, _adc)
    end.

(** [rcv_data[i]] *)
Definition at_index (rcv_data : list Z) (i : Z) : Z :=
  nth (Z.to_nat i) rcv_data 0.

(** [for( i=0 ; i<8 ; i+=2 )]: the status of the first failing check over the
    indices left to visit, ok when none fails. *)
Fixpoint check_byte_pairs (indices : list Z) (rcv_data : list Z)
  : htu21_status :=
  match indices with
  | [] => htu21_status_ok
  | i :: rest =>
      let status :=
        htu21_crc_check (at_index rcv_data i) (at_index rcv_data (i + 1)) in
      if failed status then status else check_byte_pairs rest rcv_data
  end.

(** [for( i=8 ; i<14 ; i+=3 )] *)
Fixpoint check_word_triples (indices : list Z) (rcv_data : list Z)
  : htu21_status :=
  match indices with
  | [] => htu21_status_ok
  | i :: rest =>
      let status :=
        htu21_crc_check
          (Z.lor (Z.shiftl (at_index rcv_data i) 8) (at_index rcv_data (i + 1)))
          (at_index rcv_data (i + 2)) in
      if failed status then status else check_word_triples rest rcv_data
  end.

(** The expression stored into [*serial_number]: eight [uint64_t] operands
    joined by [|], which associates to the left. *)
Definition serial_number_of (rcv_data : list Z) : Z :=
  let byte i := uint64 (at_index rcv_data i) in
  Z.lor (Z.lor (Z.lor (Z.lor (Z.lor (Z.lor (Z.lor
    (uint64 (Z.shiftl (byte 0) 56))
    (uint64 (Z.shiftl (byte 2) 48)))
    (uint64 (Z.shiftl (byte 4) 40)))
    (uint64 (Z.shiftl (byte 6) 32)))
    (uint64 (Z.shiftl (byte 8) 24)))
    (uint64 (Z.shiftl (byte 9) 16)))
    (uint64 (Z.shiftl (byte 11) 8)))
    (uint64 (Z.shiftl (byte 12) 0)).

(** [rcv_data] is not initialised in the source; zeros stand for its content
    before the two reads.  The statuses of the two command writes are not
    assigned to anything. *)
Definition htu21_read_serial_number (serial_number : Z)
  : M (htu21_status * Z) :=
  let rcv_data := repeat 0 14 in
  let cmd_data :=
    [Z.land (Z.shiftr HTU21_READ_SERIAL_FIRST_8BYTES_COMMAND 8) 0xFF;
     Z.land HTU21_READ_SERIAL_FIRST_8BYTES_COMMAND 0xFF] in
  _ <- i2c_master_write_packet_wait_no_stop
    {| address := HTU21_ADDR; data_length := 2; data := cmd_data |} ;;
  '(i2c_status, rcv_data) <-
    i2c_master_read_packet_wait HTU21_ADDR 8 rcv_data ;;
  match i2c_status with
  | STATUS_ERR_OVERFLOW => ret (htu21_status_no_i2c_acknowledge, serial_number)
  | STATUS_ERR_TIMEOUT => ret (htu21_status_i2c_transfer_error, serial_number)
  | STATUS_OK =>
      let cmd_data :=
        [Z.land (Z.shiftr HTU21_READ_SERIAL_LAST_6BYTES_COMMAND 8) 0xFF;
         Z.land HTU21_READ_SERIAL_LAST_6BYTES_COMMAND 0xFF] in
      _ <- i2c_master_write_packet_wait_no_stop
        {| address := HTU21_ADDR; data_length := 2; data := cmd_data |} ;;
      '(i2c_status, last) <-
        i2c_master_read_packet_wait HTU21_ADDR 6 (skipn 8 rcv_data) ;;
      let rcv_data := firstn 8 rcv_data ++ last in
      match i2c_status with
      | STATUS_ERR_OVERFLOW =>
          ret (htu21_status_no_i2c_acknowledge, serial_number)
      | STATUS_ERR_TIMEOUT =>
          ret (htu21_status_i2c_transfer_error, serial_number)
      | STATUS_OK =>
          let status := check_byte_pairs [0; 2; 4; 6] rcv_data in
          if failed status then ret (status, serial_number)
          else
            let status := check_word_triples [8; 11] rcv_data in
            if failed status then ret (status, serial_number)
            else ret (htu21_status_ok, serial_number_of rcv_data)
      end
  end.

Definition htu21_set_resolution (E : htu21_resolution_enum) (res : Z)
  : M htu21_status :=
  let tmp := 0 in
  let temperature_conversion_time :=
    HTU21_TEMPERATURE_CONVERSION_TIME_T_14b_RH_12b in
  let humidity_conversion_time := HTU21_HUMIDITY_CONVERSION_TIME_T_14b_RH_12b in
  let '(tmp, temperature_conversion_time, humidity_conversion_time) :=
    if res =? htu21_resolution_t_14b_rh_12b E then
      (HTU21_USER_REG_RESOLUTION_T_14b_RH_12b,
       HTU21_TEMPERATURE_CONVERSION_TIME_T_14b_RH_12b,
       HTU21_HUMIDITY_CONVERSION_TIME_T_14b_RH_12b)
    else if res =? htu21_resolution_t_13b_rh_10b E then
      (HTU21_USER_REG_RESOLUTION_T_13b_RH_10b,
       HTU21_TEMPERATURE_CONVERSION_TIME_T_13b_RH_10b,
       HTU21_HUMIDITY_CONVERSION_TIME_T_13b_RH_10b)
    else if res =? htu21_resolution_t_12b_rh_8b E then
      (HTU21_USER_REG_RESOLUTION_T_12b_RH_8b,
       HTU21_TEMPERATURE_CONVERSION_TIME_T_12b_RH_8b,
       HTU21_HUMIDITY_CONVERSION_TIME_T_12b_RH_8b)
    else if res =? htu21_resolution_t_11b_rh_11b E then
      (HTU21_USER_REG_RESOLUTION_T_11b_RH_11b,
       HTU21_TEMPERATURE_CONVERSION_TIME_T_11b_RH_11b,
       HTU21_HUMIDITY_CONVERSION_TIME_T_11b_RH_11b)
    else (tmp, temperature_conversion_time, humidity_conversion_time) in
  '(status, reg_value) <- htu21_read_user_register 0 ;;
  if failed status then ret status
  else
    let reg_value :=
      uint8 (Z.land reg_value (Z.lnot HTU21_USER_REG_RESOLUTION_MASK)) in
    let reg_value :=
      uint8 (Z.lor reg_value (Z.land tmp HTU21_USER_REG_RESOLUTION_MASK)) in
    set_conversion_times temperature_conversion_time
                         humidity_conversion_time ;;;
    status <- htu21_write_user_register reg_value ;;
    ret status.

Definition htu21_get_battery_status (bat : htu21_battery_status)
  : M (htu21_status * htu21_battery_status) :=
  '(status, reg_value) <- htu21_read_user_register 0 ;;
  if failed status then ret (status, bat)
  else if negb (Z.land reg_value HTU21_USER_REG_END_OF_BATTERY_VDD_BELOW_2_25V
                =? 0)
  then ret (status, htu21_battery_low)
  else ret (status, htu21_battery_ok).

Definition htu21_enable_heater : M htu21_status :=
  '(status, reg_value) <- htu21_read_user_register 0 ;;
  if failed status then ret status
  else
    let reg_value :=
      uint8 (Z.lor reg_value HTU21_USER_REG_ONCHIP_HEATER_ENABLE) in
    status <- htu21_write_user_register reg_value ;;
    ret status.

Definition htu21_disable_heater : M htu21_status :=
  '(status, reg_value) <- htu21_read_user_register 0 ;;
  if failed status then ret status
  else
    let reg_value :=
      uint8 (Z.land reg_value (Z.lnot HTU21_USER_REG_ONCHIP_HEATER_ENABLE)) in
    status <- htu21_write_user_register reg_value ;;
    ret status.

Definition htu21_get_heater_status (heater : htu21_heater_status)
  : M (htu21_status * htu21_heater_status) :=
  '(status, reg_value) <- htu21_read_user_register 0 ;;
  if failed status then ret (status, heater)
  else if negb (Z.land reg_value HTU21_USER_REG_ONCHIP_HEATER_ENABLE =? 0)
  then ret (status, htu21_heater_on)
  else ret (status, htu21_heater_off).

(** [(float)adc * TEMPERATURE_COEFF_MUL / (1UL<<16) + TEMPERATURE_COEFF_ADD]:
    the product, the quotient and the sum are [double]; the store into
    [*temperature] rounds to [float]. *)
Definition temperature_of_adc (adc : Z) : float :=
  float_of_double
    (dadd (ddiv (dmul (double_of_float (float_of_int adc))
                      TEMPERATURE_COEFF_MUL)
                (double_of_int (Z.shiftl 1 16)))
          TEMPERATURE_COEFF_ADD).

(** [(float)adc * HUMIDITY_COEFF_MUL / (1UL<<16) + HUMIDITY_COEFF_ADD]: every
    operand is converted to [float]. *)
Definition humidity_of_adc (adc : Z) : float :=
  fadd (fdiv (fmul (float_of_int adc) (float_of_int HUMIDITY_COEFF_MUL))
             (float_of_int (Z.shiftl 1 16)))
       (float_of_int HUMIDITY_COEFF_ADD).

(** The local [uint16_t adc] is not initialised; 0 stands for its content. *)
Definition htu21_read_temperature_and_relative_humidity
  (temperature humidity : float) : M (htu21_status * float * float) :=
  '(status, adc) <- htu21_temperature_conversion_and_read_adc 0 ;;
  if failed status then ret (status, temperature, humidity)
  else
    let temperature := temperature_of_adc adc in
    '(status, adc) <- htu21_humidity_conversion_and_read_adc adc ;;
    if failed status then ret (status, temperature, humidity)
    else
      let humidity := humidity_of_adc adc in
      ret (status, temperature, humidity).

Definition htu21_compute_compensated_humidity
  (temperature relative_humidity : float) : float :=
  fadd relative_humidity
       (fmul (fsub (float_of_int 25) temperature) HTU21_TEMPERATURE_COEFFICIENT).

(** The first statement of [htu21_compute_dew_point]: the argument of [pow]
    is computed in [float]. *)
Definition partial_pressure (L : libm) (temperature : float) : double :=
  pow L (double_of_int 10)
    (double_of_float
       (fsub HTU21_CONSTANT_A
             (fdiv HTU21_CONSTANT_B (fadd temperature HTU21_CONSTANT_C)))).

Definition htu21_compute_dew_point (L : libm)
  (temperature relative_humidity : float) : float :=
  let partial_pressure : double := partial_pressure L temperature in
  let dew_point : double :=
    dsub (ddiv (double_of_float (SFopp HTU21_CONSTANT_B))
               (dsub (log10 L (ddiv (dmul (double_of_float relative_humidity)
                                          partial_pressure)
                                    (double_of_int 100)))
                     (double_of_float HTU21_CONSTANT_A)))
         (double_of_float HTU21_CONSTANT_C) in
  float_of_double dew_point.

End Htu21.

Import Htu21.

(** ** Definitions used to state the properties *)

Module Spec.

(** How a transport status is reported by the driver. *)
Definition status_of_transfer (i2c_status : status_code) : htu21_status :=
  match i2c_status with
  | STATUS_OK => htu21_status_ok
  | STATUS_ERR_OVERFLOW => htu21_status_no_i2c_acknowledge
  | STATUS_ERR_TIMEOUT => htu21_status_i2c_transfer_error
  end.

(** An instance of the enumeration parameter for running examples: the four
    enumerators numbered from 0 in the order in which [htu21_set_resolution]
    tests them. *)
Definition sample_resolution_enum : htu21_resolution_enum :=
  {| htu21_resolution_t_14b_rh_12b := 0;
     htu21_resolution_t_13b_rh_10b := 1;
     htu21_resolution_t_12b_rh_8b := 2;
     htu21_resolution_t_11b_rh_11b := 3 |}.

Definition ok_reply (bytes : list Z) : bus_reply :=
  {| reply_status := STATUS_OK; reply_data := bytes |}.

Definition failed_reply (i2c_status : status_code) : bus_reply :=
  {| reply_status := i2c_status; reply_data := [] |}.

(** The driver's state after [htu21_init] at program start (the two
    conversion times hold their static initialisers), with a script for the
    transport and an empty trace. *)
Definition initial_state (script : list bus_reply) : driver_state :=
  {| htu21_temperature_conversion_time :=
       HTU21_TEMPERATURE_CONVERSION_TIME_T_14b_RH_12b;
     htu21_humidity_conversion_time :=
       HTU21_HUMIDITY_CONVERSION_TIME_T_14b_RH_12b;
     i2c_master_mode := htu21_i2c_no_hold;
     bus_script := script;
     bus_trace := [] |}.

(** The cached pair of conversion times. *)
Definition conversion_times (s : driver_state) : Z * Z :=
  (htu21_temperature_conversion_time s, htu21_humidity_conversion_time s).

(** A byte. *)
Definition is_byte (b : Z) : Prop := 0 <= b < 256.

(** The number whose digits in base 256 are [bytes], most significant
    first. *)
Definition big_endian (bytes : list Z) : Z :=
  fold_left (fun acc b => acc * 256 + b) bytes 0.

(** The data bytes of the 14 received serial-number bytes, in the order in
    which they enter the serial number. *)
Definition serial_data_bytes (rcv : list Z) : list Z :=
  map (at_index rcv) [0; 2; 4; 6; 8; 9; 11; 12].

(** Every checksum group of the 14 received bytes verifies: four (byte,
    checksum) pairs, then two (big-endian 16-bit value, checksum) triples. *)
Definition serial_groups_verify (rcv : list Z) : bool :=
  forallb (fun i => htu21_status_eqb
                      (htu21_crc_check (at_index rcv i) (at_index rcv (i + 1)))
                      htu21_status_ok)
          [0; 2; 4; 6]
  && forallb (fun i => htu21_status_eqb
                         (htu21_crc_check
                            (big_endian [at_index rcv i; at_index rcv (i + 1)])
                            (at_index rcv (i + 2)))
                         htu21_status_ok)
             [8; 11].

(** The specification's conversions, on the rationals:
    adc * 175.72 / 65536 - 46.85 and adc * 125 / 65536 - 6. *)
Definition exact_celsius (adc : Z) : Q :=
  (inject_Z adc * (17572 # 100) / inject_Z 65536 - (4685 # 100))%Q.

Definition exact_percent_rh (adc : Z) : Q :=
  (inject_Z adc * inject_Z 125 / inject_Z 65536 - inject_Z 6)%Q.

(** [x] is a zero or a finite float at most [tolerance] away from [exact]. *)
Definition float_within (x : spec_float) (exact tolerance : Q) : bool :=
  match float_value x with
  | Some q => Qle_bool (Qabs (q - exact)) tolerance
  | None => false
  end.

(** The outcome of a derived-value computation as the specification has it:
    a value, or a domain error. *)
Inductive derived_value : Set :=
| Computed (v : float)
| DomainError.

(** What a caller of [htu21_compute_dew_point] gets: the function returns a
    [float] and has no other output. *)
Definition dew_point_outcome (L : libm) (temperature relative_humidity : float)
  : derived_value :=
  Computed (htu21_compute_dew_point L temperature relative_humidity).

(** The integer part of a finite double, 0 for the others. *)
Definition truncate (y : double) : Z :=
  match y with
  | S754_finite s m e =>
      let v := if 0 <=? e then Z.pos m * 2 ^ e else Z.pos m / 2 ^ (- e) in
      if s then - v else v
  | _ => 0
  end.

Definition double_one : double := double_of_int 1.

(** A stand-in for the platform's [pow], to run examples.  The special
    values of the exponent are those of C's Annex F for a base above 1
    (pow(x, -inf) = +0, pow(x, +inf) = +inf, pow(x, +-0) = 1); a finite
    exponent is truncated to an integer, of magnitude 2048 at most. *)
Definition coarse_pow (x y : double) : double :=
  match y with
  | S754_nan => S754_nan
  | S754_zero _ => double_one
  | S754_infinity true => S754_zero false
  | S754_infinity false => S754_infinity false
  | S754_finite _ _ _ =>
      let n := truncate y in
      let p := Nat.iter (Z.to_nat (Z.min (Z.abs n) 2048)) (dmul x) double_one in
      if 0 <=? n then p else ddiv double_one p
  end.

(** A stand-in for the platform's [log10].  The special values are those of
    Annex F (log10(+-0) = -inf, log10 of a negative number is NaN,
    log10(+inf) = +inf); for a positive finite argument the result is the
    integer part of its base-2 logarithm times 0.30103. *)
Definition coarse_log10 (x : double) : double :=
  match x with
  | S754_nan => S754_nan
  | S754_zero _ => S754_infinity true
  | S754_infinity false => S754_infinity false
  | S754_infinity true => S754_nan
  | S754_finite true _ _ => S754_nan
  | S754_finite false m e =>
      dmul (double_of_int (Z.pos (digits2_pos m) + e - 1))
           (double_literal 30103 100000)
  end.

Definition coarse_libm : libm := {| pow := coarse_pow; log10 := coarse_log10 |}.

End Spec.

Import Spec.

(** ** Definitions used to state what a call changes *)

Module Effects.

(** The state [s] after the calls [calls] have been made and the transport
    is left with the replies [script]; the globals are those of [s]. *)
Definition advance (s : driver_state) (script : list bus_reply)
  (calls : list bus_call) : driver_state :=
  {| htu21_temperature_conversion_time := htu21_temperature_conversion_time s;
     htu21_humidity_conversion_time := htu21_humidity_conversion_time s;
     i2c_master_mode := i2c_master_mode s;
     bus_script := script;
     bus_trace := bus_trace s ++ calls |}.

(** From [s] to [s'] the cached conversion times and the transfer mode have
    not changed and at most [n] calls have been made. *)
Definition extends (n : nat) (s s' : driver_state) : Prop :=
  conversion_times s' = conversion_times s
  /\ i2c_master_mode s' = i2c_master_mode s
  /\ exists calls,
       bus_trace s' = bus_trace s ++ calls /\ (length calls <= n)%nat.

(** The one-byte command write and the three-byte read of the driver. *)
Definition command_write (cmd : Z) : bus_call :=
  I2cWrite {| address := 0x40; data_length := 1; data := [cmd] |}.

Definition command_write_no_stop (cmd : Z) : bus_call :=
  I2cWriteNoStop {| address := 0x40; data_length := 1; data := [cmd] |}.

Definition register_write (byte : Z) : bus_call :=
  I2cWrite {| address := 0x40; data_length := 2; data := [0xE6; byte] |}.

(** The rows of the conversion-time table of htu21d.c: the resolution bits
    of the user register with the temperature and humidity conversion times
    in microseconds. *)
Definition timing_table : list (Z * (Z * Z)) :=
  [(0x00, (50000, 16000));
   (0x80, (25000, 5000));
   (0x01, (13000, 3000));
   (0x81, (7000, 8000))].

(** The enumerators of [enum htu21_resolution] in the order of the rows of
    [timing_table]. *)
Definition enumerators (E : htu21_resolution_enum) : list Z :=
  [htu21_resolution_t_14b_rh_12b E;
   htu21_resolution_t_13b_rh_10b E;
   htu21_resolution_t_12b_rh_8b E;
   htu21_resolution_t_11b_rh_11b E].

(** The byte [htu21_write_user_register] sends for the target [target] over
    a register that reads [current]. *)
Definition merged_byte (current target : Z) : Z :=
  Z.lor (Z.land current 0x38) (Z.land target 0xC7).

(** [htu21_set_resolution] from its register read on, its chain of
    comparisons having selected the resolution bits [tmp] and the conversion
    times [t] and [h]. *)
Definition set_resolution_with (tmp t h : Z) : M htu21_status :=
  '(status, reg_value) <- htu21_read_user_register 0 ;;
  if failed status then ret status
  else
    let reg_value :=
      uint8 (Z.land reg_value (Z.lnot HTU21_USER_REG_RESOLUTION_MASK)) in
    let reg_value :=
      uint8 (Z.lor reg_value (Z.land tmp HTU21_USER_REG_RESOLUTION_MASK)) in
    set_conversion_times t h ;;;
    status <- htu21_write_user_register reg_value ;;
    ret status.

(** What the chain of comparisons of [htu21_set_resolution] selects. *)
Definition selected_row (E : htu21_resolution_enum) (res : Z) : Z * (Z * Z) :=
  if res =? htu21_resolution_t_14b_rh_12b E then (0x00, (50000, 16000))
  else if res =? htu21_resolution_t_13b_rh_10b E then (0x80, (25000, 5000))
  else if res =? htu21_resolution_t_12b_rh_8b E then (0x01, (13000, 3000))
  else if res =? htu21_resolution_t_11b_rh_11b E then (0x81, (7000, 8000))
  else (0x00, (50000, 16000)).

(** The computation [c] keeps the cached conversion times and the transfer
    mode and makes at most [n] calls, on every state and transport. *)
Definition frames {A : Type} (n : nat) (c : M A) : Prop :=
  forall s, extends n s (snd (c s)).

(** The pairs of conversion times of the table. *)
Definition timing_rows : list (Z * Z) := map snd timing_table.

(** The computation [c] leaves a cached pair of conversion times that is the
    one it found or a row of the table. *)
Definition keeps_table {A : Type} (c : M A) : Prop :=
  forall s,
    conversion_times (snd (c s)) = conversion_times s
    \/ In (conversion_times (snd (c s))) timing_rows.

(** The public functions of the driver that act on the device or on the
    driver's globals, with their arguments. *)
Inductive operation : Type :=
| OpInit
| OpIsConnected
| OpReset
| OpSetMode (mode : htu21_i2c_master_mode)
| OpSetResolution (res : Z)
| OpReadSerialNumber (serial_number : Z)
| OpGetBatteryStatus (bat : htu21_battery_status)
| OpEnableHeater
| OpDisableHeater
| OpGetHeaterStatus (heater : htu21_heater_status)
| OpReadTemperatureAndHumidity (temperature humidity : float).

(** One call, its results dropped. *)
Definition perform (E : htu21_resolution_enum) (op : operation) : M unit :=
  match op with
  | OpInit => htu21_init
  | OpIsConnected => htu21_is_connected ;;; ret tt
  | OpReset => htu21_reset ;;; ret tt
  | OpSetMode mode => htu21_set_i2c_master_mode mode
  | OpSetResolution res => htu21_set_resolution E res ;;; ret tt
  | OpReadSerialNumber sn => htu21_read_serial_number sn ;;; ret tt
  | OpGetBatteryStatus bat => htu21_get_battery_status bat ;;; ret tt
  | OpEnableHeater => htu21_enable_heater ;;; ret tt
  | OpDisableHeater => htu21_disable_heater ;;; ret tt
  | OpGetHeaterStatus heater => htu21_get_heater_status heater ;;; ret tt
  | OpReadTemperatureAndHumidity t h =>
      htu21_read_temperature_and_relative_humidity t h ;;; ret tt
  end.

(** A sequence of calls, first to last. *)
Fixpoint perform_all (E : htu21_resolution_enum) (ops : list operation)
  : M unit :=
  match ops with
  | [] => ret tt
  | op :: rest => perform E op ;;; perform_all E rest
  end.

(** The driver's state at program start, before [htu21_init]: the two
    conversion times hold their static initialisers; [mode] stands for the
    value of the uninitialised mode flag. *)
Definition power_on_state (mode : htu21_i2c_master_mode)
  (script : list bus_reply) : driver_state :=
  {| htu21_temperature_conversion_time :=
       HTU21_TEMPERATURE_CONVERSION_TIME_T_14b_RH_12b;
     htu21_humidity_conversion_time :=
       HTU21_HUMIDITY_CONVERSION_TIME_T_14b_RH_12b;
     i2c_master_mode := mode;
     bus_script := script;
     bus_trace := [] |}.

(** The calls by which a conversion is requested: in hold mode the no-stop
    write of [hold_cmd]; in no-hold mode the write of [no_hold_cmd] and the
    wait of [time / 1000] ms. *)
Definition conversion_request (mode : htu21_i2c_master_mode)
  (hold_cmd no_hold_cmd time : Z) : list bus_call :=
  match mode with
  | htu21_i2c_hold => [command_write_no_stop hold_cmd]
  | htu21_i2c_no_hold => [command_write no_hold_cmd; TaskDelay (time / 1000)]
  end.

(** What a conversion-and-read sequence returns for the three bytes
    [b0; b1; crc] it has read, over the output cell [adc]. *)
Definition reading_outcome (adc b0 b1 crc : Z) : htu21_status * Z :=
  if crc =? crc8_spec (big_endian [b0; b1])
  then (htu21_status_ok, big_endian [b0; b1])
  else (htu21_status_crc_error, adc).

(** The two-byte command write without stop of the serial-number read. *)
Definition serial_command (high low : Z) : bus_call :=
  I2cWriteNoStop {| address := 0x40; data_length := 2; data := [high; low] |}.

(** A corruption of the 24 bits of a reading (16 bits of value above 8 bits
    of checksum) that flips the bits at positions [i], [j] and [k]; positions
    that coincide flip one bit. *)
Definition bit_errors (i j k : Z) : Z :=
  Z.lor (Z.lor (Z.shiftl 1 i) (Z.shiftl 1 j)) (Z.shiftl 1 k).

(** The part of a corruption that hits the value, and the part that hits the
    checksum. *)
Definition value_error (w : Z) : Z := Z.shiftr w 8.
Definition checksum_error (w : Z) : Z := Z.land w 0xFF.

End Effects.

Import Effects.

(** ** Definitions used to state and to check the derived values *)

Module Derived.

(** [x <= 0] as C compares floats: a zero, a negative number or -inf. *)
Definition at_most_zero (x : spec_float) : bool :=
  match x with
  | S754_zero _ | S754_finite true _ _ | S754_infinity true => true
  | _ => false
  end.

(** Below zero: a negative number or -inf. *)
Definition is_negative (x : spec_float) : bool :=
  match x with
  | S754_finite true _ _ | S754_infinity true => true
  | _ => false
  end.

(** Above zero: a positive number or +inf. *)
Definition is_positive (x : spec_float) : bool :=
  match x with
  | S754_finite false _ _ | S754_infinity false => true
  | _ => false
  end.

(** A finite float with its exponent lowered by 16: its quotient by 65536
    when that is no subnormal. *)
Definition scaled_down (x : spec_float) : spec_float :=
  match x with
  | S754_finite s m e => S754_finite s m (e - 16)
  | _ => x
  end.

(** A zero, or a finite float whose mantissa has all [prec] digits and whose
    exponent is far from the bounds of the formats. *)
Definition full_mantissa (prec : Z) (x : spec_float) : bool :=
  match x with
  | S754_zero _ => true
  | S754_finite _ m e =>
      (Z.pos (digits2_pos m) =? prec) && (-100 <=? e) && (e <=? 100)
  | _ => false
  end.

(** [float_within x (num # den) (tn # td)] on the integers, for a zero and
    for a finite float of negative exponent. *)
Definition within_dyadic (x : spec_float) (num : Z) (den : positive)
  (tn : Z) (td : positive) : bool :=
  match x with
  | S754_zero _ => Z.abs num * Z.pos td <=? tn * Z.pos den
  | S754_finite s m (Z.neg k) =>
      let v := if s then Z.neg m else Z.pos m in
      Z.abs (v * Z.pos den - num * 2 ^ Z.pos k) * Z.pos td
      <=? tn * Z.pos den * 2 ^ Z.pos k
  | _ => false
  end.

(** The temperature conversion of the source on the reading [adc], its
    division by 65536 done on the exponent, is within 2^-17 of
    (adc * 17572 - 4685 * 65536) / 6553600. *)
Definition temperature_check (adc : Z) : bool :=
  let p := dmul (double_of_float (float_of_int adc)) TEMPERATURE_COEFF_MUL in
  full_mantissa 53 p
  && within_dyadic
       (float_of_double (dadd (scaled_down p) TEMPERATURE_COEFF_ADD))
       (adc * 17572 - 4685 * 65536) 6553600 1 131072.

(** The humidity conversion of the source on the reading [adc], its division
    by 65536 done on the exponent, is (adc * 125 - 6 * 65536) / 65536. *)
Definition humidity_check (adc : Z) : bool :=
  let p := fmul (float_of_int adc) (float_of_int HUMIDITY_COEFF_MUL) in
  full_mantissa 24 p
  && within_dyadic (fadd (scaled_down p) (float_of_int HUMIDITY_COEFF_ADD))
       (adc * 125 - 6 * 65536) 65536 0 1.

End Derived.

Import Derived.

(** Symbolic execution of the driver call whose result the goal takes apart
    ([let (r, s') := call in ...]), on a state whose script is known: the call
    is evaluated with the byte-level operations kept folded, then the trace
    is re-associated. *)
Ltac run_driver :=
  match goal with
  | |- (let (_, _) := ?call in _) =>
      let run := fresh "run" in
      set (run := call);
      lazy - [uint8 uint16 uint64 Z.land Z.lor Z.lnot Z.shiftl Z.shiftr app
              htu21_crc_check temperature_of_adc humidity_of_adc
              check_byte_pairs check_word_triples serial_number_of
              HTU21_USER_REG_RESERVED_MASK HTU21_USER_REG_RESOLUTION_MASK]
        in run;
      subst run
  end;
  repeat rewrite <- app_assoc;
  cbn [app];
  cbv beta iota.

(** The evaluation of one conversion-and-read sequence on a state whose
    mode, waiting time and first two replies are known. *)
Ltac run_sequence :=
  lazy - [Z.div Z.leb uint8 uint16 Z.lor Z.shiftl app htu21_crc_check
          big_endian];
  try match goal with
      | H : (0 <=? _) = true |- _ => rewrite H
      | H : _ -> (0 <=? _) = true |- _ => rewrite (H eq_refl)
      end;
  lazy - [Z.div Z.leb uint8 uint16 Z.lor Z.shiftl app htu21_crc_check
          big_endian];
  repeat rewrite <- app_assoc;
  repeat match goal with
         | |- context [uint8 (Zpos ?p)] =>
             change (uint8 (Zpos p)) with (Zpos p)
         end.

(** [lia] after the powers of two of the goal have been evaluated. *)
Ltac pow2_lia :=
  repeat match goal with
         | |- context [2 ^ ?k] =>
             let v := eval vm_compute in (2 ^ k) in change (2 ^ k) with v
         end;
  lia.

(** * Properties *)

(** ** CRC check *)

Lemma forall_from_spec (n : nat) (p : Z -> bool) :
  forall x, forall_from n x p = true ->
  forall y, x <= y < x + Z.of_nat n -> p y = true.
Proof.
  induction n as [|n IH]; intros x Hall y Hy.
  - simpl in Hy. lia.
  - simpl in Hall. apply andb_true_iff in Hall as [Hx Hrest].
    destruct (Z.eq_dec y x) as [->|Hne]; [exact Hx|].
    apply (IH (x + 1)); [exact Hrest | lia].
Qed.

Lemma crc_while_S (fuel : nat) (result msb mask polynom : Z) :
  crc_while (S fuel) result msb mask polynom =
  if msb =? 0x80 then Some result
  else crc_while fuel
         (if Z.land result msb =? 0 then result
          else Z.lor (Z.land (Z.lxor result polynom) mask)
                     (Z.land result (not32 mask)))
         (Z.shiftr msb 1) (Z.shiftr mask 1) (Z.shiftr polynom 1).
Proof. reflexivity. Qed.

(** With the marker [n] positions above bit 7, [n] iterations reach the exit
    test, whatever the other three variables hold. *)
Lemma crc_while_exit (n : nat) :
  forall result mask polynom,
    exists r, crc_while (S n) result (Z.shiftl 0x80 (Z.of_nat n)) mask polynom
              = Some r.
Proof.
  induction n as [|n IH]; intros result mask polynom.
  - exists result. reflexivity.
  - rewrite crc_while_S.
    assert (Hpow : 2 <= 2 ^ Z.of_nat (S n)).
    { replace (Z.of_nat (S n)) with (1 + Z.of_nat n) by lia.
      rewrite Z.pow_add_r by lia.
      assert (0 < 2 ^ Z.of_nat n) by (apply Z.pow_pos_nonneg; lia). lia. }
    destruct (Z.eqb_spec (Z.shiftl 0x80 (Z.of_nat (S n))) 0x80) as [E|_].
    + rewrite Z.shiftl_mul_pow2 in E by lia. lia.
    + replace (Z.shiftr (Z.shiftl 0x80 (Z.of_nat (S n))) 1)
        with (Z.shiftl 0x80 (Z.of_nat n)).
      * apply IH.
      * rewrite Z.shiftr_shiftl_l by lia. f_equal. lia.
Qed.

(** The loop of [htu21_crc_check] always reaches its exit. *)
Lemma crc_while_terminates (value : Z) : crc_result value <> None.
Proof.
  unfold crc_result.
  change 0x800000 with (Z.shiftl 0x80 (Z.of_nat 16)).
  destruct (crc_while_exit 16 (uint32 (Z.shiftl (uint16 value) 8))
              0xFF8000 0x988000) as [r ->].
  discriminate.
Qed.

(** *** Bits *)

(** A number whose bits from position [n] on are all clear is below 2^n. *)
Lemma bounded_of_high_bits (a n : Z) :
  0 <= n -> (forall l, n <= l -> Z.testbit a l = false) -> 0 <= a < 2 ^ n.
Proof.
  intros Hn Hbits.
  assert (E : a = a mod 2 ^ n).
  { apply Z.bits_inj'. intros l Hl.
    destruct (Z.lt_ge_cases l n) as [Hlt|Hge].
    - rewrite Z.mod_pow2_bits_low by lia. reflexivity.
    - rewrite Z.mod_pow2_bits_high by lia. apply Hbits. exact Hge. }
  rewrite E. apply Z.mod_pos_bound. apply Z.pow_pos_nonneg; lia.
Qed.

Lemma high_bits_of_bounded (a n l : Z) :
  0 <= a < 2 ^ n -> 0 <= n <= l -> Z.testbit a l = false.
Proof.
  intros Ha Hl.
  rewrite <- (Z.mod_small a (2 ^ n)) by lia.
  apply Z.mod_pow2_bits_high. lia.
Qed.

(** [result & msb] tests one bit. *)
Lemma land_pow2_eqb (R i : Z) :
  0 <= i -> (Z.land R (2 ^ i) =? 0) = negb (Z.testbit R i).
Proof.
  intros Hi.
  destruct (Z.testbit R i) eqn:Hb; cbn [negb].
  - apply Z.eqb_neq. intros E.
    assert (Hbit : Z.testbit (Z.land R (2 ^ i)) i = true).
    { rewrite Z.land_spec, Hb, Z.pow2_bits_true by lia. reflexivity. }
    rewrite E, Z.bits_0 in Hbit. discriminate.
  - apply Z.eqb_eq. apply Z.bits_inj'. intros l Hl.
    rewrite Z.land_spec, Z.bits_0.
    destruct (Z.eq_dec l i) as [->|Hne].
    + rewrite Hb. reflexivity.
    + rewrite Z.pow2_bits_false by lia. apply andb_false_r.
Qed.

(** The assignment in the loop body, [((result ^ polynom) & mask) |
    (result & ~mask)], is [result ^ polynom] when the generator lies within
    the mask. *)
Lemma xor_under_mask (R mask polynom : Z) :
  0 <= R < 2 ^ 32 -> Z.land polynom mask = polynom ->
  Z.lor (Z.land (Z.lxor R polynom) mask) (Z.land R (not32 mask))
  = Z.lxor R polynom.
Proof.
  intros HR Hsub.
  apply Z.bits_inj'. intros l Hl.
  rewrite Z.lor_spec, !Z.land_spec, Z.lxor_spec.
  assert (Hp : Z.testbit polynom l = Z.testbit polynom l && Z.testbit mask l).
  { rewrite <- Z.land_spec, Hsub. reflexivity. }
  unfold not32, uint32.
  destruct (Z.lt_ge_cases l 32) as [Hlt|Hge].
  - rewrite Z.mod_pow2_bits_low, Z.lnot_spec by lia.
    destruct (Z.testbit R l), (Z.testbit polynom l), (Z.testbit mask l);
      try reflexivity; discriminate Hp.
  - rewrite Z.mod_pow2_bits_high by lia.
    rewrite (high_bits_of_bounded R 32 l) by lia.
    destruct (Z.testbit polynom l), (Z.testbit mask l);
      try reflexivity; discriminate Hp.
Qed.

Lemma lxor_bounded (a b n : Z) :
  0 <= n -> 0 <= a < 2 ^ n -> 0 <= b < 2 ^ n -> 0 <= Z.lxor a b < 2 ^ n.
Proof.
  intros Hn Ha Hb. apply bounded_of_high_bits; [exact Hn|].
  intros l Hl. rewrite Z.lxor_spec.
  rewrite (high_bits_of_bounded a n l), (high_bits_of_bounded b n l) by lia.
  reflexivity.
Qed.

Lemma shifted_generator_bounded (k : Z) :
  0 <= k -> 0 <= Z.shiftl crc8_generator k < 2 ^ (k + 9).
Proof.
  intros Hk. rewrite Z.shiftl_mul_pow2 by lia.
  rewrite Z.pow_add_r by lia. unfold crc8_generator.
  assert (0 < 2 ^ k) by (apply Z.pow_pos_nonneg; lia).
  change (2 ^ 9) with 512. nia.
Qed.

(** *** The loop of the source as a long division *)

Lemma division_step_bounded (k R : Z) :
  0 <= k <= 15 -> 0 <= R < 2 ^ 32 ->
  0 <= division_step (k + 8) R < 2 ^ 32.
Proof.
  intros Hk HR. unfold division_step.
  destruct (Z.testbit R (k + 8)); [|exact HR].
  apply lxor_bounded; [lia | exact HR |].
  replace (k + 8 - 8) with k by lia.
  pose proof (shifted_generator_bounded k (proj1 Hk)) as Hg.
  assert (2 ^ (k + 9) <= 2 ^ 32) by (apply Z.pow_le_mono_r; lia).
  lia.
Qed.

(** With the marker at bit [k + 8], the mask and the generator moved up by
    [k], the loop performs the division steps at positions [k + 8] down to 8
    and exits. *)
Lemma crc_while_divides (k : nat) :
  (k <= 15)%nat ->
  forall R, 0 <= R < 2 ^ 32 ->
    crc_while (S (S k)) R (Z.shiftl 0x100 (Z.of_nat k))
              (Z.shiftl 0x1FF (Z.of_nat k))
              (Z.shiftl crc8_generator (Z.of_nat k))
    = Some (divide (S k) R).
Proof.
  induction k as [|k IH]; intros Hk R HR.
  - rewrite crc_while_S. cbn [Z.of_nat Z.shiftl].
    change (256 =? 128) with false. cbv iota.
    change 256 with (2 ^ 8) at 1.
    rewrite land_pow2_eqb by lia.
    rewrite xor_under_mask by (auto; reflexivity).
    cbn [divide Z.of_nat]. unfold division_step.
    change (0 + 8 - 8) with 0. change (0 + 8) with 8.
    cbn [Z.shiftl].
    destruct (Z.testbit R 8); reflexivity.
  - rewrite crc_while_S.
    assert (Hmsb : Z.shiftl 0x100 (Z.of_nat (S k)) = 2 ^ (Z.of_nat (S k) + 8)).
    { rewrite Z.shiftl_mul_pow2 by lia. rewrite Z.pow_add_r by lia.
      change (2 ^ 8) with 256. lia. }
    assert (Hne : (Z.shiftl 0x100 (Z.of_nat (S k)) =? 0x80) = false).
    { apply Z.eqb_neq. rewrite Hmsb.
      assert (2 ^ 9 <= 2 ^ (Z.of_nat (S k) + 8))
        by (apply Z.pow_le_mono_r; lia).
      change (2 ^ 9) with 512 in *. lia. }
    rewrite Hne.
    rewrite Hmsb at 1. rewrite land_pow2_eqb by lia.
    rewrite xor_under_mask;
      [| exact HR | rewrite <- Z.shiftl_land; reflexivity].
    rewrite !Z.shiftr_shiftl_l by lia.
    replace (Z.of_nat (S k) - 1) with (Z.of_nat k) by lia.
    change (divide (S (S k)) R)
      with (divide (S k) (division_step (Z.of_nat (S k) + 8) R)).
    assert (Hstep :
              (if negb (Z.testbit R (Z.of_nat (S k) + 8)) then R
               else Z.lxor R (Z.shiftl crc8_generator (Z.of_nat (S k))))
              = division_step (Z.of_nat (S k) + 8) R).
    { unfold division_step.
      replace (Z.of_nat (S k) + 8 - 8) with (Z.of_nat (S k)) by lia.
      destruct (Z.testbit R (Z.of_nat (S k) + 8)); reflexivity. }
    rewrite Hstep.
    apply IH; [lia|].
    apply division_step_bounded; [lia | exact HR].
Qed.

(** *** The specification's shift register as the same division *)

Lemma msb_first_bits_S (n : nat) (M : Z) :
  msb_first_bits (S n) M = Z.testbit M (Z.of_nat n) :: msb_first_bits n M.
Proof.
  unfold msb_first_bits. rewrite seq_S, rev_app_distr. reflexivity.
Qed.

Lemma fold_shift_in (n : nat) (M : Z) :
  forall remainder,
    fold_left crc8_shift_in (msb_first_bits n M) remainder
    = shift_in_bits n M remainder.
Proof.
  induction n as [|n IH]; intros remainder; [reflexivity|].
  rewrite msb_first_bits_S. cbn [fold_left shift_in_bits]. apply IH.
Qed.

(** Shifting the next bit of [R] into the bits above it. *)
Lemma shift_in_next_bit (R j : Z) :
  0 <= j ->
  Z.lor (Z.shiftl (Z.shiftr R (j + 1)) 1) (Z.b2z (Z.testbit R j))
  = Z.shiftr R j.
Proof.
  intros Hj. apply Z.bits_inj'. intros l Hl.
  rewrite Z.lor_spec, Z.shiftr_spec by lia.
  destruct (Z.eq_dec l 0) as [->|Hne].
  - rewrite Z.shiftl_spec_low by lia. rewrite Z.b2z_bit0. reflexivity.
  - rewrite Z.shiftl_spec, Z.shiftr_spec by lia.
    replace (l - 1 + (j + 1)) with (l + j) by lia.
    destruct (Z.testbit R j); cbn [Z.b2z].
    + change 1 with (2 ^ 0). rewrite Z.pow2_bits_false by lia.
      apply orb_false_r.
    + rewrite Z.bits_0. apply orb_false_r.
Qed.

(** One step of the specification's shift register against one division step
    of the source, the register [R] holding the remainder from bit [j + 1]
    up and the message bits not yet shifted in below. *)
Lemma shift_in_is_division_step (j R M remainder : Z) :
  0 <= j ->
  remainder = Z.shiftr R (j + 1) ->
  0 <= R < 2 ^ (j + 9) ->
  Z.testbit R j = Z.testbit M j ->
  crc8_shift_in remainder (Z.testbit M j)
  = Z.shiftr (division_step (j + 8) R) j
  /\ 0 <= division_step (j + 8) R < 2 ^ (j + 8)
  /\ forall l, 0 <= l < j ->
       Z.testbit (division_step (j + 8) R) l = Z.testbit R l.
Proof.
  intros Hj -> HR Hbit.
  unfold crc8_shift_in, division_step.
  rewrite <- Hbit, shift_in_next_bit by lia.
  rewrite Z.shiftr_spec by lia.
  replace (j + 8 - 8) with j by lia.
  replace (8 + j) with (j + 8) by lia.
  destruct (Z.testbit R (j + 8)) eqn:Htop.
  - split; [|split].
    + rewrite Z.shiftr_lxor, Z.shiftr_shiftl_l by lia.
      replace (j - j) with 0 by lia. reflexivity.
    + apply bounded_of_high_bits; [lia|].
      intros l Hl. rewrite Z.lxor_spec, Z.shiftl_spec by lia.
      destruct (Z.eq_dec l (j + 8)) as [->|Hne].
      * rewrite Htop. replace (j + 8 - j) with 8 by lia. reflexivity.
      * rewrite (high_bits_of_bounded R (j + 9) l) by lia.
        rewrite (high_bits_of_bounded crc8_generator 9 (l - j))
          by (unfold crc8_generator; lia).
        reflexivity.
    + intros l Hl. rewrite Z.lxor_spec, Z.shiftl_spec_low by lia.
      apply xorb_false_r.
  - split; [reflexivity|]. split; [|reflexivity].
    apply bounded_of_high_bits; [lia|].
    intros l Hl.
    destruct (Z.eq_dec l (j + 8)) as [->|Hne]; [exact Htop|].
    apply (high_bits_of_bounded R (j + 9) l); lia.
Qed.

Lemma shift_in_is_divide (M : Z) (n : nat) :
  forall R remainder,
    remainder = Z.shiftr R (Z.of_nat n) ->
    0 <= R < 2 ^ (Z.of_nat n + 8) ->
    (forall l, 0 <= l < Z.of_nat n -> Z.testbit R l = Z.testbit M l) ->
    shift_in_bits n M remainder = divide n R /\ 0 <= divide n R < 256.
Proof.
  induction n as [|n IH]; intros R remainder Hrem HR Hlow.
  - cbn [shift_in_bits divide]. rewrite Hrem. cbn [Z.of_nat] in *.
    rewrite Z.shiftr_0_r. change (2 ^ (0 + 8)) with 256 in HR. auto.
  - cbn [shift_in_bits divide].
    destruct (shift_in_is_division_step (Z.of_nat n) R M remainder)
      as (Hstep & Hbound & Hkeep).
    + lia.
    + rewrite Hrem. f_equal. lia.
    + replace (Z.of_nat n + 9) with (Z.of_nat (S n) + 8) by lia. exact HR.
    + apply Hlow. lia.
    + apply IH; [exact Hstep | exact Hbound |].
      intros l Hl. rewrite Hkeep by lia. apply Hlow. lia.
Qed.

Lemma divide_S (n : nat) (R : Z) :
  divide (S n) R = divide n (division_step (Z.of_nat n + 8) R).
Proof. reflexivity. Qed.

(** A division step above the top bit of the register does nothing. *)
Lemma division_step_above (i R : Z) :
  0 <= R < 2 ^ 24 -> 24 <= i -> division_step i R = R.
Proof.
  intros HR Hi. unfold division_step.
  rewrite (high_bits_of_bounded R 24 i) by lia. reflexivity.
Qed.

(** The specification's CRC-8 is the remainder left by the sixteen division
    steps of the source, and it is a byte. *)
Lemma crc8_spec_divides (v : Z) :
  0 <= v < 65536 ->
  crc8_spec v = divide 16 (Z.shiftl v 8) /\ 0 <= crc8_spec v < 256.
Proof.
  intros Hv. unfold crc8_spec. rewrite fold_shift_in.
  assert (HM : 0 <= Z.shiftl v 8 < 2 ^ 24).
  { rewrite Z.shiftl_mul_pow2 by lia.
    change (2 ^ 8) with 256. change (2 ^ 24) with 16777216. lia. }
  set (M := Z.shiftl v 8) in *. clearbody M.
  destruct (shift_in_is_divide M 24 M 0) as [Heq Hbyte].
  - symmetry. rewrite Z.shiftr_div_pow2 by lia. apply Z.div_small. exact HM.
  - change (2 ^ (Z.of_nat 24 + 8)) with (2 ^ 32).
    assert (2 ^ 24 <= 2 ^ 32) by (apply Z.pow_le_mono_r; lia). lia.
  - reflexivity.
  - assert (Hsame : divide 24 M = divide 16 M).
    { do 8 (rewrite divide_S, (division_step_above _ M HM) by (cbn; lia)).
      reflexivity. }
    rewrite Heq, Hsame in *. auto.
Qed.

(** The loop's result is the specification's CRC-8, and it is a byte. *)
Lemma crc_result_is_crc8 (v : Z) :
  0 <= v < 65536 ->
  crc_result v = Some (crc8_spec v) /\ 0 <= crc8_spec v < 256.
Proof.
  intros Hv.
  destruct (crc8_spec_divides v Hv) as [Hspec Hbyte].
  split; [|exact Hbyte].
  unfold crc_result.
  assert (HM : uint32 (Z.shiftl (uint16 v) 8) = Z.shiftl v 8).
  { unfold uint16, uint32. rewrite (Z.mod_small v) by (change (2 ^ 16) with 65536; lia).
    apply Z.mod_small. rewrite Z.shiftl_mul_pow2 by lia.
    change (2 ^ 8) with 256. change (2 ^ 32) with 4294967296. lia. }
  rewrite HM, Hspec.
  change 0x800000 with (Z.shiftl 0x100 (Z.of_nat 15)).
  change 0xFF8000 with (Z.shiftl 0x1FF (Z.of_nat 15)).
  change 0x988000 with (Z.shiftl crc8_generator (Z.of_nat 15)).
  apply (crc_while_divides 15); [lia|].
  rewrite Z.shiftl_mul_pow2 by lia.
  change (2 ^ 8) with 256. change (2 ^ 32) with 4294967296. lia.
Qed.

(** Flipping one of the eight bits of a byte gives a different byte. *)
Lemma flip_bit_byte (c k : Z) :
  0 <= c < 256 -> 0 <= k < 8 ->
  0 <= flip_bit c k < 256 /\ flip_bit c k <> c.
Proof.
  intros Hc Hk.
  assert (Hall : forall_from 256 0 (fun c =>
            forall_from 8 0 (fun k =>
              (0 <=? flip_bit c k) && (flip_bit c k <? 256)
              && negb (flip_bit c k =? c))) = true)
    by (vm_compute; reflexivity).
  assert (Hc' : 0 <= c < 0 + Z.of_nat 256) by lia.
  pose proof (forall_from_spec _ _ 0 Hall c Hc') as H1. cbv beta in H1.
  assert (Hk' : 0 <= k < 0 + Z.of_nat 8) by lia.
  pose proof (forall_from_spec _ _ 0 H1 k Hk') as H2. cbv beta in H2.
  apply andb_true_iff in H2 as [H2 Hne].
  apply andb_true_iff in H2 as [Hlo Hhi].
  apply negb_true_iff, Z.eqb_neq in Hne. lia.
Qed.

Lemma uint8_small (c : Z) : 0 <= c < 256 -> uint8 c = c.
Proof. intros H. unfold uint8. apply Z.mod_small. lia. Qed.

Lemma uint16_small (v : Z) : 0 <= v < 65536 -> uint16 v = v.
Proof. intros H. unfold uint16. apply Z.mod_small. lia. Qed.

(** On a 16-bit value and a byte, the check succeeds exactly on the CRC-8. *)
Lemma crc_check_ok_iff (v c : Z) :
  0 <= v < 65536 -> 0 <= c < 256 ->
  htu21_crc_check v c = htu21_status_ok <-> c = crc8_spec v.
Proof.
  intros Hv Hc. unfold htu21_crc_check.
  destruct (crc_result_is_crc8 v Hv) as [-> _].
  rewrite (uint8_small c Hc).
  destruct (Z.eqb_spec (crc8_spec v) c) as [E|E]; split; intro H;
    try congruence; try discriminate.
Qed.

Lemma crc_check_cases (v c : Z) :
  htu21_crc_check v c = htu21_status_ok \/
  htu21_crc_check v c = htu21_status_crc_error.
Proof.
  unfold htu21_crc_check. destruct (crc_result v) as [r|]; [|now right].
  destruct (r =? uint8 c); [now left | now right].
Qed.

(** C2. For every 16-bit value [v] and checksum byte [c], [htu21_crc_check]
    returns ok exactly when [c] is the CRC-8 of [v] (generator
    x^8 + x^5 + x^4 + 1, most significant bit first, no reflection, initial
    remainder 0, over [v] followed by a zero byte); the correct checksum is
    accepted, and the correct checksum with any one of its eight bits flipped
    is rejected with a CRC error. *)
Theorem htu21_crc_check_is_crc8 (v c : Z) :
  0 <= v < 65536 -> 0 <= c < 256 ->
  (htu21_crc_check v c = htu21_status_ok <-> c = crc8_spec v)
  /\ htu21_crc_check v (crc8_spec v) = htu21_status_ok
  /\ (forall k, 0 <= k < 8 ->
        htu21_crc_check v (flip_bit (crc8_spec v) k) = htu21_status_crc_error).
Proof.
  intros Hv Hc.
  destruct (crc_result_is_crc8 v Hv) as [_ Hrange].
  split; [apply crc_check_ok_iff; assumption|].
  split; [apply crc_check_ok_iff; auto|].
  intros k Hk.
  destruct (flip_bit_byte (crc8_spec v) k Hrange Hk) as [Hb Hne].
  destruct (crc_check_cases v (flip_bit (crc8_spec v) k)) as [Hok|Herr];
    [|exact Herr].
  apply crc_check_ok_iff in Hok; [contradiction | assumption | assumption].
Qed.

(** The datasheet's example: temperature reading 0x683A with checksum 0x7C. *)
Lemma htu21_crc_check_is_crc8_witness :
  (htu21_crc_check 0x683A 0x7C = htu21_status_ok <-> 0x7C = crc8_spec 0x683A)
  /\ htu21_crc_check 0x683A (crc8_spec 0x683A) = htu21_status_ok
  /\ (forall k, 0 <= k < 8 ->
        htu21_crc_check 0x683A (flip_bit (crc8_spec 0x683A) k)
        = htu21_status_crc_error).
Proof. apply (htu21_crc_check_is_crc8 0x683A 0x7C); lia. Defined.

Example crc_datasheet_temperature :
  htu21_crc_check 0x683A 0x7C = htu21_status_ok.
Proof. vm_compute. reflexivity. Qed.

Example crc_datasheet_humidity :
  htu21_crc_check 0x4E85 0x6B = htu21_status_ok.
Proof. vm_compute. reflexivity. Qed.

(** ** Derived values *)

(** At 25 degrees the temperature term is the float -0. *)
Lemma compensation_term_at_25 :
  fmul (fsub (float_of_int 25) (float_of_int 25)) HTU21_TEMPERATURE_COEFFICIENT
  = S754_zero true.
Proof. vm_compute. reflexivity. Qed.

(** Adding -0 changes no float: not a zero of either sign, not an infinity,
    not a NaN. *)
Lemma fadd_minus_zero (x : float) : fadd x (S754_zero true) = x.
Proof. destruct x as [[|]|[|]| |s m e]; reflexivity. Qed.

(** C8. For every humidity value [x] (every float, the zeros, the infinities
    and NaN included), [htu21_compute_compensated_humidity] at temperature 25
    returns [x]: the term (25 - temperature) * (-0.15) is the float -0. *)
Theorem htu21_compute_compensated_humidity_at_25 (x : float) :
  htu21_compute_compensated_humidity (float_of_int 25) x = x.
Proof.
  unfold htu21_compute_compensated_humidity.
  rewrite compensation_term_at_25.
  apply fadd_minus_zero.
Qed.

(** ** The user register *)

(** The byte computed by [htu21_write_user_register] from the register byte
    [cur] just read and the byte [target] to write, and its two halves. *)
Lemma merged_register_byte (cur target : Z) :
  0 <= cur < 256 -> 0 <= target < 256 ->
  let merged :=
    uint8 (Z.lor (uint8 (Z.land cur HTU21_USER_REG_RESERVED_MASK))
                 (Z.land (uint8 target)
                         (Z.lnot HTU21_USER_REG_RESERVED_MASK))) in
  merged = Z.lor (Z.land cur 0x38) (Z.land target 0xC7)
  /\ Z.land merged 0x38 = Z.land cur 0x38
  /\ Z.land merged 0xC7 = Z.land target 0xC7.
Proof.
  intros Hc Ht.
  assert (Hall : forall_from 256 0 (fun cur =>
            forall_from 256 0 (fun target =>
              let merged :=
                uint8 (Z.lor (uint8 (Z.land cur HTU21_USER_REG_RESERVED_MASK))
                             (Z.land (uint8 target)
                                     (Z.lnot HTU21_USER_REG_RESERVED_MASK))) in
              (merged =? Z.lor (Z.land cur 0x38) (Z.land target 0xC7))
              && (Z.land merged 0x38 =? Z.land cur 0x38)
              && (Z.land merged 0xC7 =? Z.land target 0xC7))) = true)
    by (vm_compute; reflexivity).
  assert (Hc' : 0 <= cur < 0 + Z.of_nat 256) by lia.
  pose proof (forall_from_spec _ _ 0 Hall cur Hc') as H1. cbv beta in H1.
  assert (Ht' : 0 <= target < 0 + Z.of_nat 256) by lia.
  pose proof (forall_from_spec _ _ 0 H1 target Ht') as H2. cbv beta zeta in H2.
  apply andb_true_iff in H2 as [H2 H3].
  apply andb_true_iff in H2 as [H2 H4].
  apply Z.eqb_eq in H2, H3, H4. cbv zeta. auto.
Qed.

(** C1. For every target byte and every register byte [cur] held by the
    device, [htu21_write_user_register] first reads the register (command
    0xE7, then a one-byte read) and then sends the two-byte write-register
    command whose second byte is (cur & 0x38) | (target & 0xC7): the reserved
    bits of the byte sent are those of the register before the write and all
    other bits are the target's, whatever reserved bits the target has. *)
Theorem htu21_write_user_register_merges
  (target cur : Z) (w1 w3 : bus_reply) (rest : list bus_reply)
  (s : driver_state) :
  0 <= target < 256 -> 0 <= cur < 256 ->
  reply_status w1 = STATUS_OK ->
  bus_script s =
    w1 :: {| reply_status := STATUS_OK; reply_data := [cur] |} :: w3 :: rest ->
  let merged := Z.lor (Z.land cur 0x38) (Z.land target 0xC7) in
  let (status, s') := htu21_write_user_register target s in
  bus_trace s' =
    bus_trace s ++
    [I2cWrite {| address := 0x40; data_length := 1; data := [0xE7] |};
     I2cRead 0x40 1;
     I2cWrite {| address := 0x40; data_length := 2; data := [0xE6; merged] |}]
  /\ Z.land merged 0x38 = Z.land cur 0x38
  /\ Z.land merged 0xC7 = Z.land target 0xC7
  /\ status = status_of_transfer (reply_status w3)
  /\ bus_script s' = rest.
Proof.
  intros Ht Hc H1 Hs merged.
  destruct s as [tct hct md sc tr]. simpl in Hs. subst sc.
  destruct w1 as [st1 d1]. simpl in H1. subst st1.
  destruct (merged_register_byte cur target Hc Ht) as (Hm & Hres & Hoth).
  rewrite Hm in Hres, Hoth. fold merged in Hres, Hoth.
  destruct w3 as [[| |] d3]; run_driver;
    rewrite (uint8_small cur Hc), Hm; fold merged;
    repeat split; assumption.
Qed.

(** A target with every reserved bit set, over a register whose reserved bits
    are 0x08: the byte sent is 0x08 | 0xC7. *)
Lemma htu21_write_user_register_merges_witness :
  let s := {| htu21_temperature_conversion_time := 50000;
              htu21_humidity_conversion_time := 16000;
              i2c_master_mode := htu21_i2c_no_hold;
              bus_script :=
                [{| reply_status := STATUS_OK; reply_data := [] |};
                 {| reply_status := STATUS_OK; reply_data := [0x0A] |};
                 {| reply_status := STATUS_OK; reply_data := [] |}];
              bus_trace := [] |} in
  let merged := Z.lor (Z.land 0x0A 0x38) (Z.land 0xFF 0xC7) in
  let (status, s') := htu21_write_user_register 0xFF s in
  bus_trace s' =
    bus_trace s ++
    [I2cWrite {| address := 0x40; data_length := 1; data := [0xE7] |};
     I2cRead 0x40 1;
     I2cWrite {| address := 0x40; data_length := 2; data := [0xE6; merged] |}]
  /\ Z.land merged 0x38 = Z.land 0x0A 0x38
  /\ Z.land merged 0xC7 = Z.land 0xFF 0xC7
  /\ status = status_of_transfer STATUS_OK
  /\ bus_script s' = [].
Proof.
  intro s.
  apply (htu21_write_user_register_merges 0xFF 0x0A
           {| reply_status := STATUS_OK; reply_data := [] |}
           {| reply_status := STATUS_OK; reply_data := [] |} [] s);
    [lia | lia | reflexivity | reflexivity].
Defined.

(** ** Resolution *)

(** C3, the code at a failing input.  The register is read, the cached
    conversion times are overwritten, and only then is the register written:
    with the 11-bit resolution requested and the transport failing the write
    of the register byte, [htu21_set_resolution] returns a transfer error and
    the cached pair has gone from (50000, 16000) to (7000, 8000). *)
Theorem htu21_set_resolution_failed_write_changes_times :
  let s := initial_state
             [ok_reply []; ok_reply [0x02];
              ok_reply []; ok_reply [0x02];
              failed_reply STATUS_ERR_TIMEOUT] in
  let (status, s') :=
    htu21_set_resolution sample_resolution_enum
      (htu21_resolution_t_11b_rh_11b sample_resolution_enum) s in
  status = htu21_status_i2c_transfer_error
  /\ conversion_times s = (50000, 16000)
  /\ conversion_times s' = (7000, 8000)
  /\ bus_trace s' =
       [I2cWrite {| address := 0x40; data_length := 1; data := [0xE7] |};
        I2cRead 0x40 1;
        I2cWrite {| address := 0x40; data_length := 1; data := [0xE7] |};
        I2cRead 0x40 1;
        I2cWrite {| address := 0x40; data_length := 2; data := [0xE6; 0x83] |}].
Proof. vm_compute. auto. Qed.

(** The register byte [htu21_set_resolution] hands to
    [htu21_write_user_register] when no enumerator matches ([tmp] is 0), and
    the byte that is then sent over a register holding [cur2]: no resolution
    bit is set in it. *)
Lemma default_resolution_byte (cur1 cur2 : Z) :
  0 <= cur1 < 256 -> 0 <= cur2 < 256 ->
  let reg_value :=
    uint8 (Z.lor (uint8 (Z.land cur1 (Z.lnot HTU21_USER_REG_RESOLUTION_MASK)))
                 (Z.land 0 HTU21_USER_REG_RESOLUTION_MASK)) in
  let sent := Z.lor (Z.land cur2 0x38) (Z.land cur1 0x46) in
  0 <= reg_value < 256
  /\ Z.lor (Z.land cur2 0x38) (Z.land reg_value 0xC7) = sent
  /\ Z.land sent 0x81 = 0.
Proof.
  intros H1 H2.
  assert (Hall : forall_from 256 0 (fun cur1 =>
            forall_from 256 0 (fun cur2 =>
              let reg_value :=
                uint8 (Z.lor (uint8 (Z.land cur1
                                       (Z.lnot HTU21_USER_REG_RESOLUTION_MASK)))
                             (Z.land 0 HTU21_USER_REG_RESOLUTION_MASK)) in
              let sent := Z.lor (Z.land cur2 0x38) (Z.land cur1 0x46) in
              (0 <=? reg_value) && (reg_value <? 256)
              && (Z.lor (Z.land cur2 0x38) (Z.land reg_value 0xC7) =? sent)
              && (Z.land sent 0x81 =? 0))) = true)
    by (vm_compute; reflexivity).
  assert (H1' : 0 <= cur1 < 0 + Z.of_nat 256) by lia.
  pose proof (forall_from_spec _ _ 0 Hall cur1 H1') as Ha. cbv beta in Ha.
  assert (H2' : 0 <= cur2 < 0 + Z.of_nat 256) by lia.
  pose proof (forall_from_spec _ _ 0 Ha cur2 H2') as Hb. cbv beta zeta in Hb.
  apply andb_true_iff in Hb as [Hb Hz].
  apply andb_true_iff in Hb as [Hb Hs].
  apply andb_true_iff in Hb as [Hlo Hhi].
  apply Z.eqb_eq in Hz, Hs. cbv zeta. repeat split; [lia | lia | exact Hs | exact Hz].
Qed.

(** C10. For every resolution argument that is none of the four enumerators,
    [htu21_set_resolution] runs exactly as for the 14-bit/12-bit enumerator,
    on every state and transport.  With a transport that answers ok, the
    register holding [cur1] at the first read and [cur2] at the read made by
    the register write, it returns ok, the register byte it sends is
    (cur2 & 0x38) | (cur1 & 0x46), in which both resolution bits (mask 0x81)
    are clear, and the cached conversion times are 50000 and 16000: the
    argument is not rejected. *)
Theorem htu21_set_resolution_out_of_range
  (E : htu21_resolution_enum) (res : Z) (s : driver_state) :
  res <> htu21_resolution_t_14b_rh_12b E ->
  res <> htu21_resolution_t_13b_rh_10b E ->
  res <> htu21_resolution_t_12b_rh_8b E ->
  res <> htu21_resolution_t_11b_rh_11b E ->
  htu21_set_resolution E res s
  = htu21_set_resolution E (htu21_resolution_t_14b_rh_12b E) s
  /\ forall d1 cur1 d3 cur2 d5 rest,
       0 <= cur1 < 256 -> 0 <= cur2 < 256 ->
       bus_script s =
         [ok_reply d1; ok_reply [cur1]; ok_reply d3; ok_reply [cur2];
          ok_reply d5] ++ rest ->
       let sent := Z.lor (Z.land cur2 0x38) (Z.land cur1 0x46) in
       let (status, s') := htu21_set_resolution E res s in
       status = htu21_status_ok
       /\ conversion_times s' = (50000, 16000)
       /\ bus_trace s' =
            bus_trace s ++
            [I2cWrite {| address := 0x40; data_length := 1; data := [0xE7] |};
             I2cRead 0x40 1;
             I2cWrite {| address := 0x40; data_length := 1; data := [0xE7] |};
             I2cRead 0x40 1;
             I2cWrite {| address := 0x40; data_length := 2;
                         data := [0xE6; sent] |}]
       /\ Z.land sent 0x81 = 0x00.
Proof.
  intros N14 N13 N12 N11.
  assert (Hsame : htu21_set_resolution E res s
                  = htu21_set_resolution E (htu21_resolution_t_14b_rh_12b E) s).
  { unfold htu21_set_resolution.
    rewrite Z.eqb_refl.
    destruct (Z.eqb_spec res (htu21_resolution_t_14b_rh_12b E)); [contradiction|].
    destruct (Z.eqb_spec res (htu21_resolution_t_13b_rh_10b E)); [contradiction|].
    destruct (Z.eqb_spec res (htu21_resolution_t_12b_rh_8b E)); [contradiction|].
    destruct (Z.eqb_spec res (htu21_resolution_t_11b_rh_11b E)); [contradiction|].
    reflexivity. }
  split; [exact Hsame|].
  intros d1 cur1 d3 cur2 d5 rest H1 H2 Hs sent.
  destruct s as [tct hct md sc tr]. simpl in Hs. subst sc.
  destruct (default_resolution_byte cur1 cur2 H1 H2) as (Hreg & Hsent & Hbits).
  cbv zeta in Hreg, Hsent, Hbits. fold sent in Hsent, Hbits.
  set (reg_value :=
         uint8 (Z.lor (uint8 (Z.land cur1
                                (Z.lnot HTU21_USER_REG_RESOLUTION_MASK)))
                      (Z.land 0 HTU21_USER_REG_RESOLUTION_MASK))) in *.
  destruct (merged_register_byte cur2 reg_value H2 Hreg) as (Hm & _ & _).
  unfold htu21_set_resolution.
  destruct (Z.eqb_spec res (htu21_resolution_t_14b_rh_12b E)); [contradiction|].
  destruct (Z.eqb_spec res (htu21_resolution_t_13b_rh_10b E)); [contradiction|].
  destruct (Z.eqb_spec res (htu21_resolution_t_12b_rh_8b E)); [contradiction|].
  destruct (Z.eqb_spec res (htu21_resolution_t_11b_rh_11b E)); [contradiction|].
  unfold htu21_write_user_register, htu21_read_user_register,
    htu21_write_command, ok_reply.
  run_driver.
  rewrite (uint8_small cur1 H1), (uint8_small cur2 H2).
  fold reg_value.
  rewrite Hm, Hsent.
  repeat split. exact Hbits.
Qed.

(** The argument 7 against the sample enumeration 0..3, over a register
    holding 0x83 (11-bit resolution, OTP reload disabled). *)
Lemma htu21_set_resolution_out_of_range_witness :
  let s := initial_state
             [ok_reply []; ok_reply [0x83]; ok_reply []; ok_reply [0x83];
              ok_reply []] in
  htu21_set_resolution sample_resolution_enum 7 s
  = htu21_set_resolution sample_resolution_enum 0 s
  /\ fst (htu21_set_resolution sample_resolution_enum 7 s) = htu21_status_ok.
Proof.
  intro s.
  destruct (htu21_set_resolution_out_of_range sample_resolution_enum 7 s)
    as [Hsame Hrun]; [discriminate | discriminate | discriminate | discriminate |].
  split; [exact Hsame|].
  specialize (Hrun [] 0x83 [] 0x83 [] []).
  destruct (htu21_set_resolution sample_resolution_enum 7 s) as [status s'].
  destruct Hrun as (Hok & _); [lia | lia | reflexivity |].
  exact Hok.
Defined.

(** ** Serial number *)

(** Joining a multiple of 2^k with a number below 2^k by [|] adds them. *)
Lemma lor_low_bits (k x y : Z) :
  0 <= k -> 0 <= y < 2 ^ k -> Z.lor (x * 2 ^ k) y = x * 2 ^ k + y.
Proof.
  intros Hk Hy.
  assert (Hland : Z.land (x * 2 ^ k) y = 0).
  { apply Z.bits_inj'. intros n Hn.
    rewrite Z.land_spec, Z.bits_0.
    destruct (Z.lt_ge_cases n k) as [Hlt|Hge].
    - rewrite Z.mul_pow2_bits_low by lia. reflexivity.
    - rewrite <- (Z.mod_small y (2 ^ k)) by lia.
      rewrite Z.mod_pow2_bits_high by lia.
      apply andb_false_r. }
  rewrite <- (Z.lxor_lor _ _ Hland).
  symmetry. apply Z.add_nocarry_lxor. exact Hland.
Qed.

(** A 16-bit value put together by shift and or. *)
Lemma word_of_bytes (hi lo : Z) :
  is_byte hi -> is_byte lo ->
  Z.lor (Z.shiftl hi 8) lo = big_endian [hi; lo]
  /\ 0 <= big_endian [hi; lo] < 65536.
Proof.
  unfold is_byte, big_endian. intros Hhi Hlo. cbn [fold_left].
  rewrite Z.shiftl_mul_pow2 by lia.
  rewrite lor_low_bits by lia.
  change (2 ^ 8) with 256. lia.
Qed.

(** The serial number put together by shifts and ors is the big-endian
    number of the eight data bytes. *)
Lemma serial_number_of_big_endian
  (b0 c0 b1 c1 b2 c2 b3 c3 b4 b5 c4 b6 b7 c5 : Z) :
  is_byte b0 -> is_byte b1 -> is_byte b2 -> is_byte b3 ->
  is_byte b4 -> is_byte b5 -> is_byte b6 -> is_byte b7 ->
  serial_number_of [b0; c0; b1; c1; b2; c2; b3; c3; b4; b5; c4; b6; b7; c5]
  = big_endian [b0; b1; b2; b3; b4; b5; b6; b7].
Proof.
  unfold is_byte. intros H0 H1 H2 H3 H4 H5 H6 H7.
  unfold serial_number_of, big_endian.
  cbn [fold_left].
  change (at_index _ 0) with b0. change (at_index _ 2) with b1.
  change (at_index _ 4) with b2. change (at_index _ 6) with b3.
  change (at_index _ 8) with b4. change (at_index _ 9) with b5.
  change (at_index _ 11) with b6. change (at_index _ 12) with b7.
  unfold uint64.
  rewrite !Z.shiftl_mul_pow2 by lia.
  change (2 ^ 64) with 18446744073709551616.
  change (2 ^ 56) with 72057594037927936.
  change (2 ^ 48) with 281474976710656.
  change (2 ^ 40) with 1099511627776.
  change (2 ^ 32) with 4294967296.
  change (2 ^ 24) with 16777216.
  change (2 ^ 16) with 65536.
  change (2 ^ 8) with 256.
  change (2 ^ 0) with 1.
  rewrite (Z.mod_small b0), (Z.mod_small b1), (Z.mod_small b2),
    (Z.mod_small b3), (Z.mod_small b4), (Z.mod_small b5), (Z.mod_small b6),
    (Z.mod_small b7) by lia.
  rewrite !Z.mod_small by lia.
  replace (b0 * 72057594037927936) with (b0 * 2 ^ 56) by pow2_lia.
  rewrite (lor_low_bits 56) by pow2_lia.
  replace (b0 * 2 ^ 56 + b1 * 281474976710656)
    with ((b0 * 256 + b1) * 2 ^ 48) by pow2_lia.
  rewrite (lor_low_bits 48) by pow2_lia.
  replace ((b0 * 256 + b1) * 2 ^ 48 + b2 * 1099511627776)
    with (((b0 * 256 + b1) * 256 + b2) * 2 ^ 40) by pow2_lia.
  rewrite (lor_low_bits 40) by pow2_lia.
  replace (((b0 * 256 + b1) * 256 + b2) * 2 ^ 40 + b3 * 4294967296)
    with ((((b0 * 256 + b1) * 256 + b2) * 256 + b3) * 2 ^ 32) by pow2_lia.
  rewrite (lor_low_bits 32) by pow2_lia.
  replace ((((b0 * 256 + b1) * 256 + b2) * 256 + b3) * 2 ^ 32 + b4 * 16777216)
    with (((((b0 * 256 + b1) * 256 + b2) * 256 + b3) * 256 + b4) * 2 ^ 24) by pow2_lia.
  rewrite (lor_low_bits 24) by pow2_lia.
  replace (((((b0 * 256 + b1) * 256 + b2) * 256 + b3) * 256 + b4) * 2 ^ 24 + b5 * 65536)
    with ((((((b0 * 256 + b1) * 256 + b2) * 256 + b3) * 256 + b4) * 256 + b5) * 2 ^ 16) by pow2_lia.
  rewrite (lor_low_bits 16) by pow2_lia.
  replace ((((((b0 * 256 + b1) * 256 + b2) * 256 + b3) * 256 + b4) * 256 + b5) * 2 ^ 16 + b6 * 256)
    with (((((((b0 * 256 + b1) * 256 + b2) * 256 + b3) * 256 + b4) * 256 + b5) * 256 + b6) * 2 ^ 8) by pow2_lia.
  rewrite (lor_low_bits 8) by pow2_lia.
  pow2_lia.
Qed.

Lemma at_index_byte (rcv : list Z) (i : Z) :
  Forall is_byte rcv -> is_byte (at_index rcv i).
Proof.
  intros H. unfold at_index.
  destruct (nth_in_or_default (Z.to_nat i) rcv 0) as [Hin| ->].
  - rewrite Forall_forall in H. apply H. exact Hin.
  - unfold is_byte. lia.
Qed.

(** The two checking loops of [htu21_read_serial_number] against the
    statement that every group verifies. *)
Lemma serial_checks_cases (rcv : list Z) :
  Forall is_byte rcv ->
  (serial_groups_verify rcv = true
   /\ check_byte_pairs [0; 2; 4; 6] rcv = htu21_status_ok
   /\ check_word_triples [8; 11] rcv = htu21_status_ok)
  \/ (serial_groups_verify rcv = false
      /\ (check_byte_pairs [0; 2; 4; 6] rcv = htu21_status_crc_error
          \/ (check_byte_pairs [0; 2; 4; 6] rcv = htu21_status_ok
              /\ check_word_triples [8; 11] rcv = htu21_status_crc_error))).
Proof.
  intros Hb.
  unfold serial_groups_verify.
  cbn [check_byte_pairs check_word_triples forallb].
  change (0 + 1) with 1. change (2 + 1) with 3. change (4 + 1) with 5.
  change (6 + 1) with 7. change (8 + 1) with 9. change (8 + 2) with 10.
  change (11 + 1) with 12. change (11 + 2) with 13.
  rewrite (proj1 (word_of_bytes _ _ (at_index_byte rcv 8 Hb)
                                    (at_index_byte rcv 9 Hb))).
  rewrite (proj1 (word_of_bytes _ _ (at_index_byte rcv 11 Hb)
                                    (at_index_byte rcv 12 Hb))).
  pose proof (crc_check_cases (at_index rcv 0) (at_index rcv 1)) as C0.
  pose proof (crc_check_cases (at_index rcv 2) (at_index rcv 3)) as C2.
  pose proof (crc_check_cases (at_index rcv 4) (at_index rcv 5)) as C4.
  pose proof (crc_check_cases (at_index rcv 6) (at_index rcv 7)) as C6.
  pose proof (crc_check_cases (big_endian [at_index rcv 8; at_index rcv 9])
                              (at_index rcv 10)) as C8.
  pose proof (crc_check_cases (big_endian [at_index rcv 11; at_index rcv 12])
                              (at_index rcv 13)) as C11.
  set (s0 := htu21_crc_check (at_index rcv 0) (at_index rcv 1)) in *.
  set (s2 := htu21_crc_check (at_index rcv 2) (at_index rcv 3)) in *.
  set (s4 := htu21_crc_check (at_index rcv 4) (at_index rcv 5)) in *.
  set (s6 := htu21_crc_check (at_index rcv 6) (at_index rcv 7)) in *.
  set (s8 := htu21_crc_check (big_endian [at_index rcv 8; at_index rcv 9])
                             (at_index rcv 10)) in *.
  set (s11 := htu21_crc_check (big_endian [at_index rcv 11; at_index rcv 12])
                              (at_index rcv 13)) in *.
  clearbody s0 s2 s4 s6 s8 s11.
  destruct C0 as [-> | ->], C2 as [-> | ->], C4 as [-> | ->],
           C6 as [-> | ->], C8 as [-> | ->], C11 as [-> | ->];
    cbn [failed htu21_status_eqb negb andb];
    first [ left; repeat split; reflexivity
          | right; split; [reflexivity|]; left; reflexivity
          | right; split; [reflexivity|]; right; split; reflexivity ].
Qed.

(** C6. With the two reads answered ok by an 8-byte and a 6-byte payload
    (whatever the two command writes report): if every checksum group
    verifies, [htu21_read_serial_number] returns ok and stores the 64-bit
    number whose bytes, most significant first, are the received bytes 0, 2,
    4, 6, 8, 9, 11 and 12; if some group does not verify it returns a CRC
    error and the serial-number output keeps the value it had. *)
Theorem htu21_read_serial_number_assembles
  (p8 p6 : list Z) (w1 w2 : bus_reply) (rest : list bus_reply)
  (serial_number : Z) (s : driver_state) :
  length p8 = 8%nat -> length p6 = 6%nat ->
  Forall is_byte (p8 ++ p6) ->
  bus_script s = w1 :: ok_reply p8 :: w2 :: ok_reply p6 :: rest ->
  let rcv := p8 ++ p6 in
  let (result, s') := htu21_read_serial_number serial_number s in
  (serial_groups_verify rcv = true ->
   result = (htu21_status_ok, big_endian (serial_data_bytes rcv)))
  /\ (serial_groups_verify rcv = false ->
      result = (htu21_status_crc_error, serial_number)).
Proof.
  intros L8 L6 Hb Hs rcv.
  destruct p8 as [|b0 [|c0 [|b1 [|c1 [|b2 [|c2 [|b3 [|c3 [|]]]]]]]]];
    try discriminate L8.
  destruct p6 as [|b4 [|b5 [|c4 [|b6 [|b7 [|c5 [|]]]]]]]; try discriminate L6.
  cbn [app] in Hb, rcv.
  assert (Hbytes := Hb).
  do 14 (apply Forall_cons_iff in Hb; destruct Hb as [? Hb]).
  destruct s as [tct hct md sc tr]. simpl in Hs. subst sc.
  destruct w1 as [st1 d1]. destruct w2 as [st2 d2].
  unfold ok_reply.
  run_driver.
  rewrite !uint8_small by assumption.
  fold rcv.
  assert (Hsn : serial_number_of rcv = big_endian (serial_data_bytes rcv))
    by (apply serial_number_of_big_endian; assumption).
  destruct (serial_checks_cases rcv Hbytes)
    as [(Hv & Hp & Hw) | (Hv & [Hp | (Hp & Hw)])];
    rewrite Hp; try rewrite Hw;
    cbn [failed htu21_status_eqb negb]; rewrite ?Hsn;
    split; intro; congruence.
Qed.

(** "HTU" and a zero byte with their checksums, then 0x3231 and 0x0102 with
    theirs: the serial number is 0x4854550032310102. *)
Lemma htu21_read_serial_number_assembles_witness :
  let p8 := [0x48; 0x84; 0x54; 0xBA; 0x55; 0x8B; 0x00; 0x00] in
  let p6 := [0x32; 0x31; 0x9F; 0x01; 0x02; 0x96] in
  let s := initial_state [ok_reply []; ok_reply p8; ok_reply []; ok_reply p6] in
  fst (htu21_read_serial_number 0 s) = (htu21_status_ok, 0x4854550032310102).
Proof.
  intros p8 p6 s.
  pose proof (htu21_read_serial_number_assembles p8 p6 (ok_reply [])
                (ok_reply []) [] 0 s eq_refl eq_refl) as H.
  assert (Hb : Forall is_byte (p8 ++ p6))
    by (repeat constructor; unfold is_byte; lia).
  specialize (H Hb eq_refl). cbv zeta in H.
  destruct (htu21_read_serial_number 0 s) as [result s'].
  destruct H as [Hok _]. cbn [fst].
  rewrite Hok by (vm_compute; reflexivity).
  vm_compute. reflexivity.
Defined.

(** ** Propagation of transport errors *)

(** C4, the code at a failing input.  The transport reports an overflow (no
    acknowledge) for both serial-number command writes and answers the two
    reads: [htu21_read_serial_number] issues all four transactions, returns
    ok and stores a serial number; neither failure reaches the caller. *)
Theorem htu21_read_serial_number_ignores_write_errors :
  let s := initial_state
             [failed_reply STATUS_ERR_OVERFLOW;
              ok_reply [0x48; 0x84; 0x54; 0xBA; 0x55; 0x8B; 0x00; 0x00];
              failed_reply STATUS_ERR_OVERFLOW;
              ok_reply [0x32; 0x31; 0x9F; 0x01; 0x02; 0x96]] in
  let (result, s') := htu21_read_serial_number 0 s in
  result = (htu21_status_ok, 0x4854550032310102)
  /\ bus_trace s' =
       [I2cWriteNoStop {| address := 0x40; data_length := 2;
                          data := [0xFA; 0x0F] |};
        I2cRead 0x40 8;
        I2cWriteNoStop {| address := 0x40; data_length := 2;
                          data := [0xFC; 0xC9] |};
        I2cRead 0x40 6].
Proof. vm_compute. auto. Qed.

(** The sibling path: the same failure of the command write in a measurement
    is returned as a no-acknowledge error, and no read is issued. *)
Example htu21_temperature_read_reports_write_error :
  let s := initial_state [failed_reply STATUS_ERR_OVERFLOW; ok_reply [0; 0; 0]] in
  let (result, s') := htu21_temperature_conversion_and_read_adc 0 s in
  result = (htu21_status_no_i2c_acknowledge, 0)
  /\ bus_trace s' =
       [I2cWrite {| address := 0x40; data_length := 1; data := [0xF3] |};
        TaskDelay 50].
Proof. vm_compute. auto. Qed.

(** ** Measurements *)

(** One conversion-and-read sequence in no-hold mode, with the command write
    and the read answered ok and a checksum that verifies. *)
Lemma temperature_sequence_no_hold
  (b0 b1 crc adc : Z) (w : bus_reply) (rest : list bus_reply)
  (s : driver_state) :
  is_byte b0 -> is_byte b1 -> is_byte crc ->
  i2c_master_mode s = htu21_i2c_no_hold ->
  htu21_temperature_conversion_time s = 50000 ->
  reply_status w = STATUS_OK ->
  bus_script s = w :: ok_reply [b0; b1; crc] :: rest ->
  htu21_crc_check (big_endian [b0; b1]) crc = htu21_status_ok ->
  htu21_temperature_conversion_and_read_adc adc s =
  ((htu21_status_ok, big_endian [b0; b1]),
   {| htu21_temperature_conversion_time := htu21_temperature_conversion_time s;
      htu21_humidity_conversion_time := htu21_humidity_conversion_time s;
      i2c_master_mode := i2c_master_mode s;
      bus_script := rest;
      bus_trace := bus_trace s ++
        [I2cWrite {| address := 0x40; data_length := 1; data := [0xF3] |};
         TaskDelay 50;
         I2cRead 0x40 3] |}).
Proof.
  intros H0 H1 Hc Hmode Htime Hw Hs Hcrc.
  destruct s as [tct hct md sc tr]. simpl in Hmode, Htime, Hs. subst md tct sc.
  destruct w as [st d]. simpl in Hw. subst st.
  destruct (word_of_bytes b0 b1 H0 H1) as [Hword Hrange].
  unfold htu21_temperature_conversion_and_read_adc, ok_reply.
  lazy - [uint8 uint16 Z.lor Z.shiftl app htu21_crc_check big_endian].
  rewrite !uint8_small by assumption.
  rewrite Hword, (uint16_small _ Hrange), Hcrc.
  repeat rewrite <- app_assoc. reflexivity.
Qed.

Lemma humidity_sequence_no_hold
  (b0 b1 crc adc : Z) (w : bus_reply) (rest : list bus_reply)
  (s : driver_state) :
  is_byte b0 -> is_byte b1 -> is_byte crc ->
  i2c_master_mode s = htu21_i2c_no_hold ->
  htu21_humidity_conversion_time s = 16000 ->
  reply_status w = STATUS_OK ->
  bus_script s = w :: ok_reply [b0; b1; crc] :: rest ->
  htu21_crc_check (big_endian [b0; b1]) crc = htu21_status_ok ->
  htu21_humidity_conversion_and_read_adc adc s =
  ((htu21_status_ok, big_endian [b0; b1]),
   {| htu21_temperature_conversion_time := htu21_temperature_conversion_time s;
      htu21_humidity_conversion_time := htu21_humidity_conversion_time s;
      i2c_master_mode := i2c_master_mode s;
      bus_script := rest;
      bus_trace := bus_trace s ++
        [I2cWrite {| address := 0x40; data_length := 1; data := [0xF5] |};
         TaskDelay 16;
         I2cRead 0x40 3] |}).
Proof.
  intros H0 H1 Hc Hmode Htime Hw Hs Hcrc.
  destruct s as [tct hct md sc tr]. simpl in Hmode, Htime, Hs. subst md hct sc.
  destruct w as [st d]. simpl in Hw. subst st.
  destruct (word_of_bytes b0 b1 H0 H1) as [Hword Hrange].
  unfold htu21_humidity_conversion_and_read_adc, ok_reply.
  lazy - [uint8 uint16 Z.lor Z.shiftl app htu21_crc_check big_endian].
  rewrite !uint8_small by assumption.
  rewrite Hword, (uint16_small _ Hrange), Hcrc.
  repeat rewrite <- app_assoc. reflexivity.
Qed.

(** *** The conversions against the formulas of the specification *)

(** The quotient of a shifted mantissa by a power of two is exact. *)
Lemma div_eucl_shifted (m : positive) (s d : Z) :
  1 <= s -> d = 2 ^ (s - 1) ->
  Z.div_eucl (Z.shiftl (Z.pos m) s) d = (Z.pos m~0, 0).
Proof.
  intros Hs ->.
  assert (H2k : 0 < 2 ^ (s - 1)) by (apply Z.pow_pos_nonneg; lia).
  assert (Heq : Z.shiftl (Z.pos m) s = Z.pos m~0 * 2 ^ (s - 1)).
  { rewrite Z.shiftl_mul_pow2 by lia.
    replace s with (1 + (s - 1)) at 1 by lia.
    rewrite Z.pow_add_r by lia. change (2 ^ 1) with 2. lia. }
  pose proof (Z.div_eucl_eq (Z.shiftl (Z.pos m) s) (2 ^ (s - 1))) as E.
  pose proof (Z.mod_pos_bound (Z.shiftl (Z.pos m) s) (2 ^ (s - 1)) H2k) as B.
  unfold Z.modulo in B.
  destruct (Z.div_eucl _ _) as [q r].
  specialize (E ltac:(lia)).
  rewrite Heq in E.
  assert (q = Z.pos m~0) by nia.
  assert (r = 0) by nia.
  subst. reflexivity.
Qed.

(** Dividing a double or a float of full mantissa by 65536 lowers its
    exponent by 16. *)
Lemma ddiv_65536 (x : double) :
  full_mantissa 53 x = true ->
  ddiv x (double_of_int (Z.shiftl 1 16)) = scaled_down x.
Proof.
  intros H.
  assert (Hc : double_of_int (Z.shiftl 1 16)
               = S754_finite false 4503599627370496 (-36))
    by (vm_compute; reflexivity).
  rewrite Hc. clear Hc.
  destruct x as [s|s| |s m e]; try discriminate H.
  - destruct s; reflexivity.
  - cbn [full_mantissa] in H.
    apply andb_true_iff in H as [H He2]. apply andb_true_iff in H as [Hd He1].
    apply Z.eqb_eq in Hd. apply Z.leb_le in He1, He2.
    unfold ddiv.
    cbv beta iota zeta delta [SFdiv SFdiv_core_binary Zdigits2].
    rewrite Hd. change (Z.pos (digits2_pos 4503599627370496)) with 53.
    replace (fexp 53 1024 (53 + e - (53 + -36))) with (e - 17)
      by (unfold fexp, emin; lia).
    replace (Z.min (e - 17) (e - -36)) with (e - 17) by lia.
    replace (e - -36 - (e - 17)) with 53 by lia.
    cbv beta iota.
    rewrite (div_eucl_shifted m 53 4503599627370496) by (lia || reflexivity).
    cbv beta iota.
    change (new_location 4503599627370496 0) with loc_Exact.
    unfold binary_round_aux, shr_fexp.
    cbn [Zdigits2 digits2_pos]. rewrite Pos2Z.inj_succ, Hd.
    replace (fexp 53 1024 (Z.succ 53 + (e - 17)) - (e - 17)) with 1
      by (unfold fexp, emin; lia).
    cbn [shr shr_record_of_loc iter_pos shr_1 orb shr_m loc_of_shr_record
         round_nearest_even].
    cbn [Zdigits2]. rewrite Hd.
    replace (fexp 53 1024 (53 + (e - 17 + 1)) - (e - 17 + 1)) with 0
      by (unfold fexp, emin; lia).
    cbn [shr shr_m].
    replace (e - 17 + 1 <=? 1024 - 53) with true by (symmetry; apply Z.leb_le; lia).
    rewrite xorb_false_r.
    cbn [scaled_down]. f_equal. lia.
Qed.

Lemma fdiv_65536 (x : float) :
  full_mantissa 24 x = true ->
  fdiv x (float_of_int (Z.shiftl 1 16)) = scaled_down x.
Proof.
  intros H.
  assert (Hc : float_of_int (Z.shiftl 1 16) = S754_finite false 8388608 (-7))
    by (vm_compute; reflexivity).
  rewrite Hc. clear Hc.
  destruct x as [s|s| |s m e]; try discriminate H.
  - destruct s; reflexivity.
  - cbn [full_mantissa] in H.
    apply andb_true_iff in H as [H He2]. apply andb_true_iff in H as [Hd He1].
    apply Z.eqb_eq in Hd. apply Z.leb_le in He1, He2.
    unfold fdiv.
    cbv beta iota zeta delta [SFdiv SFdiv_core_binary Zdigits2].
    rewrite Hd. change (Z.pos (digits2_pos 8388608)) with 24.
    replace (fexp 24 128 (24 + e - (24 + -7))) with (e - 17)
      by (unfold fexp, emin; lia).
    replace (Z.min (e - 17) (e - -7)) with (e - 17) by lia.
    replace (e - -7 - (e - 17)) with 24 by lia.
    cbv beta iota.
    rewrite (div_eucl_shifted m 24 8388608) by (lia || reflexivity).
    cbv beta iota.
    change (new_location 8388608 0) with loc_Exact.
    unfold binary_round_aux, shr_fexp.
    cbn [Zdigits2 digits2_pos]. rewrite Pos2Z.inj_succ, Hd.
    replace (fexp 24 128 (Z.succ 24 + (e - 17)) - (e - 17)) with 1
      by (unfold fexp, emin; lia).
    cbn [shr shr_record_of_loc iter_pos shr_1 orb shr_m loc_of_shr_record
         round_nearest_even].
    cbn [Zdigits2]. rewrite Hd.
    replace (fexp 24 128 (24 + (e - 17 + 1)) - (e - 17 + 1)) with 0
      by (unfold fexp, emin; lia).
    cbn [shr shr_m].
    replace (e - 17 + 1 <=? 128 - 24) with true by (symmetry; apply Z.leb_le; lia).
    rewrite xorb_false_r.
    cbn [scaled_down]. f_equal. lia.
Qed.

(** The tolerance test respects the equality of the rationals. *)
Lemma float_within_comp (x : spec_float) (e1 e2 tol : Q) :
  (e1 == e2)%Q -> float_within x e1 tol = float_within x e2 tol.
Proof.
  intros He. unfold float_within.
  destruct (float_value x) as [q|]; [|reflexivity].
  apply Qleb_comp; [|reflexivity]. rewrite He. reflexivity.
Qed.

(** m * 2^-k as a fraction. *)
Lemma dyadic_value (v : Z) (k : positive) :
  (inject_Z v * Qpower 2 (Z.neg k) == v # (2 ^ k))%Q.
Proof.
  change (Z.neg k) with (- Z.pos k).
  rewrite Qpower_opp.
  change (2%Q) with (inject_Z 2).
  rewrite <- Zpower_Qpower by lia.
  rewrite <- Pos2Z.inj_pow.
  unfold inject_Z at 2. rewrite Qinv_pos.
  rewrite Qmult_inject_Z_l. rewrite Z.mul_1_r. reflexivity.
Qed.

(** The integer test decides the tolerance test. *)
Lemma within_dyadic_sound (x : spec_float) (num : Z) (den : positive)
  (tn : Z) (td : positive) :
  within_dyadic x num den tn td = true ->
  float_within x (num # den) (tn # td) = true.
Proof.
  unfold within_dyadic, float_within.
  destruct x as [s|s| |s m [|k|k]]; try discriminate; intros H;
    apply Z.leb_le in H; cbn [float_value]; apply Qle_bool_iff.
  - apply Qabs_Qle_condition.
    unfold Qle, Qminus, Qplus, Qopp; cbn [Qnum Qden].
    rewrite ?Pos2Z.inj_mul. split; lia.
  - rewrite dyadic_value.
    apply Qabs_Qle_condition.
    unfold Qle, Qminus, Qplus, Qopp; cbn [Qnum Qden].
    rewrite ?Pos2Z.inj_mul, ?Pos2Z.inj_pow.
    set (P := 2 ^ Z.pos k) in *. set (D := Z.pos den) in *.
    set (T := Z.pos td) in *.
    set (v := if s then Z.neg m else Z.pos m) in *.
    assert (0 < P) by (unfold P; apply Z.pow_pos_nonneg; lia). assert (0 < D) by (unfold D; lia).
    assert (0 < T) by (unfold T; lia).
    split; nia.
Qed.

(** The two formulas as fractions. *)
Lemma exact_celsius_fraction (adc : Z) :
  (exact_celsius adc == (adc * 17572 - 4685 * 65536) # 6553600)%Q.
Proof.
  unfold exact_celsius, Qeq, Qminus, Qplus, Qopp, Qdiv, Qmult, Qinv, inject_Z.
  cbn [Qnum Qden]. lia.
Qed.

Lemma exact_percent_rh_fraction (adc : Z) :
  (exact_percent_rh adc == (adc * 125 - 6 * 65536) # 65536)%Q.
Proof.
  unfold exact_percent_rh, Qeq, Qminus, Qplus, Qopp, Qdiv, Qmult, Qinv,
    inject_Z.
  cbn [Qnum Qden]. lia.
Qed.

Lemma temperature_check_sound (adc : Z) :
  temperature_check adc = true ->
  float_within (temperature_of_adc adc) (exact_celsius adc) (1 # 131072)
  = true.
Proof.
  unfold temperature_check. intros H.
  apply andb_true_iff in H as [Hfull Hwithin].
  unfold temperature_of_adc. rewrite (ddiv_65536 _ Hfull).
  rewrite (float_within_comp _ _ _ _ (exact_celsius_fraction adc)).
  apply within_dyadic_sound. exact Hwithin.
Qed.

Lemma humidity_check_sound (adc : Z) :
  humidity_check adc = true ->
  float_within (humidity_of_adc adc) (exact_percent_rh adc) 0 = true.
Proof.
  unfold humidity_check. intros H.
  apply andb_true_iff in H as [Hfull Hwithin].
  unfold humidity_of_adc. rewrite (fdiv_65536 _ Hfull).
  rewrite (float_within_comp _ _ _ _ (exact_percent_rh_fraction adc)).
  apply (within_dyadic_sound _ _ _ 0 1). exact Hwithin.
Qed.

(** For every 16-bit reading the temperature stored is within 2^-17 of
    adc * 175.72 / 65536 - 46.85 and the humidity stored is
    adc * 125 / 65536 - 6. *)
Lemma conversions_accurate (b0 b1 : Z) :
  is_byte b0 -> is_byte b1 ->
  float_within (temperature_of_adc (big_endian [b0; b1]))
    (exact_celsius (big_endian [b0; b1])) (1 # 131072) = true
  /\ float_within (humidity_of_adc (big_endian [b0; b1]))
       (exact_percent_rh (big_endian [b0; b1])) 0 = true.
Proof.
  intros H0 H1.
  assert (Hall : forall_from 256 0 (fun hi =>
            forall_from 256 0 (fun lo =>
              temperature_check (hi * 256 + lo)
              && humidity_check (hi * 256 + lo))) = true)
    by (vm_compute; reflexivity).
  assert (H0' : 0 <= b0 < 0 + Z.of_nat 256) by (unfold is_byte in H0; lia).
  assert (H1' : 0 <= b1 < 0 + Z.of_nat 256) by (unfold is_byte in H1; lia).
  pose proof (forall_from_spec _ _ 0 Hall b0 H0') as Hhi. cbv beta in Hhi.
  pose proof (forall_from_spec _ _ 0 Hhi b1 H1') as Hlo. cbv beta in Hlo.
  apply andb_true_iff in Hlo as [Ht Hh].
  replace (big_endian [b0; b1]) with (b0 * 256 + b1)
    by (unfold big_endian; cbn [fold_left]; lia).
  split; [apply temperature_check_sound | apply humidity_check_sound];
    assumption.
Qed.

(** C7. In no-hold mode with the default 14-bit/12-bit conversion times and a
    transport that answers ok, [htu21_read_temperature_and_relative_humidity]
    performs, in this order: the write of command 0xF3, a wait of 50 ms
    (50 000 us), a 3-byte read; the write of command 0xF5, a wait of 16 ms
    (16 000 us), a 3-byte read.  With both checksums verifying it returns ok;
    with adc_t and adc_h the big-endian 16-bit values of the first two bytes
    of each read, the temperature stored is the float the source computes,
    which is within 2^-17 of adc_t * 175.72 / 65536 - 46.85, and the humidity
    stored is the float the source computes, which is
    adc_h * 125 / 65536 - 6. *)
Theorem htu21_read_no_hold_default_resolution
  (t0 t1 tc h0 h1 hc : Z) (temperature humidity : float)
  (w1 w2 : bus_reply) (rest : list bus_reply) (s : driver_state) :
  is_byte t0 -> is_byte t1 -> is_byte tc ->
  is_byte h0 -> is_byte h1 -> is_byte hc ->
  i2c_master_mode s = htu21_i2c_no_hold ->
  conversion_times s = (50000, 16000) ->
  reply_status w1 = STATUS_OK -> reply_status w2 = STATUS_OK ->
  bus_script s =
    w1 :: ok_reply [t0; t1; tc] :: w2 :: ok_reply [h0; h1; hc] :: rest ->
  let adc_t := big_endian [t0; t1] in
  let adc_h := big_endian [h0; h1] in
  htu21_crc_check adc_t tc = htu21_status_ok ->
  htu21_crc_check adc_h hc = htu21_status_ok ->
  let (result, s') :=
    htu21_read_temperature_and_relative_humidity temperature humidity s in
  exists stored_t stored_h : float,
    result = (htu21_status_ok, stored_t, stored_h)
    /\ stored_t = temperature_of_adc adc_t
    /\ stored_h = humidity_of_adc adc_h
    /\ float_within stored_t (exact_celsius adc_t) (1 # 131072) = true
    /\ float_within stored_h (exact_percent_rh adc_h) 0 = true
    /\ bus_trace s' =
         bus_trace s ++
         [I2cWrite {| address := 0x40; data_length := 1; data := [0xF3] |};
          TaskDelay 50;
          I2cRead 0x40 3;
          I2cWrite {| address := 0x40; data_length := 1; data := [0xF5] |};
          TaskDelay 16;
          I2cRead 0x40 3].
Proof.
  intros Ht0 Ht1 Htc Hh0 Hh1 Hhc Hmode Htimes Hw1 Hw2 Hs adc_t adc_h Hct Hch.
  unfold conversion_times in Htimes. injection Htimes as Htt Hth.
  unfold htu21_read_temperature_and_relative_humidity, bind.
  rewrite (temperature_sequence_no_hold t0 t1 tc 0 w1
             (w2 :: ok_reply [h0; h1; hc] :: rest) s) by assumption.
  fold adc_t. cbn [failed htu21_status_eqb negb].
  rewrite (humidity_sequence_no_hold h0 h1 hc adc_t w2 rest)
    by (try assumption; reflexivity).
  fold adc_h. cbn [failed htu21_status_eqb negb ret bus_trace].
  destruct (conversions_accurate t0 t1 Ht0 Ht1) as [Hacc_t _].
  destruct (conversions_accurate h0 h1 Hh0 Hh1) as [_ Hacc_h].
  exists (temperature_of_adc adc_t), (humidity_of_adc adc_h).
  repeat (split; [first [reflexivity | assumption]|]).
  rewrite <- app_assoc. reflexivity.
Qed.

(** The datasheet's two readings: 0x683A with checksum 0x7C, then 0x4E85 with
    checksum 0x6B. *)
Lemma htu21_read_no_hold_default_resolution_witness :
  let s := initial_state
             [ok_reply []; ok_reply [0x68; 0x3A; 0x7C];
              ok_reply []; ok_reply [0x4E; 0x85; 0x6B]] in
  let adc_t := big_endian [0x68; 0x3A] in
  let adc_h := big_endian [0x4E; 0x85] in
  let (result, s') :=
    htu21_read_temperature_and_relative_humidity (S754_zero false)
      (S754_zero false) s in
  exists stored_t stored_h : float,
    result = (htu21_status_ok, stored_t, stored_h)
    /\ stored_t = temperature_of_adc adc_t
    /\ stored_h = humidity_of_adc adc_h
    /\ float_within stored_t (exact_celsius adc_t) (1 # 131072) = true
    /\ float_within stored_h (exact_percent_rh adc_h) 0 = true
    /\ bus_trace s' =
         bus_trace s ++
         [I2cWrite {| address := 0x40; data_length := 1; data := [0xF3] |};
          TaskDelay 50;
          I2cRead 0x40 3;
          I2cWrite {| address := 0x40; data_length := 1; data := [0xF5] |};
          TaskDelay 16;
          I2cRead 0x40 3].
Proof.
  intros s adc_t adc_h.
  apply (htu21_read_no_hold_default_resolution 0x68 0x3A 0x7C 0x4E 0x85 0x6B
           (S754_zero false) (S754_zero false) (ok_reply []) (ok_reply []) [] s);
    try (unfold is_byte; lia); try reflexivity;
    vm_compute; reflexivity.
Defined.

(** On the datasheet's two readings the temperature stored is within 2^-17
    of the exact value and the humidity stored is the exact value. *)
Example conversions_of_datasheet_readings_accurate :
  float_within (temperature_of_adc 0x683A) (exact_celsius 0x683A) (1 # 131072)
  = true
  /\ float_within (humidity_of_adc 0x4E85) (exact_percent_rh 0x4E85) 0 = true.
Proof. split; vm_compute; reflexivity. Qed.

(** The datasheet's temperature reading 0x683A is 24.69 degrees: the float
    stored is 12945596 * 2^-19 = 24.6917...; its humidity reading 0x4E85 is
    32.3 %RH: the float stored is 8477636 * 2^-18 = 32.3396... *)
Example temperature_of_datasheet_reading :
  temperature_of_adc 0x683A = S754_finite false 12945596 (-19).
Proof. vm_compute. reflexivity. Qed.

Example humidity_of_datasheet_reading :
  humidity_of_adc 0x4E85 = S754_finite false 8477636 (-18).
Proof. vm_compute. reflexivity. Qed.

(** C9. [htu21_read_temperature_and_relative_humidity] does not write its two
    outputs together.  When the temperature sequence fails, the error is
    returned and both outputs keep their value.  When it succeeds with
    [adc_t] and the humidity sequence then fails, the error is returned, the
    temperature output holds the converted [adc_t] and the humidity output
    keeps its value. *)
Theorem htu21_read_outputs_not_atomic
  (temperature humidity : float) (s : driver_state) :
  let (rt, s1) := htu21_temperature_conversion_and_read_adc 0 s in
  let (status_t, adc_t) := rt in
  let (rh, s2) := htu21_humidity_conversion_and_read_adc adc_t s1 in
  let (status_h, adc_h) := rh in
  let run := htu21_read_temperature_and_relative_humidity temperature humidity s in
  (status_t <> htu21_status_ok ->
   run = ((status_t, temperature, humidity), s1))
  /\ (status_t = htu21_status_ok -> status_h <> htu21_status_ok ->
      run = ((status_h, temperature_of_adc adc_t, humidity), s2)).
Proof.
  unfold htu21_read_temperature_and_relative_humidity, bind.
  destruct (htu21_temperature_conversion_and_read_adc 0 s) as [[status_t adc_t] s1].
  destruct (htu21_humidity_conversion_and_read_adc adc_t s1)
    as [[status_h adc_h] s2] eqn:Hh.
  cbv zeta. split.
  - intros Hfail.
    destruct status_t; [contradiction | reflexivity | reflexivity | reflexivity].
  - intros -> Hfail. cbn [failed htu21_status_eqb negb]. rewrite Hh.
    destruct status_h; [contradiction | reflexivity | reflexivity | reflexivity].
Qed.

(** The temperature is read and verified, then the humidity read times out. *)
Lemma htu21_read_outputs_not_atomic_witness :
  let s := initial_state
             [ok_reply []; ok_reply [0x68; 0x3A; 0x7C];
              ok_reply []; failed_reply STATUS_ERR_TIMEOUT] in
  fst (htu21_read_temperature_and_relative_humidity
         (S754_zero false) (S754_infinity true) s)
  = (htu21_status_i2c_transfer_error, temperature_of_adc 0x683A,
     S754_infinity true).
Proof.
  intro s.
  pose proof (htu21_read_outputs_not_atomic
                (S754_zero false) (S754_infinity true) s) as H.
  vm_compute in H. destruct H as [_ H].
  specialize (H eq_refl ltac:(discriminate)).
  vm_compute. exact (f_equal fst H).
Defined.

(** The temperature is read and verified, then the humidity read times out:
    the call returns a transfer error, the temperature output holds the
    converted reading and the humidity output is the one passed in. *)
Example htu21_read_temperature_written_humidity_kept :
  let s := initial_state
             [ok_reply []; ok_reply [0x68; 0x3A; 0x7C];
              ok_reply []; failed_reply STATUS_ERR_TIMEOUT] in
  fst (htu21_read_temperature_and_relative_humidity
         (S754_zero false) (S754_infinity true) s)
  = (htu21_status_i2c_transfer_error, temperature_of_adc 0x683A,
     S754_infinity true).
Proof. vm_compute. reflexivity. Qed.

(** The checksum of the temperature reading is wrong: neither output is
    written. *)
Example htu21_read_nothing_written :
  let s := initial_state
             [ok_reply []; ok_reply [0x68; 0x3A; 0x7D];
              ok_reply []; ok_reply [0x4E; 0x85; 0x6B]] in
  fst (htu21_read_temperature_and_relative_humidity
         (S754_zero false) (S754_infinity true) s)
  = (htu21_status_crc_error, S754_zero false, S754_infinity true).
Proof. vm_compute. reflexivity. Qed.

(** ** Dew point *)

(** The part of the dew-point expression that follows [log10], when [log10]
    has returned -inf: -B / (-inf - A) - C is the float -C. *)
Lemma dew_point_after_log10_of_zero :
  float_of_double
    (dsub (ddiv (double_of_float (SFopp HTU21_CONSTANT_B))
                (dsub (S754_infinity true) (double_of_float HTU21_CONSTANT_A)))
          (double_of_float HTU21_CONSTANT_C))
  = SFopp HTU21_CONSTANT_C.
Proof. vm_compute. reflexivity. Qed.

(** A zero or finite double times a zero or finite double, divided by 100,
    when one of the factors is a zero: a zero. *)
Lemma scaled_product_zero (x y : double) :
  is_finite x = true -> is_finite y = true ->
  is_zero x = true \/ is_zero y = true ->
  is_zero (ddiv (dmul x y) (double_of_int 100)) = true.
Proof.
  intros Hx Hy Hz.
  assert (H100 : exists m e, double_of_int 100 = S754_finite false m e)
    by (vm_compute; eauto).
  destruct H100 as (m & e & ->).
  destruct x as [sx|sx| |sx mx ex], y as [sy|sy| |sy my ey];
    try discriminate Hx; try discriminate Hy;
    try reflexivity.
  destruct Hz as [Hz|Hz]; discriminate Hz.
Qed.

(** At the temperature -C the argument of [pow] is -inf. *)
Lemma pow_argument_at_minus_C :
  double_of_float
    (fsub HTU21_CONSTANT_A
          (fdiv HTU21_CONSTANT_B
                (fadd (SFopp HTU21_CONSTANT_C) HTU21_CONSTANT_C)))
  = S754_infinity true.
Proof. vm_compute. reflexivity. Qed.

(** Rounding keeps the sign. *)
Lemma binary_round_aux_sign (prec emax : Z) (s : bool) (m e : Z)
  (l : location) :
  match binary_round_aux prec emax s m e l with
  | S754_zero s' | S754_infinity s' | S754_finite s' _ _ => s' = s
  | S754_nan => True
  end.
Proof.
  unfold binary_round_aux.
  destruct (shr_fexp prec emax m e l) as [mrs' e'].
  destruct (shr_fexp prec emax _ e' loc_Exact) as [mrs'' e''].
  destruct (shr_m mrs'') as [|p|p]; [reflexivity| |exact I].
  destruct (e'' <=? emax - prec); reflexivity.
Qed.

Lemma binary_round_aux_negative (prec emax : Z) (m e : Z) (l : location) :
  is_positive (binary_round_aux prec emax true m e l) = false.
Proof.
  pose proof (binary_round_aux_sign prec emax true m e l) as H.
  destruct (binary_round_aux prec emax true m e l) as [s|s| |s mm ee];
    try reflexivity; subst s; reflexivity.
Qed.

Lemma double_of_float_at_most_zero (x : float) :
  at_most_zero x = true -> is_positive (double_of_float x) = false.
Proof.
  destruct x as [s|[|]| |[|] m e]; try discriminate; intros _;
    try reflexivity.
  unfold double_of_float, binary_round.
  destruct (shl_align _ _ _) as [mz ez].
  apply binary_round_aux_negative.
Qed.

(** The product of a double that is not above zero and one that is not
    below zero, or of any double and a zero, divided by 100, is not above
    zero. *)
Lemma scaled_product_not_positive (x y : double) :
  (is_positive x = false /\ is_negative y = false)
  \/ is_zero y = true ->
  is_positive (ddiv (dmul x y) (double_of_int 100)) = false.
Proof.
  intros H.
  assert (H100 : exists m e, double_of_int 100 = S754_finite false m e)
    by (vm_compute; eauto).
  destruct H100 as (m100 & e100 & ->).
  assert (Hmul : is_positive (dmul x y) = false).
  { destruct H as [[Hx Hy]|Hy].
    - destruct x as [sx|[|]| |[|] mx ex]; try discriminate Hx;
        destruct y as [sy|[|]| |[|] my ey]; try discriminate Hy;
        try reflexivity;
        try (destruct sx; reflexivity); try (destruct sy; reflexivity);
        try (destruct sx, sy; reflexivity).
      apply binary_round_aux_negative.
    - destruct y as [sy|sy| |sy my ey]; try discriminate Hy.
      destruct x as [sx|sx| |sx mx ex]; reflexivity. }
  destruct (dmul x y) as [s|[|]| |[|] mm ee]; try discriminate Hmul;
    try reflexivity.
  unfold ddiv, SFdiv.
  destruct (SFdiv_core_binary _ _ _ _ _ _) as [[mz ez] lz].
  apply binary_round_aux_negative.
Qed.

(** The part of the dew-point expression that follows [log10], when [log10]
    has returned a NaN: a NaN. *)
Lemma dew_point_after_log10_nan (x : double) :
  float_of_double
    (dsub (ddiv (double_of_float (SFopp HTU21_CONSTANT_B))
                (dsub S754_nan x))
          (double_of_float HTU21_CONSTANT_C))
  = S754_nan.
Proof.
  change (dsub S754_nan x) with S754_nan.
  vm_compute. reflexivity.
Qed.

(** C5 as amended.  [htu21_compute_dew_point] has no error output: the
    outcome of a call is a float.  With a [log10] that returns -inf at zero
    and a NaN below zero and at a NaN, and a [pow] that returns +0 for 10 to
    the power -inf (C, Annex F): for every relative humidity that is at most
    zero (a zero, a negative number or -inf) with a partial pressure that is
    not below zero, and for the temperature -235.66 with any relative
    humidity, the float returned is -235.66, the value of
    -B / (-inf - A) - C, when relative_humidity * partial_pressure / 100 is a
    zero, and a NaN when it is not.  It is a zero, and the float returned
    -235.66, for a relative humidity of zero and a finite partial pressure,
    and for the temperature -235.66 and a finite relative humidity; for a
    relative humidity below zero it is a zero only when the product
    underflows.  No domain error is reported. *)
Theorem htu21_compute_dew_point_outside_domain
  (L : libm) (temperature relative_humidity : float) :
  (forall sgn, log10 L (S754_zero sgn) = S754_infinity true) ->
  (forall x, is_negative x = true -> log10 L x = S754_nan) ->
  log10 L S754_nan = S754_nan ->
  pow L (double_of_int 10) (S754_infinity true) = S754_zero false ->
  (at_most_zero relative_humidity = true
   /\ is_negative (partial_pressure L temperature) = false)
  \/ temperature = SFopp HTU21_CONSTANT_C ->
  let scaled :=
    ddiv (dmul (double_of_float relative_humidity)
               (partial_pressure L temperature))
         (double_of_int 100) in
  let returned := if is_zero scaled then SFopp HTU21_CONSTANT_C else S754_nan in
  htu21_compute_dew_point L temperature relative_humidity = returned
  /\ dew_point_outcome L temperature relative_humidity = Computed returned
  /\ (is_zero relative_humidity = true ->
      is_finite (partial_pressure L temperature) = true ->
      returned = SFopp HTU21_CONSTANT_C)
  /\ (temperature = SFopp HTU21_CONSTANT_C ->
      is_finite (double_of_float relative_humidity) = true ->
      returned = SFopp HTU21_CONSTANT_C).
Proof.
  intros Hzero Hneg Hnan Hpow Hcases scaled returned.
  assert (Hminus : temperature = SFopp HTU21_CONSTANT_C ->
                   partial_pressure L temperature = S754_zero false).
  { intros ->. unfold partial_pressure.
    rewrite pow_argument_at_minus_C. exact Hpow. }
  assert (Hsign : is_positive scaled = false).
  { apply scaled_product_not_positive.
    destruct Hcases as [[Hrh Hpp]|Ht].
    - left. split; [apply double_of_float_at_most_zero; exact Hrh | exact Hpp].
    - right. rewrite (Hminus Ht). reflexivity. }
  assert (Hval : htu21_compute_dew_point L temperature relative_humidity
                 = returned).
  { unfold htu21_compute_dew_point, returned. fold scaled.
    destruct scaled as [sgn|[|]| |[|] m e]; try discriminate Hsign;
      cbn [is_zero].
    - rewrite Hzero. apply dew_point_after_log10_of_zero.
    - rewrite (Hneg (S754_infinity true) eq_refl).
      apply dew_point_after_log10_nan.
    - rewrite Hnan. apply dew_point_after_log10_nan.
    - rewrite (Hneg (S754_finite true m e) eq_refl).
      apply dew_point_after_log10_nan. }
  split; [exact Hval|].
  split; [unfold dew_point_outcome; rewrite Hval; reflexivity|].
  split.
  - intros Hrh Hpp. unfold returned, scaled.
    destruct relative_humidity as [s|s| |s m e]; try discriminate Hrh.
    rewrite scaled_product_zero; [reflexivity | reflexivity | exact Hpp |].
    left. reflexivity.
  - intros Ht Hrh. unfold returned, scaled.
    rewrite (Hminus Ht).
    rewrite scaled_product_zero; [reflexivity | exact Hrh | reflexivity |].
    right. reflexivity.
Qed.

(** 20 degrees: a relative humidity of -5 gives a NaN, of zero -235.66. *)
Lemma htu21_compute_dew_point_outside_domain_witness :
  htu21_compute_dew_point coarse_libm (float_of_int 20) (float_of_int (-5))
  = S754_nan
  /\ htu21_compute_dew_point coarse_libm (float_of_int 20) (S754_zero false)
     = SFopp HTU21_CONSTANT_C.
Proof.
  split.
  - refine (proj1 (htu21_compute_dew_point_outside_domain coarse_libm
                     (float_of_int 20) (float_of_int (-5)) _ _ _ _ _)).
    + intros sgn. reflexivity.
    + intros [s|[|]| |[|] m e]; try discriminate; reflexivity.
    + reflexivity.
    + reflexivity.
    + left. split; vm_compute; reflexivity.
  - refine (proj1 (htu21_compute_dew_point_outside_domain coarse_libm
                     (float_of_int 20) (S754_zero false) _ _ _ _ _)).
    + intros sgn. reflexivity.
    + intros [s|[|]| |[|] m e]; try discriminate; reflexivity.
    + reflexivity.
    + reflexivity.
    + left. split; vm_compute; reflexivity.
Defined.

(** C5, counterexample.  Asked for the dew point at 20 degrees and a relative
    humidity of zero, the code reports no domain error: the outcome of the
    call is the float -235.66, which is no NaN. *)
Lemma htu21_compute_dew_point_no_domain_error :
  dew_point_outcome coarse_libm (float_of_int 20) (S754_zero false)
  <> DomainError
  /\ htu21_compute_dew_point coarse_libm (float_of_int 20) (S754_zero false)
     = S754_finite true 15444214 (-16)
  /\ is_nan (htu21_compute_dew_point coarse_libm (float_of_int 20)
               (S754_zero false)) = false.
Proof.
  split; [discriminate|].
  split; vm_compute; reflexivity.
Qed.

(** * Further properties *)

(** ** The checksum is linear, and what it detects *)

Lemma division_step_lxor (i a b : Z) :
  division_step i (Z.lxor a b)
  = Z.lxor (division_step i a) (division_step i b).
Proof.
  unfold division_step. rewrite Z.lxor_spec.
  apply Z.bits_inj'. intros n Hn.
  destruct (Z.testbit a i), (Z.testbit b i); cbn [xorb];
    rewrite ?Z.lxor_spec;
    destruct (Z.testbit a n), (Z.testbit b n),
      (Z.testbit (Z.shiftl crc8_generator (i - 8)) n); reflexivity.
Qed.

Lemma divide_lxor (n : nat) :
  forall a b, divide n (Z.lxor a b) = Z.lxor (divide n a) (divide n b).
Proof.
  induction n as [|n IH]; intros a b; [reflexivity|].
  cbn [divide]. rewrite division_step_lxor. apply IH.
Qed.

Lemma lxor_16_bits (a b : Z) :
  0 <= a < 65536 -> 0 <= b < 65536 -> 0 <= Z.lxor a b < 65536.
Proof.
  intros Ha Hb. change 65536 with (2 ^ 16) in *.
  apply lxor_bounded; [lia | exact Ha | exact Hb].
Qed.

Lemma lxor_8_bits (a b : Z) :
  0 <= a < 256 -> 0 <= b < 256 -> 0 <= Z.lxor a b < 256.
Proof.
  intros Ha Hb. change 256 with (2 ^ 8) in *.
  apply lxor_bounded; [lia | exact Ha | exact Hb].
Qed.

(** The CRC-8 of the exclusive or of two 16-bit values is the exclusive or
    of their CRC-8s. *)
Lemma crc8_spec_lxor (a b : Z) :
  0 <= a < 65536 -> 0 <= b < 65536 ->
  crc8_spec (Z.lxor a b) = Z.lxor (crc8_spec a) (crc8_spec b).
Proof.
  intros Ha Hb.
  rewrite (proj1 (crc8_spec_divides _ (lxor_16_bits a b Ha Hb))).
  rewrite (proj1 (crc8_spec_divides a Ha)), (proj1 (crc8_spec_divides b Hb)).
  rewrite Z.shiftl_lxor. apply divide_lxor.
Qed.

(** X1. [htu21_crc_check] is linear over exclusive or: when it accepts the
    16-bit value [a] with checksum [ca] and [b] with [cb], it accepts
    [a ^ b] with [ca ^ cb]. *)
Theorem htu21_crc_check_lxor (a ca b cb : Z) :
  0 <= a < 65536 -> 0 <= ca < 256 ->
  0 <= b < 65536 -> 0 <= cb < 256 ->
  htu21_crc_check a ca = htu21_status_ok ->
  htu21_crc_check b cb = htu21_status_ok ->
  htu21_crc_check (Z.lxor a b) (Z.lxor ca cb) = htu21_status_ok.
Proof.
  intros Ha Hca Hb Hcb Hoka Hokb.
  apply crc_check_ok_iff in Hoka; [|assumption|assumption].
  apply crc_check_ok_iff in Hokb; [|assumption|assumption].
  apply crc_check_ok_iff.
  - apply lxor_16_bits; assumption.
  - apply lxor_8_bits; assumption.
  - subst ca cb. symmetry. apply crc8_spec_lxor; assumption.
Qed.

(** The two datasheet readings. *)
Lemma htu21_crc_check_lxor_witness :
  htu21_crc_check (Z.lxor 0x683A 0x4E85) (Z.lxor 0x7C 0x6B) = htu21_status_ok.
Proof.
  apply htu21_crc_check_lxor; try lia; vm_compute; reflexivity.
Defined.

Lemma lxor_move (a b c : Z) : Z.lxor a b = Z.lxor a c -> b = c.
Proof.
  intros H.
  assert (E : Z.lxor a (Z.lxor a b) = Z.lxor a (Z.lxor a c))
    by (rewrite H; reflexivity).
  rewrite <- !Z.lxor_assoc, Z.lxor_nilpotent, !Z.lxor_0_l in E. exact E.
Qed.

(** No corruption of one, two or three bits has a value part whose CRC-8 is
    its checksum part; both parts are in range.  By evaluation over the 24^3
    triples of positions. *)
Lemma bit_errors_detected (i j k : Z) :
  0 <= i < 24 -> 0 <= j < 24 -> 0 <= k < 24 ->
  let w := bit_errors i j k in
  0 <= value_error w < 65536
  /\ 0 <= checksum_error w < 256
  /\ crc8_spec (value_error w) <> checksum_error w.
Proof.
  intros Hi Hj Hk.
  assert (Hall : forall_from 24 0 (fun i =>
            forall_from 24 0 (fun j =>
              forall_from 24 0 (fun k =>
                let w := bit_errors i j k in
                (0 <=? value_error w) && (value_error w <? 65536)
                && (0 <=? checksum_error w) && (checksum_error w <? 256)
                && negb (crc8_spec (value_error w) =? checksum_error w))))
            = true)
    by (vm_compute; reflexivity).
  assert (Hi' : 0 <= i < 0 + Z.of_nat 24) by lia.
  assert (Hj' : 0 <= j < 0 + Z.of_nat 24) by lia.
  assert (Hk' : 0 <= k < 0 + Z.of_nat 24) by lia.
  pose proof (forall_from_spec _ _ 0 Hall i Hi') as H1. cbv beta in H1.
  pose proof (forall_from_spec _ _ 0 H1 j Hj') as H2. cbv beta in H2.
  pose proof (forall_from_spec _ _ 0 H2 k Hk') as H3. cbv beta zeta in H3.
  apply andb_true_iff in H3 as [H3 Hne].
  apply andb_true_iff in H3 as [H3 Hc2].
  apply andb_true_iff in H3 as [H3 Hc1].
  apply andb_true_iff in H3 as [Hv1 Hv2].
  apply negb_true_iff, Z.eqb_neq in Hne.
  cbv zeta. repeat split; lia.
Qed.

(** X2. Every corruption of one, two or three of the 24 bits of a reading is
    rejected: for a 16-bit value [v] with its correct checksum, flipping the
    bits at up to three positions of the value and the checksum makes
    [htu21_crc_check] return a CRC error. *)
Theorem htu21_crc_check_detects_three_bit_errors (v i j k : Z) :
  0 <= v < 65536 ->
  0 <= i < 24 -> 0 <= j < 24 -> 0 <= k < 24 ->
  let w := bit_errors i j k in
  htu21_crc_check (Z.lxor v (value_error w))
                  (Z.lxor (crc8_spec v) (checksum_error w))
  = htu21_status_crc_error.
Proof.
  intros Hv Hi Hj Hk w.
  destruct (bit_errors_detected i j k Hi Hj Hk) as (Hev & Hec & Hne).
  fold w in Hev, Hec, Hne.
  destruct (crc_result_is_crc8 v Hv) as [_ Hbyte].
  destruct (crc_check_cases (Z.lxor v (value_error w))
              (Z.lxor (crc8_spec v) (checksum_error w))) as [Hok|Herr];
    [|exact Herr].
  exfalso. apply Hne.
  apply crc_check_ok_iff in Hok;
    [| apply lxor_16_bits; assumption | apply lxor_8_bits; assumption].
  rewrite crc8_spec_lxor in Hok by assumption.
  apply lxor_move in Hok. symmetry. exact Hok.
Qed.

(** The datasheet reading 0x683A with bit 3 of the checksum, bit 0 and bit 15
    of the value flipped. *)
Lemma htu21_crc_check_detects_three_bit_errors_witness :
  htu21_crc_check (Z.lxor 0x683A (value_error (bit_errors 3 8 23)))
                  (Z.lxor (crc8_spec 0x683A)
                          (checksum_error (bit_errors 3 8 23)))
  = htu21_status_crc_error.
Proof.
  apply (htu21_crc_check_detects_three_bit_errors 0x683A 3 8 23); lia.
Defined.

(** ** Single transactions *)

Lemma advance_advance (s : driver_state) (sc1 sc2 : list bus_reply)
  (c1 c2 : list bus_call) :
  advance (advance s sc1 c1) sc2 c2 = advance s sc2 (c1 ++ c2).
Proof. unfold advance. cbn. rewrite app_assoc. reflexivity. Qed.

Lemma write_command_run (cmd : Z) (r : bus_reply) (rest : list bus_reply)
  (s : driver_state) :
  bus_script s = r :: rest ->
  htu21_write_command cmd s
  = (status_of_transfer (reply_status r),
     advance s rest [command_write (uint8 cmd)]).
Proof.
  intros Hs. destruct s as [tct hct md sc tr]. cbn in Hs. subst sc.
  destruct r as [[| |] d]; reflexivity.
Qed.

Lemma write_command_no_stop_run (cmd : Z) (r : bus_reply)
  (rest : list bus_reply) (s : driver_state) :
  bus_script s = r :: rest ->
  htu21_write_command_no_stop cmd s
  = (status_of_transfer (reply_status r),
     advance s rest [command_write_no_stop (uint8 cmd)]).
Proof.
  intros Hs. destruct s as [tct hct md sc tr]. cbn in Hs. subst sc.
  destruct r as [[| |] d]; reflexivity.
Qed.

Lemma read_packet_run (len : Z) (buffer : list Z) (r : bus_reply)
  (rest : list bus_reply) (s : driver_state) :
  bus_script s = r :: rest ->
  i2c_master_read_packet_wait 0x40 len buffer s
  = ((reply_status r, store_bytes (Z.to_nat len) (reply_data r) buffer),
     advance s rest [I2cRead 0x40 len]).
Proof.
  intros Hs. destruct s as [tct hct md sc tr]. cbn in Hs. subst sc.
  reflexivity.
Qed.

(** X3. [htu21_reset] sends the reset command 0xFE.  When the transport
    accepts it, the cached conversion times become those of the 14-bit/12-bit
    resolution, whatever they were, and a delay of 15 ms follows; when the
    transport reports an error, the error is returned, the cached times are
    kept and no delay is requested.  The transfer mode is never changed. *)
Theorem htu21_reset_restores_default_times
  (r : bus_reply) (rest : list bus_reply) (s : driver_state) :
  bus_script s = r :: rest ->
  let (status, s') := htu21_reset s in
  status = status_of_transfer (reply_status r)
  /\ bus_script s' = rest
  /\ i2c_master_mode s' = i2c_master_mode s
  /\ (reply_status r = STATUS_OK ->
      conversion_times s' = (50000, 16000)
      /\ bus_trace s' = bus_trace s ++ [command_write 0xFE; TaskDelay 15])
  /\ (reply_status r <> STATUS_OK ->
      conversion_times s' = conversion_times s
      /\ bus_trace s' = bus_trace s ++ [command_write 0xFE]).
Proof.
  intros Hs. destruct s as [tct hct md sc tr]. cbn in Hs. subst sc.
  destruct r as [[| |] d]; run_driver; cbn;
    repeat split; intros; try reflexivity; try congruence.
Qed.

(** The times of the 11-bit resolution are cached; the reset is accepted. *)
Lemma htu21_reset_restores_default_times_witness :
  let s := {| htu21_temperature_conversion_time := 7000;
              htu21_humidity_conversion_time := 8000;
              i2c_master_mode := htu21_i2c_hold;
              bus_script := [ok_reply []];
              bus_trace := [] |} in
  conversion_times (snd (htu21_reset s)) = (50000, 16000).
Proof.
  intro s.
  pose proof (htu21_reset_restores_default_times (ok_reply []) [] s eq_refl)
    as H.
  destruct (htu21_reset s) as [status s'].
  destruct H as (_ & _ & _ & Hok & _).
  destruct (Hok eq_refl) as [Htimes _]. exact Htimes.
Defined.

(** X4. [htu21_is_connected] makes one transaction, a write of no data byte
    to address 0x40, and answers true exactly when the transport reports ok;
    the cached times and the mode are kept. *)
Theorem htu21_is_connected_probes_address
  (r : bus_reply) (rest : list bus_reply) (s : driver_state) :
  bus_script s = r :: rest ->
  let (connected, s') := htu21_is_connected s in
  (connected = true <-> reply_status r = STATUS_OK)
  /\ s' = advance s rest
            [I2cWrite {| address := 0x40; data_length := 0; data := [] |}].
Proof.
  intros Hs. destruct s as [tct hct md sc tr]. cbn in Hs. subst sc.
  destruct r as [[| |] d]; run_driver; cbn;
    repeat split; intros; try reflexivity; try congruence; try discriminate.
Qed.

Lemma htu21_is_connected_probes_address_witness :
  fst (htu21_is_connected (initial_state [failed_reply STATUS_ERR_OVERFLOW]))
  = false.
Proof.
  pose proof (htu21_is_connected_probes_address
                (failed_reply STATUS_ERR_OVERFLOW) []
                (initial_state [failed_reply STATUS_ERR_OVERFLOW]) eq_refl)
    as H.
  destruct (htu21_is_connected
              (initial_state [failed_reply STATUS_ERR_OVERFLOW]))
    as [[|] s'].
  - destruct H as [[H _] _]. discriminate (H eq_refl).
  - reflexivity.
Defined.

(** ** The user register, its fields and its failures *)

(** X5. [htu21_read_user_register]: when the command write fails, its error
    is returned, no read is issued and the output keeps its value; when the
    read fails, its error is returned and the output keeps its value; when
    both succeed the output is the first byte delivered.  Nothing is
    retried. *)
Theorem htu21_read_user_register_behaviour
  (value : Z) (r1 r2 : bus_reply) (rest : list bus_reply) (s : driver_state) :
  bus_script s = r1 :: r2 :: rest ->
  let (result, s') := htu21_read_user_register value s in
  (reply_status r1 <> STATUS_OK ->
   result = (status_of_transfer (reply_status r1), value)
   /\ s' = advance s (r2 :: rest) [command_write 0xE7])
  /\ (reply_status r1 = STATUS_OK -> reply_status r2 <> STATUS_OK ->
      result = (status_of_transfer (reply_status r2), value)
      /\ s' = advance s rest [command_write 0xE7; I2cRead 0x40 1])
  /\ (reply_status r1 = STATUS_OK -> reply_status r2 = STATUS_OK ->
      forall b more, reply_data r2 = b :: more ->
        result = (htu21_status_ok, uint8 b)
        /\ s' = advance s rest [command_write 0xE7; I2cRead 0x40 1]).
Proof.
  intros Hs. destruct s as [tct hct md sc tr]. cbn in Hs. subst sc.
  destruct r1 as [[| |] d1], r2 as [[| |] d2]; run_driver; cbn;
    repeat split; intros; try congruence; try reflexivity;
    match goal with
    | H : _ = _ :: _ |- _ => cbn in H; subst; reflexivity
    end.
Qed.

Lemma htu21_read_user_register_behaviour_witness :
  fst (htu21_read_user_register 0x55
         (initial_state [failed_reply STATUS_ERR_TIMEOUT; ok_reply [0x02]]))
  = (htu21_status_i2c_transfer_error, 0x55).
Proof.
  pose proof (htu21_read_user_register_behaviour 0x55
                (failed_reply STATUS_ERR_TIMEOUT) (ok_reply [0x02]) []
                (initial_state
                   [failed_reply STATUS_ERR_TIMEOUT; ok_reply [0x02]])
                eq_refl) as H.
  destruct (htu21_read_user_register 0x55
              (initial_state
                 [failed_reply STATUS_ERR_TIMEOUT; ok_reply [0x02]]))
    as [result s'].
  destruct H as [H _].
  destruct H as [Hres _]; [discriminate | exact Hres].
Defined.

(** X6. [htu21_write_user_register] never sends the write-register command
    without having read the register: when the command write or the read of
    its register read fails, that error is returned and the transactions
    made are the command write alone, or the command write and the read. *)
Theorem htu21_write_user_register_needs_read
  (value : Z) (r1 r2 : bus_reply) (rest : list bus_reply) (s : driver_state) :
  bus_script s = r1 :: r2 :: rest ->
  reply_status r1 <> STATUS_OK \/ reply_status r2 <> STATUS_OK ->
  let (status, s') := htu21_write_user_register value s in
  status <> htu21_status_ok
  /\ ((status = status_of_transfer (reply_status r1)
       /\ s' = advance s (r2 :: rest) [command_write 0xE7])
      \/ (status = status_of_transfer (reply_status r2)
          /\ s' = advance s rest [command_write 0xE7; I2cRead 0x40 1])).
Proof.
  intros Hs Hfail. destruct s as [tct hct md sc tr]. cbn in Hs. subst sc.
  destruct r1 as [[| |] d1], r2 as [[| |] d2]; cbn in Hfail;
    try (destruct Hfail as [Hfail|Hfail]; congruence);
    run_driver; cbn;
    (split; [discriminate|]);
    first [ left; split; reflexivity | right; split; reflexivity ].
Qed.

Lemma htu21_write_user_register_needs_read_witness :
  fst (htu21_write_user_register 0xFF
         (initial_state [ok_reply []; failed_reply STATUS_ERR_OVERFLOW;
                         ok_reply []]))
  <> htu21_status_ok.
Proof.
  pose proof (htu21_write_user_register_needs_read 0xFF
                (ok_reply []) (failed_reply STATUS_ERR_OVERFLOW)
                [ok_reply []]
                (initial_state [ok_reply []; failed_reply STATUS_ERR_OVERFLOW;
                                ok_reply []])
                eq_refl) as H.
  destruct (htu21_write_user_register 0xFF
              (initial_state [ok_reply []; failed_reply STATUS_ERR_OVERFLOW;
                              ok_reply []]))
    as [status s'].
  destruct H as [H _]; [right; discriminate | exact H].
Defined.

Lemma read_user_register_run
  (value cur : Z) (d1 : list Z) (rest : list bus_reply) (s : driver_state) :
  is_byte cur ->
  bus_script s = ok_reply d1 :: ok_reply [cur] :: rest ->
  htu21_read_user_register value s
  = ((htu21_status_ok, cur),
     advance s rest [command_write 0xE7; I2cRead 0x40 1]).
Proof.
  intros Hc Hs. destruct s as [tct hct md sc tr]. cbn in Hs. subst sc.
  unfold htu21_read_user_register, htu21_write_command, ok_reply.
  lazy - [uint8 app]. rewrite (uint8_small cur Hc).
  rewrite <- app_assoc. reflexivity.
Qed.

Lemma write_user_register_run
  (value cur : Z) (d1 : list Z) (r3 : bus_reply) (rest : list bus_reply)
  (s : driver_state) :
  is_byte cur -> is_byte value ->
  bus_script s = ok_reply d1 :: ok_reply [cur] :: r3 :: rest ->
  htu21_write_user_register value s
  = (status_of_transfer (reply_status r3),
     advance s rest [command_write 0xE7; I2cRead 0x40 1;
                     register_write (merged_byte cur value)]).
Proof.
  intros Hc Hv Hs.
  destruct (merged_register_byte cur value Hc Hv) as (Hm & _ & _).
  unfold htu21_write_user_register, bind.
  rewrite (read_user_register_run 0 cur d1 (r3 :: rest) s Hc Hs).
  cbn [failed htu21_status_eqb negb].
  rewrite Hm. fold (merged_byte cur value).
  destruct s as [tct hct md sc tr].
  destruct r3 as [[| |] d3]; lazy - [merged_byte app];
    rewrite <- app_assoc; reflexivity.
Qed.


(** A mask [k] within the non-reserved bits selects the target's bits in the
    merged byte; a mask within the reserved bits selects the register's. *)
Lemma merged_byte_target_bits (cur value k : Z) :
  is_byte cur -> is_byte value -> Z.land 0xC7 k = k ->
  Z.land (merged_byte cur value) k = Z.land value k.
Proof.
  intros Hc Hv Hk.
  destruct (merged_register_byte cur value Hc Hv) as (Hm & _ & Hoth).
  cbv zeta in Hm, Hoth. rewrite Hm in Hoth.
  fold (merged_byte cur value) in Hoth.
  rewrite <- Hk, !Z.land_assoc, Hoth. reflexivity.
Qed.

Lemma merged_byte_reserved_bits (cur value : Z) :
  is_byte cur -> is_byte value ->
  Z.land (merged_byte cur value) 0x38 = Z.land cur 0x38.
Proof.
  intros Hc Hv.
  destruct (merged_register_byte cur value Hc Hv) as (Hm & Hres & _).
  cbv zeta in Hm, Hres. rewrite Hm in Hres. exact Hres.
Qed.

(** The register byte with the heater bit set, and with it cleared. *)
Lemma heater_bytes (cur : Z) :
  is_byte cur ->
  let on := uint8 (Z.lor cur HTU21_USER_REG_ONCHIP_HEATER_ENABLE) in
  let off :=
    uint8 (Z.land cur (Z.lnot HTU21_USER_REG_ONCHIP_HEATER_ENABLE)) in
  is_byte on /\ Z.land on 0x04 = 0x04 /\ Z.land on 0xC3 = Z.land cur 0xC3
  /\ is_byte off /\ Z.land off 0x04 = 0 /\ Z.land off 0xC3 = Z.land cur 0xC3.
Proof.
  intros Hc.
  assert (Hall : forall_from 256 0 (fun cur =>
            let on := uint8 (Z.lor cur HTU21_USER_REG_ONCHIP_HEATER_ENABLE) in
            let off :=
              uint8 (Z.land cur
                       (Z.lnot HTU21_USER_REG_ONCHIP_HEATER_ENABLE)) in
            (0 <=? on) && (on <? 256) && (Z.land on 0x04 =? 0x04)
            && (Z.land on 0xC3 =? Z.land cur 0xC3)
            && (0 <=? off) && (off <? 256) && (Z.land off 0x04 =? 0)
            && (Z.land off 0xC3 =? Z.land cur 0xC3)) = true)
    by (vm_compute; reflexivity).
  assert (Hc' : 0 <= cur < 0 + Z.of_nat 256) by (unfold is_byte in Hc; lia).
  pose proof (forall_from_spec _ _ 0 Hall cur Hc') as H. cbv beta zeta in H.
  repeat (apply andb_true_iff in H; destruct H as [H ?]).
  repeat match goal with
         | E : (_ =? _) = true |- _ => apply Z.eqb_eq in E
         end.
  cbv zeta. unfold is_byte. repeat split; try assumption; lia.
Qed.

Lemma heater_on_byte (cur : Z) :
  is_byte cur ->
  uint8 (Z.lor cur HTU21_USER_REG_ONCHIP_HEATER_ENABLE) = Z.lor cur 0x04
  /\ is_byte (Z.lor cur 0x04).
Proof.
  intros Hc.
  assert (Hb : 0 <= Z.lor cur 4 < 2 ^ 8).
  { apply bounded_of_high_bits; [lia|]. intros l Hl.
    rewrite Z.lor_spec.
    rewrite (high_bits_of_bounded cur 8 l), (high_bits_of_bounded 4 8 l)
      by (unfold is_byte in Hc; change (2 ^ 8) with 256; lia).
    reflexivity. }
  change (2 ^ 8) with 256 in Hb.
  split; [|exact Hb].
  unfold uint8. change HTU21_USER_REG_ONCHIP_HEATER_ENABLE with 4.
  apply Z.mod_small. change (2 ^ 8) with 256. exact Hb.
Qed.

(** The runs of the two heater switches and of the status read with the
    transport answering ok up to the register write. *)
Lemma enable_heater_run
  (cur1 cur2 : Z) (d1 d3 : list Z) (r5 : bus_reply) (rest : list bus_reply)
  (s : driver_state) :
  is_byte cur1 -> is_byte cur2 ->
  bus_script s =
    ok_reply d1 :: ok_reply [cur1] :: ok_reply d3 :: ok_reply [cur2]
    :: r5 :: rest ->
  htu21_enable_heater s
  = (status_of_transfer (reply_status r5),
     advance s rest [command_write 0xE7; I2cRead 0x40 1;
                     command_write 0xE7; I2cRead 0x40 1;
                     register_write (merged_byte cur2 (Z.lor cur1 0x04))]).
Proof.
  intros H1 H2 Hs.
  destruct (heater_on_byte cur1 H1) as [Eon Hon].
  unfold htu21_enable_heater, bind.
  rewrite (read_user_register_run 0 cur1 d1 _ s H1 Hs).
  cbn [failed htu21_status_eqb negb]. rewrite Eon.
  rewrite (write_user_register_run (Z.lor cur1 4) cur2 d3 r5 rest);
    [| exact H2 | exact Hon | reflexivity].
  unfold ret. rewrite advance_advance. reflexivity.
Qed.

Lemma disable_heater_run
  (cur1 cur2 : Z) (d1 d3 : list Z) (r5 : bus_reply) (rest : list bus_reply)
  (s : driver_state) :
  is_byte cur1 -> is_byte cur2 ->
  bus_script s =
    ok_reply d1 :: ok_reply [cur1] :: ok_reply d3 :: ok_reply [cur2]
    :: r5 :: rest ->
  htu21_disable_heater s
  = (status_of_transfer (reply_status r5),
     advance s rest
       [command_write 0xE7; I2cRead 0x40 1;
        command_write 0xE7; I2cRead 0x40 1;
        register_write
          (merged_byte cur2 (uint8 (Z.land cur1 (Z.lnot 0x04))))]).
Proof.
  intros H1 H2 Hs.
  destruct (heater_bytes cur1 H1) as (_ & _ & _ & Hoff & _ & _).
  cbv zeta in Hoff.
  change HTU21_USER_REG_ONCHIP_HEATER_ENABLE with 0x04 in Hoff.
  unfold htu21_disable_heater, bind.
  rewrite (read_user_register_run 0 cur1 d1 _ s H1 Hs).
  cbn [failed htu21_status_eqb negb].
  change HTU21_USER_REG_ONCHIP_HEATER_ENABLE with 0x04.
  rewrite (write_user_register_run _ cur2 d3 r5 rest);
    [| exact H2 | exact Hoff | reflexivity].
  unfold ret. rewrite advance_advance. reflexivity.
Qed.


(** X7. With the transport answering ok, the register reading [cur1] and
    then [cur2], [htu21_enable_heater] reads the register, sets the heater
    bit, and writes through [htu21_write_user_register]: five transactions,
    the last one sending the byte (cur2 & 0x38) | ((cur1 | 0x04) & 0xC7).
    In the byte sent the heater bit is set, the resolution, battery and OTP
    bits are those of [cur1] and the reserved bits those of [cur2]; the
    cached times and the mode are kept. *)
Theorem htu21_enable_heater_sets_heater_bit
  (cur1 cur2 : Z) (d1 d3 : list Z) (r5 : bus_reply) (rest : list bus_reply)
  (s : driver_state) :
  is_byte cur1 -> is_byte cur2 ->
  bus_script s =
    ok_reply d1 :: ok_reply [cur1] :: ok_reply d3 :: ok_reply [cur2]
    :: r5 :: rest ->
  let sent := merged_byte cur2 (Z.lor cur1 0x04) in
  htu21_enable_heater s
  = (status_of_transfer (reply_status r5),
     advance s rest [command_write 0xE7; I2cRead 0x40 1;
                     command_write 0xE7; I2cRead 0x40 1;
                     register_write sent])
  /\ Z.land sent 0x04 = 0x04
  /\ Z.land sent 0xC3 = Z.land cur1 0xC3
  /\ Z.land sent 0x38 = Z.land cur2 0x38.
Proof.
  intros H1 H2 Hs sent.
  destruct (heater_bytes cur1 H1) as (_ & Hbit & Hkeep & _).
  destruct (heater_on_byte cur1 H1) as [Eon Hon].
  cbv zeta in Hbit, Hkeep. rewrite Eon in Hbit, Hkeep.
  split; [exact (enable_heater_run cur1 cur2 d1 d3 r5 rest s H1 H2 Hs)|].
  unfold sent.
  rewrite !merged_byte_target_bits by (assumption || reflexivity).
  rewrite merged_byte_reserved_bits by assumption.
  auto.
Qed.

Lemma htu21_enable_heater_sets_heater_bit_witness :
  let s := initial_state
             [ok_reply []; ok_reply [0x02]; ok_reply []; ok_reply [0x3A];
              ok_reply []] in
  fst (htu21_enable_heater s) = htu21_status_ok
  /\ Z.land (merged_byte 0x3A (Z.lor 0x02 0x04)) 0x04 = 0x04.
Proof.
  intro s.
  destruct (htu21_enable_heater_sets_heater_bit 0x02 0x3A [] [] (ok_reply [])
              [] s) as (Hrun & Hbit & _);
    [unfold is_byte; lia | unfold is_byte; lia | reflexivity |].
  rewrite Hrun. split; [reflexivity | exact Hbit].
Defined.

(** X8. With the transport answering ok, [htu21_disable_heater] sends the
    byte (cur2 & 0x38) | ((cur1 & ~0x04) & 0xC7): the heater bit is clear,
    the resolution, battery and OTP bits are those of the register read
    first and the reserved bits those of the register read by the write. *)
Theorem htu21_disable_heater_clears_heater_bit
  (cur1 cur2 : Z) (d1 d3 : list Z) (r5 : bus_reply) (rest : list bus_reply)
  (s : driver_state) :
  is_byte cur1 -> is_byte cur2 ->
  bus_script s =
    ok_reply d1 :: ok_reply [cur1] :: ok_reply d3 :: ok_reply [cur2]
    :: r5 :: rest ->
  let sent := merged_byte cur2 (uint8 (Z.land cur1 (Z.lnot 0x04))) in
  htu21_disable_heater s
  = (status_of_transfer (reply_status r5),
     advance s rest [command_write 0xE7; I2cRead 0x40 1;
                     command_write 0xE7; I2cRead 0x40 1;
                     register_write sent])
  /\ Z.land sent 0x04 = 0
  /\ Z.land sent 0xC3 = Z.land cur1 0xC3
  /\ Z.land sent 0x38 = Z.land cur2 0x38.
Proof.
  intros H1 H2 Hs sent.
  destruct (heater_bytes cur1 H1) as (_ & _ & _ & Hoff & Hbit & Hkeep).
  cbv zeta in Hoff, Hbit, Hkeep.
  change HTU21_USER_REG_ONCHIP_HEATER_ENABLE with 0x04 in Hoff, Hbit, Hkeep.
  split; [exact (disable_heater_run cur1 cur2 d1 d3 r5 rest s H1 H2 Hs)|].
  unfold sent.
  rewrite !merged_byte_target_bits by (assumption || reflexivity).
  rewrite merged_byte_reserved_bits by assumption.
  auto.
Qed.

Lemma htu21_disable_heater_clears_heater_bit_witness :
  let s := initial_state
             [ok_reply []; ok_reply [0x06]; ok_reply []; ok_reply [0x3E];
              ok_reply []] in
  fst (htu21_disable_heater s) = htu21_status_ok
  /\ Z.land (merged_byte 0x3E (uint8 (Z.land 0x06 (Z.lnot 0x04)))) 0x04 = 0.
Proof.
  intro s.
  destruct (htu21_disable_heater_clears_heater_bit 0x06 0x3E [] []
              (ok_reply []) [] s) as (Hrun & Hbit & _);
    [unfold is_byte; lia | unfold is_byte; lia | reflexivity |].
  rewrite Hrun. split; [reflexivity | exact Hbit].
Defined.

(** X9. [htu21_get_battery_status] reports a low battery exactly when bit 6
    of the register byte is set; when the command write or the read fails,
    the error is returned and the output keeps its value. *)
Theorem htu21_get_battery_status_decodes
  (bat : htu21_battery_status) (r1 r2 : bus_reply) (rest : list bus_reply)
  (s : driver_state) :
  bus_script s = r1 :: r2 :: rest ->
  let (result, s') := htu21_get_battery_status bat s in
  (reply_status r1 <> STATUS_OK ->
   result = (status_of_transfer (reply_status r1), bat))
  /\ (reply_status r1 = STATUS_OK -> reply_status r2 <> STATUS_OK ->
      result = (status_of_transfer (reply_status r2), bat))
  /\ (reply_status r1 = STATUS_OK -> reply_status r2 = STATUS_OK ->
      forall cur, is_byte cur -> reply_data r2 = [cur] ->
        result = (htu21_status_ok,
                  if Z.testbit cur 6 then htu21_battery_low
                  else htu21_battery_ok)).
Proof.
  intros Hs. destruct s as [tct hct md sc tr]. cbn in Hs. subst sc.
  destruct r1 as [[| |] d1], r2 as [[| |] d2];
    try (run_driver; cbn; repeat split; intros; try congruence; reflexivity).
  destruct (htu21_get_battery_status bat _) as [result s'] eqn:Hrun.
  split; [intros Hne; cbn in Hne; congruence|].
  split; [intros _ Hne; cbn in Hne; congruence|].
  intros _ _ cur Hcur Hdata. cbn in Hdata. subst d2.
  unfold htu21_get_battery_status, bind in Hrun.
  rewrite (read_user_register_run 0 cur d1 rest) in Hrun
    by (assumption || reflexivity).
  cbn [failed htu21_status_eqb negb] in Hrun.
  change (Z.land cur _ =? 0) with (Z.land cur (2 ^ 6) =? 0) in Hrun.
  rewrite land_pow2_eqb in Hrun by lia.
  destruct (Z.testbit cur 6); cbv beta iota delta [ret negb] in Hrun; congruence.
Qed.

Lemma htu21_get_battery_status_decodes_witness :
  fst (htu21_get_battery_status htu21_battery_ok
         (initial_state [ok_reply []; ok_reply [0x42]]))
  = (htu21_status_ok, htu21_battery_low).
Proof.
  pose proof (htu21_get_battery_status_decodes htu21_battery_ok
                (ok_reply []) (ok_reply [0x42]) []
                (initial_state [ok_reply []; ok_reply [0x42]]) eq_refl) as H.
  destruct (htu21_get_battery_status htu21_battery_ok
              (initial_state [ok_reply []; ok_reply [0x42]])) as [result s'].
  destruct H as (_ & _ & H).
  apply (H eq_refl eq_refl 0x42); [unfold is_byte; lia | reflexivity].
Defined.

(** X10. [htu21_get_heater_status] reports the heater on exactly when bit 2
    of the register byte is set; when the command write or the read fails,
    the error is returned and the output keeps its value. *)
Theorem htu21_get_heater_status_decodes
  (heater : htu21_heater_status) (r1 r2 : bus_reply) (rest : list bus_reply)
  (s : driver_state) :
  bus_script s = r1 :: r2 :: rest ->
  let (result, s') := htu21_get_heater_status heater s in
  (reply_status r1 <> STATUS_OK ->
   result = (status_of_transfer (reply_status r1), heater))
  /\ (reply_status r1 = STATUS_OK -> reply_status r2 <> STATUS_OK ->
      result = (status_of_transfer (reply_status r2), heater))
  /\ (reply_status r1 = STATUS_OK -> reply_status r2 = STATUS_OK ->
      forall cur, is_byte cur -> reply_data r2 = [cur] ->
        result = (htu21_status_ok,
                  if Z.testbit cur 2 then htu21_heater_on
                  else htu21_heater_off)).
Proof.
  intros Hs. destruct s as [tct hct md sc tr]. cbn in Hs. subst sc.
  destruct r1 as [[| |] d1], r2 as [[| |] d2];
    try (run_driver; cbn; repeat split; intros; try congruence; reflexivity).
  destruct (htu21_get_heater_status heater _) as [result s'] eqn:Hrun.
  split; [intros Hne; cbn in Hne; congruence|].
  split; [intros _ Hne; cbn in Hne; congruence|].
  intros _ _ cur Hcur Hdata. cbn in Hdata. subst d2.
  unfold htu21_get_heater_status, bind in Hrun.
  rewrite (read_user_register_run 0 cur d1 rest) in Hrun
    by (assumption || reflexivity).
  cbn [failed htu21_status_eqb negb] in Hrun.
  change (Z.land cur _ =? 0) with (Z.land cur (2 ^ 2) =? 0) in Hrun.
  rewrite land_pow2_eqb in Hrun by lia.
  destruct (Z.testbit cur 2); cbv beta iota delta [ret negb] in Hrun; congruence.
Qed.

Lemma htu21_get_heater_status_decodes_witness :
  fst (htu21_get_heater_status htu21_heater_off
         (initial_state [ok_reply []; ok_reply [0x06]]))
  = (htu21_status_ok, htu21_heater_on).
Proof.
  pose proof (htu21_get_heater_status_decodes htu21_heater_off
                (ok_reply []) (ok_reply [0x06]) []
                (initial_state [ok_reply []; ok_reply [0x06]]) eq_refl) as H.
  destruct (htu21_get_heater_status htu21_heater_off
              (initial_state [ok_reply []; ok_reply [0x06]])) as [result s'].
  destruct H as (_ & _ & H).
  apply (H eq_refl eq_refl 0x06); [unfold is_byte; lia | reflexivity].
Defined.





(** ** Resolution and conversion times *)

Lemma enumerators_distinct (E : htu21_resolution_enum) :
  NoDup (enumerators E) ->
  htu21_resolution_t_14b_rh_12b E <> htu21_resolution_t_13b_rh_10b E
  /\ htu21_resolution_t_14b_rh_12b E <> htu21_resolution_t_12b_rh_8b E
  /\ htu21_resolution_t_14b_rh_12b E <> htu21_resolution_t_11b_rh_11b E
  /\ htu21_resolution_t_13b_rh_10b E <> htu21_resolution_t_12b_rh_8b E
  /\ htu21_resolution_t_13b_rh_10b E <> htu21_resolution_t_11b_rh_11b E
  /\ htu21_resolution_t_12b_rh_8b E <> htu21_resolution_t_11b_rh_11b E.
Proof.
  unfold enumerators. intros H.
  inversion H as [|a l Ha H1]; subst.
  inversion H1 as [|b l' Hb H2]; subst.
  inversion H2 as [|c l'' Hc H3]; subst.
  cbn [In] in Ha, Hb, Hc.
  repeat split; intros Heq; rewrite Heq in *; tauto.
Qed.

(** The register byte [htu21_set_resolution] hands to
    [htu21_write_user_register] for the resolution bits [bits] over a
    register that reads [cur]. *)
Lemma resolution_bytes (cur bits : Z) :
  is_byte cur -> In bits [0x00; 0x80; 0x01; 0x81] ->
  let reg_value :=
    uint8 (Z.lor (uint8 (Z.land cur (Z.lnot HTU21_USER_REG_RESOLUTION_MASK)))
                 (Z.land bits HTU21_USER_REG_RESOLUTION_MASK)) in
  is_byte reg_value
  /\ Z.land reg_value 0x81 = bits
  /\ Z.land reg_value 0x46 = Z.land cur 0x46.
Proof.
  intros Hc Hbits.
  assert (Hall : forall_from 256 0 (fun cur =>
            forallb (fun bits =>
              let reg_value :=
                uint8 (Z.lor (uint8 (Z.land cur
                                       (Z.lnot HTU21_USER_REG_RESOLUTION_MASK)))
                             (Z.land bits HTU21_USER_REG_RESOLUTION_MASK)) in
              (0 <=? reg_value) && (reg_value <? 256)
              && (Z.land reg_value 0x81 =? bits)
              && (Z.land reg_value 0x46 =? Z.land cur 0x46))
              [0x00; 0x80; 0x01; 0x81]) = true)
    by (vm_compute; reflexivity).
  assert (Hc' : 0 <= cur < 0 + Z.of_nat 256) by (unfold is_byte in Hc; lia).
  pose proof (forall_from_spec _ _ 0 Hall cur Hc') as H. cbv beta in H.
  rewrite forallb_forall in H. specialize (H bits Hbits). cbv beta zeta in H.
  repeat (apply andb_true_iff in H; destruct H as [H ?]).
  repeat match goal with
         | E : (_ =? _) = true |- _ => apply Z.eqb_eq in E
         end.
  cbv zeta. unfold is_byte. repeat split; try assumption; lia.
Qed.

Lemma set_resolution_selects (E : htu21_resolution_enum) (res : Z) :
  htu21_set_resolution E res
  = set_resolution_with (fst (selected_row E res))
      (fst (snd (selected_row E res))) (snd (snd (selected_row E res))).
Proof.
  unfold htu21_set_resolution, selected_row.
  destruct (res =? htu21_resolution_t_14b_rh_12b E); [reflexivity|].
  destruct (res =? htu21_resolution_t_13b_rh_10b E); [reflexivity|].
  destruct (res =? htu21_resolution_t_12b_rh_8b E); [reflexivity|].
  destruct (res =? htu21_resolution_t_11b_rh_11b E); reflexivity.
Qed.

(** With distinct enumerators, the chain selects the row of the
    enumerator. *)
Lemma selected_row_of_enumerator (E : htu21_resolution_enum)
  (res : Z) (row : Z * (Z * Z)) :
  NoDup (enumerators E) ->
  In (res, row) (combine (enumerators E) timing_table) ->
  selected_row E res = row.
Proof.
  intros Hnd Hin.
  destruct (enumerators_distinct E Hnd) as (N1 & N2 & N3 & N4 & N5 & N6).
  unfold selected_row.
  cbn [combine enumerators timing_table In] in Hin.
  destruct Hin as [Hin|[Hin|[Hin|[Hin|[]]]]]; injection Hin as <- <-;
    repeat match goal with
           | |- context [Z.eqb ?a ?b] =>
               destruct (Z.eqb_spec a b); try congruence
           end.
Qed.

(** The run of [htu21_set_resolution] once its chain of comparisons has
    selected the resolution bits [bits] and the times [t] and [h], with the
    transport answering ok up to the register write. *)
Lemma set_resolution_run
  (bits t h cur1 cur2 : Z) (d1 d3 : list Z) (r5 : bus_reply)
  (rest : list bus_reply) (s : driver_state) :
  is_byte cur1 -> is_byte cur2 -> In bits [0x00; 0x80; 0x01; 0x81] ->
  bus_script s =
    ok_reply d1 :: ok_reply [cur1] :: ok_reply d3 :: ok_reply [cur2]
    :: r5 :: rest ->
  let reg_value :=
    uint8 (Z.lor (uint8 (Z.land cur1 (Z.lnot HTU21_USER_REG_RESOLUTION_MASK)))
                 (Z.land bits HTU21_USER_REG_RESOLUTION_MASK)) in
  let (status, s') := set_resolution_with bits t h s in
  status = status_of_transfer (reply_status r5)
  /\ conversion_times s' = (uint32 t, uint32 h)
  /\ i2c_master_mode s' = i2c_master_mode s
  /\ bus_script s' = rest
  /\ bus_trace s' =
       bus_trace s ++
       [command_write 0xE7; I2cRead 0x40 1;
        command_write 0xE7; I2cRead 0x40 1;
        register_write (merged_byte cur2 reg_value)].
Proof.
  intros H1 H2 Hbits Hs reg_value.
  destruct (resolution_bytes cur1 bits H1 Hbits) as (Hreg & _ & _).
  cbv zeta in Hreg. fold reg_value in Hreg.
  unfold set_resolution_with. unfold bind at 1.
  rewrite (read_user_register_run 0 cur1 d1 _ s H1 Hs).
  cbn [failed htu21_status_eqb negb]. fold reg_value.
  unfold bind, set_conversion_times.
  rewrite (write_user_register_run reg_value cur2 d3 r5 rest);
    [| exact H2 | exact Hreg | reflexivity].
  unfold ret. cbn. rewrite <- app_assoc. repeat split.
Qed.

(** X12. With distinct enumerators and a transport answering ok up to the
    register write, [htu21_set_resolution] for the enumerator of a row of
    the table caches the two conversion times of the row and sends a byte
    whose resolution bits (mask 0x81) are the row's; the heater, OTP and
    battery bits sent are those of the register read first, the reserved
    bits those of the register read by the write.  The times are cached
    whatever the status of the register write. *)
Theorem htu21_set_resolution_writes_row
  (E : htu21_resolution_enum) (res bits t h cur1 cur2 : Z) (d1 d3 : list Z)
  (r5 : bus_reply) (rest : list bus_reply) (s : driver_state) :
  NoDup (enumerators E) ->
  In (res, (bits, (t, h))) (combine (enumerators E) timing_table) ->
  is_byte cur1 -> is_byte cur2 ->
  bus_script s =
    ok_reply d1 :: ok_reply [cur1] :: ok_reply d3 :: ok_reply [cur2]
    :: r5 :: rest ->
  let (status, s') := htu21_set_resolution E res s in
  exists sent,
    status = status_of_transfer (reply_status r5)
    /\ conversion_times s' = (t, h)
    /\ bus_trace s' =
         bus_trace s ++
         [command_write 0xE7; I2cRead 0x40 1;
          command_write 0xE7; I2cRead 0x40 1;
          register_write sent]
    /\ Z.land sent 0x81 = bits
    /\ Z.land sent 0x46 = Z.land cur1 0x46
    /\ Z.land sent 0x38 = Z.land cur2 0x38.
Proof.
  intros Hnd Hin H1 H2 Hs.
  rewrite set_resolution_selects.
  rewrite (selected_row_of_enumerator E res _ Hnd Hin). cbn [fst snd].
  assert (Hbits : In bits [0x00; 0x80; 0x01; 0x81]
                  /\ (uint32 t, uint32 h) = (t, h)).
  { cbn [combine enumerators timing_table In] in Hin.
    destruct Hin as [Hin|[Hin|[Hin|[Hin|[]]]]];
      injection Hin as _ <- <- <-;
      (split; [cbn [In]; auto 10 | reflexivity]). }
  destruct Hbits as [Hbits Htimes].
  pose proof (set_resolution_run bits t h cur1 cur2 d1 d3 r5 rest s
                H1 H2 Hbits Hs) as Hrun.
  cbv zeta in Hrun.
  destruct (resolution_bytes cur1 bits H1 Hbits) as (Hreg & Hres & Hkeep).
  cbv zeta in Hreg, Hres, Hkeep.
  set (reg_value :=
         uint8 (Z.lor (uint8 (Z.land cur1
                                (Z.lnot HTU21_USER_REG_RESOLUTION_MASK)))
                      (Z.land bits HTU21_USER_REG_RESOLUTION_MASK))) in *.
  destruct (set_resolution_with bits t h s) as [status s'].
  destruct Hrun as (Hst & Ht & _ & _ & Htr).
  exists (merged_byte cur2 reg_value).
  rewrite Htimes in Ht.
  repeat split; try assumption.
  - rewrite merged_byte_target_bits by (assumption || reflexivity).
    exact Hres.
  - rewrite merged_byte_target_bits by (assumption || reflexivity).
    exact Hkeep.
  - apply merged_byte_reserved_bits; assumption.
Qed.

(** The 13-bit/10-bit resolution against the sample enumeration. *)
Lemma htu21_set_resolution_writes_row_witness :
  conversion_times
    (snd (htu21_set_resolution sample_resolution_enum 1
            (initial_state [ok_reply []; ok_reply [0x02]; ok_reply [];
                            ok_reply [0x02]; ok_reply []])))
  = (25000, 5000).
Proof.
  pose proof (htu21_set_resolution_writes_row sample_resolution_enum
                1 0x80 25000 5000 0x02 0x02 [] [] (ok_reply []) []
                (initial_state [ok_reply []; ok_reply [0x02]; ok_reply [];
                                ok_reply [0x02]; ok_reply []])) as H.
  destruct (htu21_set_resolution sample_resolution_enum 1 _) as [status s'].
  destruct H as (sent & _ & Htimes & _).
  - repeat (constructor; [cbn; intuition discriminate|]). constructor.
  - cbn. auto.
  - unfold is_byte; lia.
  - unfold is_byte; lia.
  - reflexivity.
  - exact Htimes.
Defined.

(** ** What a call leaves alone *)

Lemma extends_refl (n : nat) (s : driver_state) : extends n s s.
Proof.
  unfold extends. repeat split. exists []. rewrite app_nil_r.
  split; [reflexivity | cbn; lia].
Qed.

Lemma extends_trans (n m : nat) (s s1 s2 : driver_state) :
  extends n s s1 -> extends m s1 s2 -> extends (n + m) s s2.
Proof.
  intros (Ht1 & Hm1 & c1 & Hc1 & Hl1) (Ht2 & Hm2 & c2 & Hc2 & Hl2).
  unfold extends. repeat split; try congruence.
  exists (c1 ++ c2). split.
  - rewrite Hc2, Hc1, app_assoc. reflexivity.
  - rewrite length_app. lia.
Qed.

Lemma extends_le (n m : nat) (s s' : driver_state) :
  (n <= m)%nat -> extends n s s' -> extends m s s'.
Proof.
  intros Hle (Ht & Hm & c & Hc & Hl). unfold extends. repeat split; auto.
  exists c. split; [exact Hc | lia].
Qed.

Lemma frames_ret {A : Type} (n : nat) (a : A) : frames n (ret a).
Proof. intros s. apply extends_refl. Qed.

Lemma frames_le {A : Type} (n m : nat) (c : M A) :
  (n <= m)%nat -> frames n c -> frames m c.
Proof. intros Hle H s. apply (extends_le n m); auto. Qed.

Lemma frames_bind {A B : Type} (n m : nat) (c : M A) (k : A -> M B) :
  frames n c -> (forall a, frames m (k a)) -> frames (n + m) (bind c k).
Proof.
  intros Hc Hk s. unfold bind.
  specialize (Hc s). destruct (c s) as [a s1]. cbn [snd] in Hc.
  apply (extends_trans n m s s1); [exact Hc | apply Hk].
Qed.

Lemma frames_record_call (c : bus_call) : frames 1 (record_call c).
Proof.
  intros [tct hct md sc tr]. unfold extends. cbn. repeat split.
  exists [c]. split; [reflexivity | cbn; lia].
Qed.

Lemma frames_next_reply : frames 0 next_reply.
Proof.
  intros [tct hct md [|r sc] tr]; unfold extends; cbn; repeat split;
    exists []; rewrite app_nil_r; split; try reflexivity; cbn; lia.
Qed.

Lemma frames_get {A : Type} (field : driver_state -> A) : frames 0 (get field).
Proof. intros s. apply extends_refl. Qed.

Lemma frames_write_packet (p : i2c_master_packet) :
  frames 1 (i2c_master_write_packet_wait p).
Proof.
  unfold i2c_master_write_packet_wait.
  apply (frames_bind 1 0); [apply frames_record_call|]. intros _.
  apply (frames_bind 0 0); [apply frames_next_reply|]. intros r.
  apply frames_ret.
Qed.

Lemma frames_write_packet_no_stop (p : i2c_master_packet) :
  frames 1 (i2c_master_write_packet_wait_no_stop p).
Proof.
  unfold i2c_master_write_packet_wait_no_stop.
  apply (frames_bind 1 0); [apply frames_record_call|]. intros _.
  apply (frames_bind 0 0); [apply frames_next_reply|]. intros r.
  apply frames_ret.
Qed.

Lemma frames_read_packet (addr len : Z) (buffer : list Z) :
  frames 1 (i2c_master_read_packet_wait addr len buffer).
Proof.
  unfold i2c_master_read_packet_wait.
  apply (frames_bind 1 0); [apply frames_record_call|]. intros _.
  apply (frames_bind 0 0); [apply frames_next_reply|]. intros r.
  apply frames_ret.
Qed.

Lemma frames_delay_ms (ms : Z) : frames 1 (delay_ms ms).
Proof.
  unfold delay_ms. destruct (0 <=? ms);
    [apply frames_record_call | apply frames_ret].
Qed.

Lemma frames_write_command (cmd : Z) : frames 1 (htu21_write_command cmd).
Proof.
  unfold htu21_write_command.
  apply (frames_bind 1 0); [apply frames_write_packet|].
  intros [| |]; apply frames_ret.
Qed.

Lemma frames_write_command_no_stop (cmd : Z) :
  frames 1 (htu21_write_command_no_stop cmd).
Proof.
  unfold htu21_write_command_no_stop.
  apply (frames_bind 1 0); [apply frames_write_packet_no_stop|].
  intros [| |]; apply frames_ret.
Qed.

Lemma frames_read_user_register (value : Z) :
  frames 2 (htu21_read_user_register value).
Proof.
  unfold htu21_read_user_register.
  apply (frames_bind 1 1); [apply frames_write_command|].
  intros status. destruct (failed status); [apply frames_ret|].
  apply (frames_bind 1 0); [apply frames_read_packet|].
  intros [[| |] buffer]; apply frames_ret.
Qed.

Lemma frames_write_user_register (value : Z) :
  frames 3 (htu21_write_user_register value).
Proof.
  unfold htu21_write_user_register.
  apply (frames_bind 2 1); [apply frames_read_user_register|].
  intros [status reg]. destruct (failed status); [apply frames_ret|].
  apply (frames_bind 1 0); [apply frames_write_packet|].
  intros [| |]; apply frames_ret.
Qed.

Lemma frames_temperature_sequence (adc : Z) :
  frames 3 (htu21_temperature_conversion_and_read_adc adc).
Proof.
  unfold htu21_temperature_conversion_and_read_adc.
  apply (frames_bind 0 3); [apply frames_get|]. intros mode.
  apply (frames_bind 2 1).
  - destruct mode.
    + apply (frames_le 1 2); [lia | apply frames_write_command_no_stop].
    + apply (frames_bind 1 1); [apply frames_write_command|]. intros status.
      apply (frames_bind 0 1); [apply frames_get|]. intros time.
      apply (frames_bind 1 0); [apply frames_delay_ms|]. intros _.
      apply frames_ret.
  - intros status. destruct (failed status); [apply frames_ret|].
    apply (frames_bind 1 0); [apply frames_read_packet|].
    intros [[| |] buffer]; try apply frames_ret.
    destruct (failed _); apply frames_ret.
Qed.

Lemma frames_humidity_sequence (adc : Z) :
  frames 3 (htu21_humidity_conversion_and_read_adc adc).
Proof.
  unfold htu21_humidity_conversion_and_read_adc.
  apply (frames_bind 0 3); [apply frames_get|]. intros mode.
  apply (frames_bind 2 1).
  - destruct mode.
    + apply (frames_le 1 2); [lia | apply frames_write_command_no_stop].
    + apply (frames_bind 1 1); [apply frames_write_command|]. intros status.
      apply (frames_bind 0 1); [apply frames_get|]. intros time.
      apply (frames_bind 1 0); [apply frames_delay_ms|]. intros _.
      apply frames_ret.
  - intros status. destruct (failed status); [apply frames_ret|].
    apply (frames_bind 1 0); [apply frames_read_packet|].
    intros [[| |] buffer]; try apply frames_ret.
    destruct (failed _); apply frames_ret.
Qed.

Lemma frames_is_connected : frames 1 htu21_is_connected.
Proof.
  unfold htu21_is_connected.
  apply (frames_bind 1 0); [apply frames_write_packet|].
  intros [| |]; apply frames_ret.
Qed.

Lemma frames_get_battery_status (bat : htu21_battery_status) :
  frames 2 (htu21_get_battery_status bat).
Proof.
  unfold htu21_get_battery_status.
  apply (frames_bind 2 0); [apply frames_read_user_register|].
  intros [status reg]. destruct (failed status); [apply frames_ret|].
  destruct (negb _); apply frames_ret.
Qed.

Lemma frames_get_heater_status (heater : htu21_heater_status) :
  frames 2 (htu21_get_heater_status heater).
Proof.
  unfold htu21_get_heater_status.
  apply (frames_bind 2 0); [apply frames_read_user_register|].
  intros [status reg]. destruct (failed status); [apply frames_ret|].
  destruct (negb _); apply frames_ret.
Qed.

Lemma frames_enable_heater : frames 5 htu21_enable_heater.
Proof.
  unfold htu21_enable_heater.
  apply (frames_bind 2 3); [apply frames_read_user_register|].
  intros [status reg]. destruct (failed status); [apply frames_ret|].
  apply (frames_bind 3 0); [apply frames_write_user_register|].
  intros st. apply frames_ret.
Qed.

Lemma frames_disable_heater : frames 5 htu21_disable_heater.
Proof.
  unfold htu21_disable_heater.
  apply (frames_bind 2 3); [apply frames_read_user_register|].
  intros [status reg]. destruct (failed status); [apply frames_ret|].
  apply (frames_bind 3 0); [apply frames_write_user_register|].
  intros st. apply frames_ret.
Qed.

Lemma frames_read_serial_number (sn : Z) :
  frames 4 (htu21_read_serial_number sn).
Proof.
  unfold htu21_read_serial_number.
  apply (frames_bind 1 3); [apply frames_write_packet_no_stop|]. intros _.
  apply (frames_bind 1 2); [apply frames_read_packet|].
  intros [[| |] rcv]; try apply frames_ret.
  apply (frames_bind 1 1); [apply frames_write_packet_no_stop|]. intros _.
  apply (frames_bind 1 0); [apply frames_read_packet|].
  intros [[| |] last]; try apply frames_ret.
  destruct (failed _); [apply frames_ret|].
  destruct (failed _); apply frames_ret.
Qed.

Lemma frames_read_temperature_and_relative_humidity (t h : float) :
  frames 6 (htu21_read_temperature_and_relative_humidity t h).
Proof.
  unfold htu21_read_temperature_and_relative_humidity.
  apply (frames_bind 3 3); [apply frames_temperature_sequence|].
  intros [status adc]. destruct (failed status); [apply frames_ret|].
  apply (frames_bind 3 0); [apply frames_humidity_sequence|].
  intros [status' adc']. destruct (failed status'); apply frames_ret.
Qed.

(** X13. No operation retries, and the operations that read or write the
    device leave the driver's globals alone: on every state and with every
    transport, each of them keeps the cached conversion times and the
    transfer mode, and makes at most the number of calls of one pass through
    its transactions and delays: 1 for [htu21_is_connected], 2 for the two
    status reads, 5 for enabling and disabling the heater, 4 for the serial
    number and 6 for a measurement. *)
Theorem htu21_operations_bounded_and_framed :
  frames 1 htu21_is_connected
  /\ (forall bat, frames 2 (htu21_get_battery_status bat))
  /\ (forall heater, frames 2 (htu21_get_heater_status heater))
  /\ frames 5 htu21_enable_heater
  /\ frames 5 htu21_disable_heater
  /\ (forall sn, frames 4 (htu21_read_serial_number sn))
  /\ (forall t h,
        frames 6 (htu21_read_temperature_and_relative_humidity t h)).
Proof.
  split; [exact frames_is_connected|].
  split; [exact frames_get_battery_status|].
  split; [exact frames_get_heater_status|].
  split; [exact frames_enable_heater|].
  split; [exact frames_disable_heater|].
  split; [exact frames_read_serial_number|].
  exact frames_read_temperature_and_relative_humidity.
Qed.

(** ** The cached conversion times are always a row of the table *)

Lemma keeps_table_of_frames {A : Type} (n : nat) (c : M A) :
  frames n c -> keeps_table c.
Proof. intros H s. left. apply (H s). Qed.

Lemma keeps_table_bind {A B : Type} (c : M A) (k : A -> M B) :
  keeps_table c -> (forall a, keeps_table (k a)) -> keeps_table (bind c k).
Proof.
  intros Hc Hk s. unfold bind.
  specialize (Hc s). destruct (c s) as [a s1]. cbn [snd] in Hc.
  destruct (Hk a s1) as [Hsame|Hrow]; [|right; exact Hrow].
  rewrite Hsame. exact Hc.
Qed.

Lemma keeps_table_ret {A : Type} (a : A) : keeps_table (ret a).
Proof. intros s. left. reflexivity. Qed.

Lemma keeps_table_set_times (t h : Z) :
  In (t, h) timing_rows -> keeps_table (set_conversion_times t h).
Proof.
  intros Hin s. right.
  assert (E : conversion_times (snd (set_conversion_times t h s)) = (t, h)).
  { cbn [timing_rows timing_table map snd In] in Hin.
    destruct Hin as [Hin|[Hin|[Hin|[Hin|[]]]]]; injection Hin as <- <-;
      reflexivity. }
  rewrite E. exact Hin.
Qed.

Lemma selected_row_in_table (E : htu21_resolution_enum) (res : Z) :
  In (snd (selected_row E res)) timing_rows.
Proof.
  unfold selected_row, timing_rows, timing_table.
  destruct (res =? _); [cbn; auto|].
  destruct (res =? _); [cbn; auto|].
  destruct (res =? _); [cbn; auto|].
  destruct (res =? _); cbn; auto 6.
Qed.

Lemma keeps_table_set_resolution (E : htu21_resolution_enum) (res : Z) :
  keeps_table (htu21_set_resolution E res).
Proof.
  rewrite set_resolution_selects.
  pose proof (selected_row_in_table E res) as Hrow.
  destruct (selected_row E res) as [bits [t h]]. cbn [fst snd] in *.
  unfold set_resolution_with.
  apply keeps_table_bind;
    [apply (keeps_table_of_frames 2), frames_read_user_register|].
  intros [status reg]. destruct (failed status); [apply keeps_table_ret|].
  apply keeps_table_bind; [apply keeps_table_set_times; exact Hrow|].
  intros _. apply keeps_table_bind;
    [apply (keeps_table_of_frames 3), frames_write_user_register|].
  intros st. apply keeps_table_ret.
Qed.

Lemma keeps_table_reset : keeps_table htu21_reset.
Proof.
  unfold htu21_reset.
  apply keeps_table_bind;
    [apply (keeps_table_of_frames 1), frames_write_command|].
  intros status. destruct (failed status); [apply keeps_table_ret|].
  apply keeps_table_bind.
  - apply keeps_table_set_times. cbn. auto.
  - intros _. apply keeps_table_bind;
      [apply (keeps_table_of_frames 1), frames_delay_ms|].
    intros _. apply keeps_table_ret.
Qed.

Lemma keeps_table_perform (E : htu21_resolution_enum) (op : operation) :
  keeps_table (perform E op).
Proof.
  destruct op; cbn [perform];
    try (apply keeps_table_bind; [|intros; apply keeps_table_ret]).
  - intros s. left. destruct s; reflexivity.
  - apply (keeps_table_of_frames 1), frames_is_connected.
  - apply keeps_table_reset.
  - intros s. left. destruct s; reflexivity.
  - apply keeps_table_set_resolution.
  - apply (keeps_table_of_frames 4), frames_read_serial_number.
  - apply (keeps_table_of_frames 2), frames_get_battery_status.
  - apply (keeps_table_of_frames 5), frames_enable_heater.
  - apply (keeps_table_of_frames 5), frames_disable_heater.
  - apply (keeps_table_of_frames 2), frames_get_heater_status.
  - apply (keeps_table_of_frames 6),
      frames_read_temperature_and_relative_humidity.
Qed.

(** X14. Whatever sequence of the driver's operations is called, with
    whatever arguments and whatever the transport answers, the cached pair
    of conversion times is a row of the table of htu21d.c: starting from the
    static initialisers, the temperature and humidity times are always
    those of one and the same resolution. *)
Theorem htu21_conversion_times_always_a_row
  (E : htu21_resolution_enum) (ops : list operation)
  (mode : htu21_i2c_master_mode) (script : list bus_reply) :
  In (conversion_times
        (snd (perform_all E ops (power_on_state mode script))))
     timing_rows.
Proof.
  assert (Hgen : forall s, In (conversion_times s) timing_rows ->
                   In (conversion_times (snd (perform_all E ops s)))
                      timing_rows).
  { induction ops as [|op ops IH]; intros s Hs; [exact Hs|].
    cbn [perform_all]. unfold bind.
    pose proof (keeps_table_perform E op s) as Hop.
    destruct (perform E op s) as [u s1]. cbn [snd] in Hop.
    apply IH. destruct Hop as [Hsame|Hrow]; [rewrite Hsame; exact Hs|exact Hrow]. }
  apply Hgen. cbn. auto.
Qed.

(** ** Conversion-and-read sequences *)

(** The status of the check and the value stored, by the checksum. *)
Lemma checked_reading (adc b0 b1 crc : Z) :
  is_byte b0 -> is_byte b1 -> is_byte crc ->
  let status := htu21_crc_check (big_endian [b0; b1]) crc in
  (status, if failed status then adc else big_endian [b0; b1])
  = reading_outcome adc b0 b1 crc.
Proof.
  intros H0 H1 Hc status. unfold reading_outcome.
  destruct (word_of_bytes b0 b1 H0 H1) as [_ Hrange].
  pose proof (crc_check_ok_iff (big_endian [b0; b1]) crc Hrange Hc) as Hiff.
  destruct (crc_check_cases (big_endian [b0; b1]) crc) as [E|E];
    fold status in E, Hiff; rewrite E; cbn [failed htu21_status_eqb negb].
  - rewrite (proj2 (Z.eqb_eq _ _) (proj1 Hiff E)). reflexivity.
  - destruct (Z.eqb_spec crc (crc8_spec (big_endian [b0; b1]))) as [Heq|Hne];
      [|reflexivity].
    apply (proj2 Hiff) in Heq. congruence.
Qed.

Lemma temperature_sequence_run
  (adc b0 b1 crc : Z) (d : list Z) (rest : list bus_reply)
  (s : driver_state) :
  (i2c_master_mode s = htu21_i2c_no_hold ->
   0 <= htu21_temperature_conversion_time s) ->
  is_byte b0 -> is_byte b1 -> is_byte crc ->
  bus_script s = ok_reply d :: ok_reply [b0; b1; crc] :: rest ->
  htu21_temperature_conversion_and_read_adc adc s
  = (reading_outcome adc b0 b1 crc,
     advance s rest
       (conversion_request (i2c_master_mode s) 0xE3 0xF3
          (htu21_temperature_conversion_time s) ++ [I2cRead 0x40 3])).
Proof.
  intros Ht H0 H1 Hc Hs.
  destruct s as [tct hct md sc tr]. cbn in Ht, Hs. subst sc.
  assert (Hms : md = htu21_i2c_no_hold -> (0 <=? tct / 1000) = true)
    by (intros Hmd; apply Z.leb_le, Z.div_pos; [apply Ht, Hmd | lia]).
  destruct (word_of_bytes b0 b1 H0 H1) as [Hword Hrange].
  rewrite <- (checked_reading adc b0 b1 crc H0 H1 Hc). cbv zeta.
  destruct md; unfold htu21_temperature_conversion_and_read_adc;
    run_sequence;
    rewrite !uint8_small by assumption;
    rewrite Hword, (uint16_small _ Hrange);
    set (check := htu21_crc_check _ _); clearbody check;
    destruct check; reflexivity.
Qed.

Lemma humidity_sequence_run
  (adc b0 b1 crc : Z) (d : list Z) (rest : list bus_reply)
  (s : driver_state) :
  (i2c_master_mode s = htu21_i2c_no_hold ->
   0 <= htu21_humidity_conversion_time s) ->
  is_byte b0 -> is_byte b1 -> is_byte crc ->
  bus_script s = ok_reply d :: ok_reply [b0; b1; crc] :: rest ->
  htu21_humidity_conversion_and_read_adc adc s
  = (reading_outcome adc b0 b1 crc,
     advance s rest
       (conversion_request (i2c_master_mode s) 0xE5 0xF5
          (htu21_humidity_conversion_time s) ++ [I2cRead 0x40 3])).
Proof.
  intros Ht H0 H1 Hc Hs.
  destruct s as [tct hct md sc tr]. cbn in Ht, Hs. subst sc.
  assert (Hms : md = htu21_i2c_no_hold -> (0 <=? hct / 1000) = true)
    by (intros Hmd; apply Z.leb_le, Z.div_pos; [apply Ht, Hmd | lia]).
  destruct (word_of_bytes b0 b1 H0 H1) as [Hword Hrange].
  rewrite <- (checked_reading adc b0 b1 crc H0 H1 Hc). cbv zeta.
  destruct md; unfold htu21_humidity_conversion_and_read_adc;
    run_sequence;
    rewrite !uint8_small by assumption;
    rewrite Hword, (uint16_small _ Hrange);
    set (check := htu21_crc_check _ _); clearbody check;
    destruct check; reflexivity.
Qed.

(** X15. [htu21_temperature_conversion_and_read_adc] requests the conversion
    by the mode: in hold mode the no-stop write of 0xE3 and no wait, in
    no-hold mode the write of 0xF3 followed by a wait of the cached
    temperature time divided by 1000.  When the command write fails its
    error is returned and no read is issued, yet in no-hold mode the wait has
    been made; when the read fails its error is returned; when the three
    bytes arrive the status is ok and the value stored is the big-endian
    number of the first two exactly when the third is their CRC-8, and
    [htu21_status_crc_error] otherwise.  On every failure the output keeps
    its value. *)
Theorem htu21_temperature_conversion_outcomes
  (adc : Z) (w r : bus_reply) (rest : list bus_reply) (s : driver_state) :
  0 <= htu21_temperature_conversion_time s ->
  bus_script s = w :: r :: rest ->
  let request :=
    conversion_request (i2c_master_mode s) 0xE3 0xF3
      (htu21_temperature_conversion_time s) in
  (reply_status w <> STATUS_OK ->
   htu21_temperature_conversion_and_read_adc adc s
   = ((status_of_transfer (reply_status w), adc),
      advance s (r :: rest) request))
  /\ (reply_status w = STATUS_OK -> reply_status r <> STATUS_OK ->
      htu21_temperature_conversion_and_read_adc adc s
      = ((status_of_transfer (reply_status r), adc),
         advance s rest (request ++ [I2cRead 0x40 3])))
  /\ (reply_status w = STATUS_OK -> reply_status r = STATUS_OK ->
      forall b0 b1 crc,
        is_byte b0 -> is_byte b1 -> is_byte crc ->
        reply_data r = [b0; b1; crc] ->
        htu21_temperature_conversion_and_read_adc adc s
        = (reading_outcome adc b0 b1 crc,
           advance s rest (request ++ [I2cRead 0x40 3]))).
Proof.
  intros Ht Hs request. unfold request. clear request.
  split; [|split].
  - intros Hw. destruct s as [tct hct md sc tr]. cbn in Ht, Hs. subst sc.
    assert (Hms : (0 <=? tct / 1000) = true)
      by (apply Z.leb_le, Z.div_pos; lia).
    destruct w as [[| |] dw]; cbn in Hw; try congruence;
      destruct md; unfold htu21_temperature_conversion_and_read_adc;
      run_sequence; reflexivity.
  - intros Hw Hr. destruct s as [tct hct md sc tr]. cbn in Ht, Hs. subst sc.
    assert (Hms : (0 <=? tct / 1000) = true)
      by (apply Z.leb_le, Z.div_pos; lia).
    destruct w as [[| |] dw]; cbn in Hw; try congruence;
      destruct r as [[| |] dr]; cbn in Hr; try congruence;
      destruct md; unfold htu21_temperature_conversion_and_read_adc;
      run_sequence; reflexivity.
  - intros Hw Hr b0 b1 crc H0 H1 Hc Hdata.
    destruct w as [stw dw], r as [str dr]. cbn in Hw, Hr, Hdata. subst.
    apply (temperature_sequence_run adc b0 b1 crc dw rest s);
      (assumption || reflexivity || (intros _; assumption)).
Qed.

(** The command write is not acknowledged in no-hold mode: the error comes
    back after the 50 ms wait. *)
Lemma htu21_temperature_conversion_outcomes_witness :
  htu21_temperature_conversion_and_read_adc 7
    (initial_state [failed_reply STATUS_ERR_OVERFLOW; ok_reply [0x68; 0x3A; 0x7C]])
  = ((htu21_status_no_i2c_acknowledge, 7),
     advance (initial_state []) [ok_reply [0x68; 0x3A; 0x7C]]
       [command_write 0xF3; TaskDelay 50]).
Proof.
  refine (proj1 (htu21_temperature_conversion_outcomes 7
                   (failed_reply STATUS_ERR_OVERFLOW)
                   (ok_reply [0x68; 0x3A; 0x7C]) []
                   (initial_state [failed_reply STATUS_ERR_OVERFLOW;
                                   ok_reply [0x68; 0x3A; 0x7C]])
                   _ eq_refl) _).
  - vm_compute. discriminate.
  - discriminate.
Defined.

(** X16. [htu21_humidity_conversion_and_read_adc] behaves as the
    temperature sequence does, with the commands 0xE5 (hold) and 0xF5
    (no hold) and the cached humidity time. *)
Theorem htu21_humidity_conversion_outcomes
  (adc : Z) (w r : bus_reply) (rest : list bus_reply) (s : driver_state) :
  0 <= htu21_humidity_conversion_time s ->
  bus_script s = w :: r :: rest ->
  let request :=
    conversion_request (i2c_master_mode s) 0xE5 0xF5
      (htu21_humidity_conversion_time s) in
  (reply_status w <> STATUS_OK ->
   htu21_humidity_conversion_and_read_adc adc s
   = ((status_of_transfer (reply_status w), adc),
      advance s (r :: rest) request))
  /\ (reply_status w = STATUS_OK -> reply_status r <> STATUS_OK ->
      htu21_humidity_conversion_and_read_adc adc s
      = ((status_of_transfer (reply_status r), adc),
         advance s rest (request ++ [I2cRead 0x40 3])))
  /\ (reply_status w = STATUS_OK -> reply_status r = STATUS_OK ->
      forall b0 b1 crc,
        is_byte b0 -> is_byte b1 -> is_byte crc ->
        reply_data r = [b0; b1; crc] ->
        htu21_humidity_conversion_and_read_adc adc s
        = (reading_outcome adc b0 b1 crc,
           advance s rest (request ++ [I2cRead 0x40 3]))).
Proof.
  intros Ht Hs request. unfold request. clear request.
  split; [|split].
  - intros Hw. destruct s as [tct hct md sc tr]. cbn in Ht, Hs. subst sc.
    assert (Hms : (0 <=? hct / 1000) = true)
      by (apply Z.leb_le, Z.div_pos; lia).
    destruct w as [[| |] dw]; cbn in Hw; try congruence;
      destruct md; unfold htu21_humidity_conversion_and_read_adc;
      run_sequence; reflexivity.
  - intros Hw Hr. destruct s as [tct hct md sc tr]. cbn in Ht, Hs. subst sc.
    assert (Hms : (0 <=? hct / 1000) = true)
      by (apply Z.leb_le, Z.div_pos; lia).
    destruct w as [[| |] dw]; cbn in Hw; try congruence;
      destruct r as [[| |] dr]; cbn in Hr; try congruence;
      destruct md; unfold htu21_humidity_conversion_and_read_adc;
      run_sequence; reflexivity.
  - intros Hw Hr b0 b1 crc H0 H1 Hc Hdata.
    destruct w as [stw dw], r as [str dr]. cbn in Hw, Hr, Hdata. subst.
    apply (humidity_sequence_run adc b0 b1 crc dw rest s);
      (assumption || reflexivity || (intros _; assumption)).
Qed.

(** In hold mode a read that times out: one no-stop write, one read, no
    wait. *)
Lemma htu21_humidity_conversion_outcomes_witness :
  htu21_humidity_conversion_and_read_adc 7
    (power_on_state htu21_i2c_hold
       [ok_reply []; failed_reply STATUS_ERR_TIMEOUT])
  = ((htu21_status_i2c_transfer_error, 7),
     advance (power_on_state htu21_i2c_hold []) []
       [command_write_no_stop 0xE5; I2cRead 0x40 3]).
Proof.
  refine (proj1 (proj2 (htu21_humidity_conversion_outcomes 7
                   (ok_reply []) (failed_reply STATUS_ERR_TIMEOUT) []
                   (power_on_state htu21_i2c_hold
                      [ok_reply []; failed_reply STATUS_ERR_TIMEOUT])
                   _ eq_refl)) eq_refl _).
  - vm_compute. discriminate.
  - discriminate.
Defined.

(** The whole measurement on a transport answering ok with checksums that
    verify, from any mode and any cached times. *)
Lemma read_temperature_and_relative_humidity_run
  (t0 t1 h0 h1 : Z) (temperature humidity : float) (d1 d3 : list Z)
  (rest : list bus_reply) (s : driver_state) :
  (i2c_master_mode s = htu21_i2c_no_hold ->
   0 <= htu21_temperature_conversion_time s
   /\ 0 <= htu21_humidity_conversion_time s) ->
  is_byte t0 -> is_byte t1 -> is_byte h0 -> is_byte h1 ->
  bus_script s =
    ok_reply d1 :: ok_reply [t0; t1; crc8_spec (big_endian [t0; t1])]
    :: ok_reply d3 :: ok_reply [h0; h1; crc8_spec (big_endian [h0; h1])]
    :: rest ->
  htu21_read_temperature_and_relative_humidity temperature humidity s
  = ((htu21_status_ok,
      temperature_of_adc (big_endian [t0; t1]),
      humidity_of_adc (big_endian [h0; h1])),
     advance s rest
       (conversion_request (i2c_master_mode s) 0xE3 0xF3
          (htu21_temperature_conversion_time s)
        ++ [I2cRead 0x40 3]
        ++ conversion_request (i2c_master_mode s) 0xE5 0xF5
             (htu21_humidity_conversion_time s)
        ++ [I2cRead 0x40 3])).
Proof.
  intros Htimes Ht0 Ht1 Hh0 Hh1 Hs.
  assert (Ht := fun Hmd => proj1 (Htimes Hmd)).
  assert (Hh := fun Hmd => proj2 (Htimes Hmd)).
  assert (Hcrc : forall b0 b1, is_byte b0 -> is_byte b1 ->
            is_byte (crc8_spec (big_endian [b0; b1]))
            /\ forall adc,
                 reading_outcome adc b0 b1 (crc8_spec (big_endian [b0; b1]))
                 = (htu21_status_ok, big_endian [b0; b1])).
  { intros b0 b1 H0 H1.
    destruct (word_of_bytes b0 b1 H0 H1) as [_ Hrange].
    destruct (crc_result_is_crc8 _ Hrange) as [_ Hb].
    split; [exact Hb|]. intros adc. unfold reading_outcome.
    rewrite Z.eqb_refl. reflexivity. }
  destruct (Hcrc t0 t1 Ht0 Ht1) as [Htc Hto].
  destruct (Hcrc h0 h1 Hh0 Hh1) as [Hhc Hho].
  unfold htu21_read_temperature_and_relative_humidity, bind.
  rewrite (temperature_sequence_run 0 t0 t1 _ d1 _ s Ht Ht0 Ht1 Htc Hs).
  rewrite Hto. cbn [failed htu21_status_eqb negb].
  rewrite (humidity_sequence_run (big_endian [t0; t1]) h0 h1
             (crc8_spec (big_endian [h0; h1])) d3 rest);
    [| exact Hh | exact Hh0 | exact Hh1 | exact Hhc | reflexivity].
  rewrite Hho. cbn [failed htu21_status_eqb negb].
  unfold ret. rewrite advance_advance.
  cbn [advance i2c_master_mode htu21_humidity_conversion_time].
  rewrite <- !app_assoc. reflexivity.
Qed.

(** X17. In hold mode [htu21_read_temperature_and_relative_humidity] never
    waits, whatever conversion times are cached: with the transport
    answering ok and both checksums right it makes four transactions, the
    no-stop write of 0xE3, a 3-byte read, the no-stop write of 0xE5 and a
    3-byte read, and stores the converted big-endian readings. *)
Theorem htu21_read_hold_mode
  (t0 t1 h0 h1 : Z) (temperature humidity : float) (d1 d3 : list Z)
  (rest : list bus_reply) (s : driver_state) :
  i2c_master_mode s = htu21_i2c_hold ->
  is_byte t0 -> is_byte t1 -> is_byte h0 -> is_byte h1 ->
  bus_script s =
    ok_reply d1 :: ok_reply [t0; t1; crc8_spec (big_endian [t0; t1])]
    :: ok_reply d3 :: ok_reply [h0; h1; crc8_spec (big_endian [h0; h1])]
    :: rest ->
  htu21_read_temperature_and_relative_humidity temperature humidity s
  = ((htu21_status_ok,
      temperature_of_adc (big_endian [t0; t1]),
      humidity_of_adc (big_endian [h0; h1])),
     advance s rest
       [command_write_no_stop 0xE3; I2cRead 0x40 3;
        command_write_no_stop 0xE5; I2cRead 0x40 3]).
Proof.
  intros Hmode Ht0 Ht1 Hh0 Hh1 Hs.
  rewrite (read_temperature_and_relative_humidity_run t0 t1 h0 h1
             temperature humidity d1 d3 rest s);
    try assumption; [|intros Hmd; congruence].
  rewrite Hmode. reflexivity.
Qed.

(** The datasheet's readings 0x683A and 0x4E85 with the 11-bit times
    cached. *)
Lemma htu21_read_hold_mode_witness :
  let s := {| htu21_temperature_conversion_time := 7000;
              htu21_humidity_conversion_time := 8000;
              i2c_master_mode := htu21_i2c_hold;
              bus_script :=
                [ok_reply [];
                 ok_reply [0x68; 0x3A; crc8_spec (big_endian [0x68; 0x3A])];
                 ok_reply [];
                 ok_reply [0x4E; 0x85; crc8_spec (big_endian [0x4E; 0x85])]];
              bus_trace := [] |} in
  bus_trace
    (snd (htu21_read_temperature_and_relative_humidity
            (float_of_int 0) (float_of_int 0) s))
  = [command_write_no_stop 0xE3; I2cRead 0x40 3;
     command_write_no_stop 0xE5; I2cRead 0x40 3].
Proof.
  intro s.
  rewrite (htu21_read_hold_mode 0x68 0x3A 0x4E 0x85
             (float_of_int 0) (float_of_int 0) [] [] [] s);
    [reflexivity | reflexivity | | | | | reflexivity];
    unfold is_byte; lia.
Defined.

(** X18. The waits of a measurement follow the resolution last requested:
    in no-hold mode, after [htu21_set_resolution] for the enumerator of a
    row of the table has read the register, the measurement that follows
    waits the row's temperature time and then its humidity time, each
    divided by 1000, in milliseconds.  This holds whether or not the device
    has accepted the register write. *)
Theorem htu21_set_resolution_sets_measurement_waits
  (E : htu21_resolution_enum) (res bits t h cur1 cur2 t0 t1 h0 h1 : Z)
  (temperature humidity : float) (d1 d3 d6 d8 : list Z) (r5 : bus_reply)
  (rest : list bus_reply) (s : driver_state) :
  NoDup (enumerators E) ->
  In (res, (bits, (t, h))) (combine (enumerators E) timing_table) ->
  i2c_master_mode s = htu21_i2c_no_hold ->
  is_byte cur1 -> is_byte cur2 ->
  is_byte t0 -> is_byte t1 -> is_byte h0 -> is_byte h1 ->
  bus_script s =
    ok_reply d1 :: ok_reply [cur1] :: ok_reply d3 :: ok_reply [cur2] :: r5
    :: ok_reply d6 :: ok_reply [t0; t1; crc8_spec (big_endian [t0; t1])]
    :: ok_reply d8 :: ok_reply [h0; h1; crc8_spec (big_endian [h0; h1])]
    :: rest ->
  let (result, s') :=
    (htu21_set_resolution E res ;;;
     htu21_read_temperature_and_relative_humidity temperature humidity) s in
  result = (htu21_status_ok,
            temperature_of_adc (big_endian [t0; t1]),
            humidity_of_adc (big_endian [h0; h1]))
  /\ exists sent,
       bus_trace s' =
         bus_trace s ++
         [command_write 0xE7; I2cRead 0x40 1;
          command_write 0xE7; I2cRead 0x40 1;
          register_write sent;
          command_write 0xF3; TaskDelay (t / 1000); I2cRead 0x40 3;
          command_write 0xF5; TaskDelay (h / 1000); I2cRead 0x40 3].
Proof.
  intros Hnd Hin Hmode H1 H2 Ht0 Ht1 Hh0 Hh1 Hs.
  unfold bind.
  rewrite set_resolution_selects.
  rewrite (selected_row_of_enumerator E res _ Hnd Hin). cbn [fst snd].
  assert (Hbits : In bits [0x00; 0x80; 0x01; 0x81]
                  /\ (uint32 t, uint32 h) = (t, h)
                  /\ 0 <= t /\ 0 <= h).
  { cbn [combine enumerators timing_table In] in Hin.
    destruct Hin as [Hin|[Hin|[Hin|[Hin|[]]]]];
      injection Hin as _ <- <- <-;
      (split; [cbn [In]; auto 10 | split; [reflexivity | lia]]). }
  destruct Hbits as (Hbits & Htimes & Htpos & Hhpos).
  pose proof (set_resolution_run bits t h cur1 cur2 d1 d3 r5 _ s
                H1 H2 Hbits Hs) as Hrun.
  cbv zeta in Hrun.
  destruct (set_resolution_with bits t h s) as [status s1].
  destruct Hrun as (_ & Ht & Hmd & Hsc & Htr).
  rewrite Htimes in Ht. unfold conversion_times in Ht.
  injection Ht as Htct Hhct.
  rewrite (read_temperature_and_relative_humidity_run t0 t1 h0 h1
             temperature humidity d6 d8 rest s1);
    try assumption; [|intros _; rewrite Htct, Hhct; split; assumption].
  split; [reflexivity|].
  eexists. cbn [advance bus_trace].
  rewrite Htr, Hmd, Hmode, Htct, Hhct. cbn [conversion_request].
  rewrite <- app_assoc. cbn [app]. reflexivity.
Qed.

(** The 11-bit resolution against the sample enumeration, the register
    write timing out. *)
Lemma htu21_set_resolution_sets_measurement_waits_witness :
  let s := initial_state
             [ok_reply []; ok_reply [0x02]; ok_reply []; ok_reply [0x02];
              failed_reply STATUS_ERR_TIMEOUT;
              ok_reply [];
              ok_reply [0x68; 0x3A; crc8_spec (big_endian [0x68; 0x3A])];
              ok_reply [];
              ok_reply [0x4E; 0x85; crc8_spec (big_endian [0x4E; 0x85])]] in
  exists sent,
    bus_trace
      (snd ((htu21_set_resolution sample_resolution_enum 3 ;;;
             htu21_read_temperature_and_relative_humidity
               (float_of_int 0) (float_of_int 0)) s))
    = [command_write 0xE7; I2cRead 0x40 1;
       command_write 0xE7; I2cRead 0x40 1;
       register_write sent;
       command_write 0xF3; TaskDelay 7; I2cRead 0x40 3;
       command_write 0xF5; TaskDelay 8; I2cRead 0x40 3].
Proof.
  intro s.
  pose proof (htu21_set_resolution_sets_measurement_waits
                sample_resolution_enum 3 0x81 7000 8000 0x02 0x02
                0x68 0x3A 0x4E 0x85 (float_of_int 0) (float_of_int 0)
                [] [] [] [] (failed_reply STATUS_ERR_TIMEOUT) [] s) as H.
  destruct ((htu21_set_resolution sample_resolution_enum 3 ;;;
             htu21_read_temperature_and_relative_humidity
               (float_of_int 0) (float_of_int 0)) s) as [result s'].
  destruct H as [_ H].
  - repeat (constructor; [cbn; intuition discriminate|]). constructor.
  - cbn. auto 10.
  - reflexivity.
  - unfold is_byte; lia.
  - unfold is_byte; lia.
  - unfold is_byte; lia.
  - unfold is_byte; lia.
  - unfold is_byte; lia.
  - unfold is_byte; lia.
  - reflexivity.
  - exact H.
Defined.

(** ** Failures of the register read and of the serial-number reads *)

(** X19. [htu21_read_serial_number] stops at the first read that fails: a
    failed first read returns its error with the output unchanged and the
    second command is not sent; a failed second read returns its error with
    the output unchanged.  The answers to the two command writes play no
    part. *)
Theorem htu21_read_serial_number_read_failures
  (serial_number : Z) (w1 r1 w2 r2 : bus_reply) (rest : list bus_reply)
  (s : driver_state) :
  bus_script s = w1 :: r1 :: w2 :: r2 :: rest ->
  (reply_status r1 <> STATUS_OK ->
   htu21_read_serial_number serial_number s
   = ((status_of_transfer (reply_status r1), serial_number),
      advance s (w2 :: r2 :: rest)
        [serial_command 0xFA 0x0F; I2cRead 0x40 8]))
  /\ (reply_status r1 = STATUS_OK -> reply_status r2 <> STATUS_OK ->
      htu21_read_serial_number serial_number s
      = ((status_of_transfer (reply_status r2), serial_number),
         advance s rest
           [serial_command 0xFA 0x0F; I2cRead 0x40 8;
            serial_command 0xFC 0xC9; I2cRead 0x40 6])).
Proof.
  intros Hs. destruct s as [tct hct md sc tr]. cbn in Hs. subst sc.
  destruct w1 as [st1 dw1], w2 as [st2 dw2].
  split.
  - intros Hr1. destruct r1 as [[| |] d1]; cbn in Hr1; try congruence;
      unfold htu21_read_serial_number;
      lazy - [uint8 app store_bytes];
      repeat rewrite <- app_assoc; reflexivity.
  - intros Hr1 Hr2.
    destruct r1 as [[| |] d1]; cbn in Hr1; try congruence;
      destruct r2 as [[| |] d2]; cbn in Hr2; try congruence;
      unfold htu21_read_serial_number;
      lazy - [uint8 app store_bytes check_byte_pairs check_word_triples
              serial_number_of];
      repeat rewrite <- app_assoc; reflexivity.
Qed.

Lemma htu21_read_serial_number_read_failures_witness :
  fst (htu21_read_serial_number 0x1234
         (initial_state [ok_reply []; failed_reply STATUS_ERR_OVERFLOW;
                         ok_reply []; ok_reply []]))
  = (htu21_status_no_i2c_acknowledge, 0x1234).
Proof.
  rewrite (proj1 (htu21_read_serial_number_read_failures 0x1234
                    (ok_reply []) (failed_reply STATUS_ERR_OVERFLOW)
                    (ok_reply []) (ok_reply []) []
                    (initial_state
                       [ok_reply []; failed_reply STATUS_ERR_OVERFLOW;
                        ok_reply []; ok_reply []])
                    eq_refl));
    [reflexivity | discriminate].
Defined.

(** X20. When the register read of [htu21_set_resolution] fails, at its
    command write or at its read, the error is returned, nothing is written
    to the device and the cached conversion times are kept, whatever
    resolution was asked for. *)
Theorem htu21_set_resolution_read_failure_keeps_times
  (E : htu21_resolution_enum) (res : Z) (r1 r2 : bus_reply)
  (rest : list bus_reply) (s : driver_state) :
  bus_script s = r1 :: r2 :: rest ->
  (reply_status r1 <> STATUS_OK ->
   htu21_set_resolution E res s
   = (status_of_transfer (reply_status r1),
      advance s (r2 :: rest) [command_write 0xE7]))
  /\ (reply_status r1 = STATUS_OK -> reply_status r2 <> STATUS_OK ->
      htu21_set_resolution E res s
      = (status_of_transfer (reply_status r2),
         advance s rest [command_write 0xE7; I2cRead 0x40 1])).
Proof.
  intros Hs. rewrite set_resolution_selects.
  generalize (fst (selected_row E res)) (fst (snd (selected_row E res)))
    (snd (snd (selected_row E res))).
  intros bits t h.
  destruct s as [tct hct md sc tr]. cbn in Hs. subst sc.
  split.
  - intros Hr1. destruct r1 as [[| |] d1]; cbn in Hr1; try congruence;
      unfold set_resolution_with;
      lazy - [uint8 uint32 app Z.land Z.lor Z.lnot];
      repeat rewrite <- app_assoc; reflexivity.
  - intros Hr1 Hr2.
    destruct r1 as [[| |] d1]; cbn in Hr1; try congruence;
      destruct r2 as [[| |] d2]; cbn in Hr2; try congruence;
      unfold set_resolution_with;
      lazy - [uint8 uint32 app Z.land Z.lor Z.lnot];
      repeat rewrite <- app_assoc; reflexivity.
Qed.

Lemma htu21_set_resolution_read_failure_keeps_times_witness :
  let s := initial_state [ok_reply []; failed_reply STATUS_ERR_TIMEOUT] in
  fst (htu21_set_resolution sample_resolution_enum 3 s)
  = htu21_status_i2c_transfer_error
  /\ conversion_times (snd (htu21_set_resolution sample_resolution_enum 3 s))
     = (50000, 16000).
Proof.
  intro s.
  rewrite (proj2 (htu21_set_resolution_read_failure_keeps_times
                    sample_resolution_enum 3
                    (ok_reply []) (failed_reply STATUS_ERR_TIMEOUT) [] s
                    eq_refl));
    [split; reflexivity | reflexivity | discriminate].
Defined.
